(** * Expense tracker: entity, store and query engine

    A shallow embedding of [tracker/models.py], [tracker/storage.py] and
    [tracker/service.py], followed by the properties of the specification
    that were checked against it.

    Conventions of the embedding.
    - A Python [str] is a [string]; each [ascii] stands for one code point
      in U+0000..U+00FF.  Text with larger code points is not covered.
    - A Python [float] is an IEEE 754 binary64 value, [spec_float] with
      precision 53 and maximal exponent 1024, so NaN, the infinities and
      signed zeros are all present.
    - Exceptions are values of [exn]; a computation that may raise returns a
      [result].  Code that touches the file or the clock runs in the monad
      [M] over [world].
    - Reading an existing file and creating the data directory are taken
      to succeed; a write may fail, as the [fault] of the world says.
    - What Python leaves to the interpreter (how [sum] adds floats, what
      [sorted] returns when [<] does not order the keys) is a parameter,
      [Py.interpreter], of the functions that depend on it.
    - Logging calls are left out: they do not influence any result. *)

From Stdlib Require Import ZArith List String Ascii Lia Bool.
From Stdlib Require Import Permutation Sorted.
From Stdlib Require Import SpecFloat.
From stdpp Require Import base gmap strings list.

Import ListNotations.
Local Open Scope string_scope.
Local Open Scope Z_scope.

(** ** Text *)

Module Text.

Definition code (c : ascii) : N := N_of_ascii c.

(** [str.isspace] on one code point of the Latin-1 range. *)
Definition is_space (c : ascii) : bool :=
  let n := code c in
  ((9 <=? n) && (n <=? 13) || (28 <=? n) && (n <=? 32)
   || (n =? 133) || (n =? 160))%N.

Definition is_digit (c : ascii) : bool :=
  let n := code c in ((48 <=? n) && (n <=? 57))%N.

Definition digit_val (c : ascii) : Z := Z.of_N (code c) - 48.

(** [str.lower] on one code point: A-Z and the Latin-1 capitals
    U+00C0..U+00DE (the multiplication sign U+00D7 apart). *)
Definition lower_char (c : ascii) : ascii :=
  let n := code c in
  if ((65 <=? n) && (n <=? 90)
      || (192 <=? n) && (n <=? 222) && negb (n =? 215))%N
  then ascii_of_N (n + 32) else c.

Fixpoint lower (s : string) : string :=
  match s with
  | EmptyString => EmptyString
  | String c s' => String (lower_char c) (lower s')
  end.

Fixpoint lstrip (s : string) : string :=
  match s with
  | EmptyString => EmptyString
  | String c s' => if is_space c then lstrip s' else s
  end.

Definition is_empty (s : string) : bool :=
  match s with EmptyString => true | _ => false end.

Fixpoint rstrip (s : string) : string :=
  match s with
  | EmptyString => EmptyString
  | String c s' =>
      let r := rstrip s' in
      if is_space c && is_empty r then EmptyString else String c r
  end.

(** [s.strip()] *)
Definition strip (s : string) : string := rstrip (lstrip s).

(** [s.startswith(p)] *)
Definition startswith (s p : string) : bool := String.prefix p s.

(** [s.replace] of every hyphen by nothing. *)
Fixpoint remove_hyphens (s : string) : string :=
  match s with
  | EmptyString => EmptyString
  | String c s' =>
      if Ascii.eqb c "-" then remove_hyphens s' else String c (remove_hyphens s')
  end.

(** Truth value of a string: empty is false. *)
Definition truthy (s : string) : bool := negb (is_empty s).

(** Whether a character of the text takes several bytes in UTF-8: a code
    point from U+0080 on. *)
Fixpoint several_bytes (s : string) : bool :=
  match s with
  | EmptyString => false
  | String c s' => (128 <=? code c)%N || several_bytes s'
  end.

(** Comparison of strings, code point by code point. *)
Definition str_lt (a b : string) : bool := String.ltb a b.
Definition str_le (a b : string) : bool := String.leb a b.

End Text.

(** ** [datetime.strptime(s, "%Y-%m-%d")]

    The standard library turns the format into the regular expression
    [(\d\d\d\d)-(1[0-2]|0[1-9]|[1-9])-(3[0-1]|[1-2]\d|0[1-9]|[1-9]| [1-9])],
    matches it at the start of the string, rejects left-over text, and then
    builds the date, which rejects year 0 and days past the end of the
    month.  Alternatives are tried in the order written. *)

Module Strptime.
Import Text.

Definition in_range (c : ascii) (lo hi : N) : bool :=
  let n := code c in ((lo <=? n) && (n <=? hi))%N.

Definition two (a b : ascii) : Z := 10 * digit_val a + digit_val b.

(** The matches of the month group at the head of [s], best first, each
    with the text left over. *)
Definition month_alts (s : string) : list (Z * string) :=
  (match s with
   | String a (String b r) =>
       (if Ascii.eqb a "1" && in_range b 48 50 then [(two a b, r)] else [])
       ++ (if Ascii.eqb a "0" && in_range b 49 57 then [(two a b, r)] else [])
   | _ => []
   end)
  ++ (match s with
      | String a r => if in_range a 49 57 then [(digit_val a, r)] else []
      | _ => []
      end).

Definition day_alts (s : string) : list (Z * string) :=
  (match s with
   | String a (String b r) =>
       (if Ascii.eqb a "3" && in_range b 48 49 then [(two a b, r)] else [])
       ++ (if in_range a 49 50 && is_digit b then [(two a b, r)] else [])
       ++ (if Ascii.eqb a "0" && in_range b 49 57 then [(two a b, r)] else [])
   | _ => []
   end)
  ++ (match s with
      | String a r => if in_range a 49 57 then [(digit_val a, r)] else []
      | _ => []
      end)
  ++ (match s with
      | String a (String b r) =>
          if Ascii.eqb a " " && in_range b 49 57 then [(digit_val b, r)] else []
      | _ => []
      end).

(** After the month: a hyphen, then the first day alternative. *)
Definition after_month (m : Z) (s : string) : option (Z * Z * string) :=
  match s with
  | String c r =>
      if Ascii.eqb c "-" then
        match day_alts r with
        | (d, rest) :: _ => Some (m, d, rest)
        | [] => None
        end
      else None
  | _ => None
  end.

Fixpoint first_some {A B} (f : A -> option B) (l : list A) : option B :=
  match l with
  | [] => None
  | x :: l' => match f x with Some y => Some y | None => first_some f l' end
  end.

(** The regular expression match: year, month, day and the text left. *)
Definition re_match (s : string) : option (Z * Z * Z * string) :=
  match s with
  | String y1 (String y2 (String y3 (String y4 (String h r)))) =>
      if is_digit y1 && is_digit y2 && is_digit y3 && is_digit y4
         && Ascii.eqb h "-"
      then
        match first_some (fun mr => after_month (fst mr) (snd mr)) (month_alts r) with
        | Some (m, d, rest) => Some (10 * (10 * two y1 y2 + digit_val y3) + digit_val y4, m, d, rest)
        | None => None
        end
      else None
  | _ => None
  end.

Definition is_leap (y : Z) : bool :=
  (y mod 4 =? 0) && (negb (y mod 100 =? 0) || (y mod 400 =? 0)).

Definition days_in_month (y m : Z) : Z :=
  if m =? 2 then (if is_leap y then 29 else 28)
  else if (m =? 4) || (m =? 6) || (m =? 9) || (m =? 11) then 30
  else 31.

(** [Some (y, m, d)] when [strptime] returns, [None] when it raises
    [ValueError]. *)
Definition strptime (s : string) : option (Z * Z * Z) :=
  match re_match s with
  | Some (y, m, d, rest) =>
      if is_empty rest && (1 <=? y) && (d <=? days_in_month y m)
      then Some (y, m, d) else None
  | None => None
  end.

End Strptime.

(** ** Numbers *)

Module Num.

Definition float := spec_float.

Definition prec : Z := 53.
Definition emax : Z := 1024.

Definition fzero : float := S754_zero false.
Definition fadd (a b : float) : float := SFadd prec emax a b.
Definition flt (a b : float) : bool := SFltb a b.
Definition fle (a b : float) : bool := SFleb a b.
Definition feq (a b : float) : bool := SFeqb a b.
(** [a >= b] is evaluated as [b <= a]; both are false on NaN. *)
Definition fge (a b : float) : bool := SFleb b a.
Definition fgt (a b : float) : bool := SFltb b a.

Definition is_nan (a : float) : bool :=
  match a with S754_nan => true | _ => false end.

Definition fsub (a b : float) : float := SFsub prec emax a b.
Definition fabs (a : float) : float := SFabs a.

(** [isfinite(a)] *)
Definition is_finite (a : float) : bool :=
  match a with S754_zero _ | S754_finite _ _ _ => true | _ => false end.

(** [a != 0.0]: true for NaN as well. *)
Definition nonzero (a : float) : bool :=
  match a with S754_zero _ => false | _ => true end.

(** The float nearest to an integer (ties to even); an infinity when the
    integer is out of range. *)
Definition nearest (z : Z) : float := binary_normalize prec emax z 0 false.

End Num.

(** ** Exceptions and results *)

Inductive exn : Type :=
  | ValueError (msg : string)
  | TypeError (msg : string)
  | KeyError (key : string)
  | OverflowError (msg : string)
  | OSError
  | JSONDecodeError
  | UnicodeDecodeError
  | Exception (context : string) (cause : exn).
    (* [Exception(f"{context}: {cause}")] *)

Inductive result (A : Type) : Type :=
  | Ok (a : A)
  | Raise (e : exn).
Arguments Ok {A} a.
Arguments Raise {A} e.

(** [str(e)] as far as the code inspects it. *)
Definition exn_str (e : exn) : string :=
  match e with
  | ValueError m | TypeError m | OverflowError m => m
  | _ => EmptyString
  end.

(** [needle in hay] *)
Fixpoint contains (needle hay : string) : bool :=
  String.prefix needle hay
  || match hay with
     | EmptyString => false
     | String _ hay' => contains needle hay'
     end.

(** ** The expense entity ([tracker/models.py]) *)

(** A value in amount position: what the command line ([type=float]), the
    service and a JSON number or null can put there. *)
Inductive amount_arg : Type :=
  | ANone
  | AInt (z : Z)
  | AFloat (f : Num.float).

Module Expense.

Record t : Type := mk {
  id : string;
  date : string;
  category : string;
  amount : Num.float;
  note : string;
  currency : string
}.

Definition with_note (e : t) (n : string) : t :=
  mk (id e) (date e) (category e) (amount e) n (currency e).

End Expense.

Abbreviation Expense := Expense.t.

(** The flat field mapping of [to_dict] and [from_dict].  A key that is
    not in the mapping is [None]; the values have the types that the
    annotations of [Expense] give them. *)
Record dict : Type := mkdict {
  d_id : option string;
  d_date : option string;
  d_category : option string;
  d_amount : option amount_arg;
  d_note : option string;
  d_currency : option string
}.

Definition _validate_date (date : string) : result string :=
  match Strptime.strptime date with
  | Some _ => Ok date
  | None => Raise (ValueError "date must be YYYY-MM-DD")
  end.

Definition _validate_category (category : string) : result string :=
  if negb (Text.truthy category) || negb (Text.truthy (Text.strip category))
  then Raise (ValueError "category cannot be empty")
  else Ok (Text.lower (Text.strip category)).

(** [float(amount)] *)
Definition py_float (amount : amount_arg) : result Num.float :=
  match amount with
  | ANone =>
      Raise (TypeError "float() argument must be a string or a real number, not 'NoneType'")
  | AInt z =>
      match Num.nearest z with
      | S754_infinity _ => Raise (OverflowError "int too large to convert to float")
      | f => Ok f
      end
  | AFloat f => Ok f
  end.

Definition _validate_amount (amount : amount_arg) : result Num.float :=
  let body :=
    match py_float amount with
    | Ok a =>
        if Num.fle a Num.fzero then Raise (ValueError "amount must be > 0")
        else Ok a
    | Raise e => Raise e
    end in
  match body with
  | Ok a => Ok a
  | Raise (ValueError _ as e) | Raise (TypeError _ as e) =>
      if contains "amount must be > 0" (exn_str e) then Raise e
      else Raise (ValueError "amount must be a valid number")
  | Raise e => Raise e
  end.

(** ** The world: the store file, the faults of coming writes, the clock *)

(** The JSON document in the store file.  A versioned object may lack
    either key; a bare array is the legacy shape. *)
Inductive document : Type :=
  | Legacy (items : list dict)
  | Versioned (version : option Z) (expenses : option (list dict)).

(** What the file holds: the whole text [json.dump] writes for a document;
    or, after a write that failed under way, only the first [n] characters
    of that text (fewer than all of it); or some other text that is not
    JSON; or, after a write that failed inside a character that takes
    several bytes, the first [n] characters of the text of a document and
    then an incomplete character, which is not valid UTF-8. *)
Inductive file_content : Type :=
  | Text (d : document)
  | Truncated (d : document) (n : nat)
  | Malformed (text : string)
  | TruncatedInside (d : document) (n : nat).

(** How a coming [open(path, 'w')] followed by [json.dump] goes: well; the
    file cannot be opened; the write fails after [n] whole characters; the
    write fails after [n] characters and a part of the next one. *)
Inductive fault : Type :=
  | NoFault
  | OpenFails
  | WriteFails (n : nat)
  | WriteFailsInside (n : nat).

(** Whether the text of a document has a character of several bytes.  The
    keys and the numbers are ASCII, and [json.dump] is called with
    [ensure_ascii=False], so such a character is written as it is. *)
Definition opt_several_bytes (o : option string) : bool :=
  match o with Some s => Text.several_bytes s | None => false end.

Definition dict_several_bytes (item : dict) : bool :=
  opt_several_bytes (d_id item) || opt_several_bytes (d_date item)
  || opt_several_bytes (d_category item) || opt_several_bytes (d_note item)
  || opt_several_bytes (d_currency item).

Definition document_several_bytes (data : document) : bool :=
  match data with
  | Legacy items => List.existsb dict_several_bytes items
  | Versioned _ (Some items) => List.existsb dict_several_bytes items
  | Versioned _ None => false
  end.

Record world : Type := mkworld {
  w_file : option file_content;   (* [None]: the file does not exist *)
  w_faults : list fault;          (* one per coming write; none left: no fault *)
  w_clock : nat -> string;        (* [strftime("%H%M%S%f")] of the k-th [now()] *)
  w_tick : nat
}.

Definition M (A : Type) : Type := world -> result A * world.

Definition ret {A} (a : A) : M A := fun w => (Ok a, w).
Definition raise {A} (e : exn) : M A := fun w => (Raise e, w).
Definition bind {A B} (m : M A) (k : A -> M B) : M B :=
  fun w => match m w with
           | (Ok a, w') => k a w'
           | (Raise e, w') => (Raise e, w')
           end.
Definition lift {A} (r : result A) : M A := fun w => (r, w).
(** [try: m  except Exception as e: h e] *)
Definition try_except {A} (m : M A) (h : exn -> M A) : M A :=
  fun w => match m w with
           | (Ok a, w') => (Ok a, w')
           | (Raise e, w') => h e w'
           end.

Notation "x <- m ;; k" := (bind m (fun x => k))
  (at level 100, m at next level, right associativity).
Notation "m ;;; k" := (bind m (fun _ => k))
  (at level 100, right associativity).

Fixpoint mapM {A B} (f : A -> M B) (l : list A) : M (list B) :=
  match l with
  | [] => ret []
  | x :: l' => y <- f x ;; ys <- mapM f l' ;; ret (y :: ys)
  end.

(** [datetime.now().strftime("%H%M%S%f")] *)
Definition now_stamp : M string :=
  fun w => (Ok (w_clock w (w_tick w)),
            mkworld (w_file w) (w_faults w) (w_clock w) (S (w_tick w))).

Definition _generate_id (date : string) : M string :=
  let date_part := Text.remove_hyphens date in
  stamp <- now_stamp ;;
  let timestamp := String.substring 0 6 stamp in
  ret ("EXP-" ++ date_part ++ "-" ++ timestamp).

(** [Expense(date, category, amount, note, currency, expense_id)] *)
Definition Expense_init (date category : string) (amount : amount_arg)
    (note currency : string) (expense_id : option string) : M Expense :=
  d <- lift (_validate_date date) ;;
  c <- lift (_validate_category category) ;;
  a <- lift (_validate_amount amount) ;;
  i <- match expense_id with
       | Some i => if Text.truthy i then ret i else _generate_id d
       | None => _generate_id d
       end ;;
  ret (Expense.mk i d c a note currency).

Definition to_dict (e : Expense) : dict :=
  mkdict (Some (Expense.id e)) (Some (Expense.date e))
         (Some (Expense.category e)) (Some (AFloat (Expense.amount e)))
         (Some (Expense.note e)) (Some (Expense.currency e)).

(** [data[key]] *)
Definition getitem {A} (key : string) (v : option A) : M A :=
  match v with
  | Some x => ret x
  | None => raise (KeyError key)
  end.

Definition from_dict (data : dict) : M Expense :=
  date <- getitem "date" (d_date data) ;;
  category <- getitem "category" (d_category data) ;;
  amount <- getitem "amount" (d_amount data) ;;
  Expense_init date category amount
    (default EmptyString (d_note data))
    (default "BDT" (d_currency data))
    (d_id data).

(** ** Built-ins used by the service *)

Module Py.

(** A Python number: [int] or [float]. *)
Inductive number : Type :=
  | NInt (z : Z)
  | NFloat (f : Num.float).

Definition as_float (x : number) : Num.float :=
  match x with NInt z => Num.nearest z | NFloat f => f end.

(** [x + f] for a float [f]: the result is a float.  The only integer the
    service ever adds to is 0. *)
Definition add_float (x : number) (f : Num.float) : number :=
  NFloat (Num.fadd (as_float x) f).

(** What Python leaves to the interpreter.
    - [compensated_sum]: whether [sum] adds floats with the compensated
      algorithm of CPython 3.12 and later, or plainly as before.
    - [sort_unordered]: the list that [list.sort] makes of a list when the
      comparison it is given is not an order on it; the language promises
      nothing about it. *)
Record interpreter : Type := mkinterpreter {
  compensated_sum : bool;
  sort_unordered : forall A : Type, (A -> A -> bool) -> list A -> list A
}.

(** One round of the compensated loop: [t = f + x], and the rounding error
    of that addition is added to the correction [c]. *)
Definition compensate (state : Num.float * Num.float) (x : Num.float)
    : Num.float * Num.float :=
  let '(f, c) := state in
  let t := Num.fadd f x in
  let c :=
    if Num.fle (Num.fabs x) (Num.fabs f)
    then Num.fadd c (Num.fadd (Num.fsub f t) x)
    else Num.fadd c (Num.fadd (Num.fsub x t) f) in
  (t, c).

(** [sum(items)] for floats.  The start value is the integer 0 and the
    first item is added to it with [+].  Without compensation every
    further item is added with [+] too, left to right.  With compensation
    the further items go through [compensate], and the correction is added
    at the end when it is finite and not zero. *)
Definition sum (py : interpreter) (items : list Num.float) : number :=
  if compensated_sum py then
    match items with
    | [] => NInt 0
    | x :: rest =>
        let '(f, c) :=
          fold_left compensate rest (as_float (add_float (NInt 0) x), Num.fzero) in
        NFloat (if Num.nonzero c && Num.is_finite c then Num.fadd f c else f)
    end
  else fold_left add_float items (NInt 0).

Section Sorted.
Context {A K : Type} (lt : K -> K -> bool) (key : A -> K).

(** [x] goes in front of the first element whose key is not smaller:
    among equal keys the one met first stays first. *)
Fixpoint insert (x : A) (l : list A) : list A :=
  match l with
  | [] => [x]
  | y :: l' => if lt (key y) (key x) then y :: insert x l' else x :: y :: l'
  end.

Definition sort (l : list A) : list A := fold_right insert [] l.

(** The list sorted with [<] on the keys, stably; with [reverse] the list
    is reversed, sorted, and reversed again, which keeps equal keys in
    their first order. *)
Definition stable_sorted (reverse : bool) (l : list A) : list A :=
  if reverse then rev (sort (rev l)) else sort l.

(** Whether [<] is a strict weak order on these keys: no key is below
    itself, [<] is transitive, and so is "not below". *)
Definition orders (keys : list K) : bool :=
  List.forallb
    (fun a =>
       negb (lt a a)
       && List.forallb
            (fun b =>
               List.forallb
                 (fun c =>
                    implb (lt a b && lt b c) (lt a c)
                    && implb (negb (lt a b) && negb (lt b c)) (negb (lt a c)))
                 keys)
            keys)
    keys.

(** [sorted(l, key=key, reverse=reverse)].  Where [<] orders the keys
    there is one list that is sorted and keeps equal keys in their first
    order, and [sorted] returns it.  Where it does not (a NaN among other
    keys) the result is what the algorithm of the interpreter makes of the
    list: the list itself, or its reverse when [reverse] is set, reversed
    back afterwards. *)
Definition sorted (py : interpreter) (reverse : bool) (l : list A) : list A :=
  if orders (List.map key l) then stable_sorted reverse l
  else
    let less a b := lt (key a) (key b) in
    if reverse then rev (sort_unordered py A less (rev l))
    else sort_unordered py A less l.

End Sorted.

(** The algorithm of CPython's [list.sort] on a list of fewer than 64
    elements: the run at the head of the list is found (a strictly
    descending one is reversed), and every further element is put into
    the part before it at the place a binary search gives. *)
Section ShortLists.
Context {A : Type} (less : A -> A -> bool).

(** The rest of the run after [prev], and what follows the run. *)
Fixpoint take_run (descending : bool) (prev : A) (l : list A) : list A * list A :=
  match l with
  | [] => ([], [])
  | x :: l' =>
      if (if descending then less x prev else negb (less x prev))
      then let '(run, rest) := take_run descending x l' in (x :: run, rest)
      else ([], l)
  end.

(** The run at the head, made ascending, and what follows it. *)
Definition count_run (l : list A) : list A * list A :=
  match l with
  | x0 :: x1 :: l' =>
      let descending := less x1 x0 in
      let '(run, rest) := take_run descending x1 l' in
      (if descending then rev (x0 :: x1 :: run) else x0 :: x1 :: run, rest)
  | _ => (l, [])
  end.

(** The binary search of [binarysort] for the place of [pivot] in [a],
    between [l] and [r]; the loop body runs at least once. *)
Fixpoint search (fuel : nat) (a : list A) (pivot : A) (l r : nat) : nat :=
  match fuel with
  | O => l
  | S fuel' =>
      let p := (l + Nat.div2 (r - l))%nat in
      let '(l', r') :=
        match nth_error a p with
        | Some x => if less pivot x then (l, p) else (S p, r)
        | None => (S p, r)
        end in
      if (l' <? r')%nat then search fuel' a pivot l' r' else l'
  end.

Definition place (a : list A) (pivot : A) : list A :=
  let i := search (S (length a)) a pivot 0 (length a) in
  firstn i a ++ pivot :: skipn i a.

Definition short_list_sort (l : list A) : list A :=
  let '(run, rest) := count_run l in
  fold_left place rest run.

End ShortLists.

(** CPython: before 3.12 without, from 3.12 on with the compensated sum.
    The sort on unordered keys is that of lists of fewer than 64 elements;
    this interpreter is used on such lists only. *)
Definition cpython (compensated : bool) : interpreter :=
  mkinterpreter compensated (fun A less l => short_list_sort less l).

(** [l[:n]] *)
Definition slice_to {A} (n : Z) (l : list A) : list A :=
  if 0 <=? n then firstn (Z.to_nat n) l
  else firstn (Z.to_nat (Z.of_nat (length l) + n)) l.

End Py.

(** ** The store ([tracker/storage.py]) *)

Module ExpenseStorage.

Definition VERSION : Z := 1.

(** [open(filepath, 'w', encoding='utf-8')] truncates the file as soon as
    it succeeds; [json.dump] then writes the text piece by piece.  A write
    can stop inside a character only where the text has a character of
    several bytes; where it has none, [WriteFailsInside] stops between two
    characters as [WriteFails] does. *)
Definition open_and_dump (data : document) : M unit :=
  fun w =>
    let '(f, rest) := match w_faults w with
                      | [] => (NoFault, [])
                      | f :: rest => (f, rest)
                      end in
    match f with
    | NoFault =>
        (Ok tt, mkworld (Some (Text data)) rest (w_clock w) (w_tick w))
    | OpenFails =>
        (Raise OSError, mkworld (w_file w) rest (w_clock w) (w_tick w))
    | WriteFails n =>
        (Raise OSError, mkworld (Some (Truncated data n)) rest (w_clock w) (w_tick w))
    | WriteFailsInside n =>
        (Raise OSError,
         mkworld
           (Some (if document_several_bytes data then TruncatedInside data n
                  else Truncated data n))
           rest (w_clock w) (w_tick w))
    end.

Definition _write_data (data : document) : M unit :=
  try_except (open_and_dump data)
    (fun e => raise (Exception "Error writing to file" e)).

Definition _ensure_file_exists : M unit :=
  fun w => match w_file w with
           | None => _write_data (Versioned (Some VERSION) (Some [])) w
           | Some _ => (Ok tt, w)
           end.

(** [open(filepath, 'r', encoding='utf-8')] and [json.load].  A text that
    is not JSON, as every proper beginning of the text of a document is,
    raises [JSONDecodeError]; bytes that are not UTF-8 raise
    [UnicodeDecodeError] when they are read. *)
Definition open_and_load : M document :=
  fun w => match w_file w with
           | Some (Text d) => (Ok d, w)
           | Some (Truncated _ _) | Some (Malformed _) => (Raise JSONDecodeError, w)
           | Some (TruncatedInside _ _) => (Raise UnicodeDecodeError, w)
           | None => (Raise OSError, w)
           end.

(** The list of entries of a document: the array itself in the legacy
    shape, otherwise [data.get("expenses", [])]. *)
Definition expense_list_of (data : document) : list dict :=
  match data with
  | Legacy items => items
  | Versioned _ (Some items) => items
  | Versioned _ None => []
  end.

Definition load_expenses : M (list Expense) :=
  _ensure_file_exists ;;;
  try_except
    (data <- open_and_load ;;
     let expense_list := expense_list_of data in
     mapM from_dict expense_list)
    (fun e => match e with
              | JSONDecodeError => raise (Exception "Corrupted data file" e)
              | _ => raise (Exception "Error reading expenses" e)
              end).

Definition _write_expenses (expenses : list Expense) : M unit :=
  try_except
    (let expense_list := List.map to_dict expenses in
     let data := Versioned (Some VERSION) (Some expense_list) in
     _write_data data)
    (fun e => raise (Exception "Error writing expenses" e)).

Definition save_expense (expense : Expense) : M unit :=
  expenses <- load_expenses ;;
  _write_expenses (expenses ++ [expense]).

Definition save_all_expenses (expenses : list Expense) : M unit :=
  _write_expenses expenses.

Definition id_is (expense_id : string) (e : Expense) : bool :=
  String.eqb (Expense.id e) expense_id.

Definition delete_expense (expense_id : string) : M bool :=
  expenses <- load_expenses ;;
  let initial_count := length expenses in
  let kept := List.filter (fun e => negb (id_is expense_id e)) expenses in
  if Nat.eqb (length kept) initial_count then ret false
  else _write_expenses kept ;;; ret true.

(** The loop of [update_expense]: the first entry with the id is replaced;
    [None] when no entry has it. *)
Fixpoint replace_first (expense_id : string) (updated : Expense)
    (expenses : list Expense) : option (list Expense) :=
  match expenses with
  | [] => None
  | e :: rest =>
      if id_is expense_id e then Some (updated :: rest)
      else option_map (cons e) (replace_first expense_id updated rest)
  end.

Definition update_expense (expense_id : string) (updated_expense : Expense) : M bool :=
  expenses <- load_expenses ;;
  match replace_first expense_id updated_expense expenses with
  | None => ret false
  | Some expenses' => _write_expenses expenses' ;;; ret true
  end.

Definition get_expense_by_id (expense_id : string) : M (option Expense) :=
  expenses <- load_expenses ;;
  ret (List.find (id_is expense_id) expenses).

End ExpenseStorage.

(** ** The service and its query engine ([tracker/service.py]) *)

Module ExpenseService.

Definition add_expense (expense : Expense) : M Expense :=
  ExpenseStorage.save_expense expense ;;; ret expense.

(** An optional text argument counts as given when it is neither [None]
    nor empty. *)
Definition given (o : option string) : option string :=
  match o with
  | Some s => if Text.truthy s then Some s else None
  | None => None
  end.

Definition _apply_filters (expenses : list Expense)
    (month from_date to_date category : option string)
    (min_amount max_amount : option Num.float) : list Expense :=
  let filtered := expenses in
  let filtered :=
    match given month with
    | Some m => List.filter (fun e => Text.startswith (Expense.date e) m) filtered
    | None => filtered
    end in
  let filtered :=
    match given from_date with
    | Some d => List.filter (fun e => Text.str_le d (Expense.date e)) filtered
    | None => filtered
    end in
  let filtered :=
    match given to_date with
    | Some d => List.filter (fun e => Text.str_le (Expense.date e) d) filtered
    | None => filtered
    end in
  let filtered :=
    match given category with
    | Some c =>
        List.filter (fun e => String.eqb (Text.lower (Expense.category e)) (Text.lower c))
          filtered
    | None => filtered
    end in
  let filtered :=
    match min_amount with
    | Some a => List.filter (fun e => Num.fge (Expense.amount e) a) filtered
    | None => filtered
    end in
  let filtered :=
    match max_amount with
    | Some a => List.filter (fun e => Num.fle (Expense.amount e) a) filtered
    | None => filtered
    end in
  filtered.

Definition _sort_expenses (py : Py.interpreter) (expenses : list Expense)
    (sort_by : string) (descending : bool) : list Expense :=
  if String.eqb sort_by "date" then
    Py.sorted Text.str_lt Expense.date py descending expenses
  else if String.eqb sort_by "amount" then
    Py.sorted Num.flt Expense.amount py descending expenses
  else if String.eqb sort_by "category" then
    Py.sorted Text.str_lt Expense.category py descending expenses
  else expenses.

Record summary_result : Type := mksummary {
  count : nat;
  grand_total : Py.number;
  totals_by_category : gmap string Py.number
}.

(** One round of the loop over the expenses. *)
Definition add_to_totals (totals : gmap string Py.number) (expense : Expense)
    : gmap string Py.number :=
  let cat := Expense.category expense in
  let totals :=
    match totals !! cat with
    | None => <[cat := Py.NInt 0]> totals
    | Some _ => totals
    end in
  <[cat := Py.add_float (default (Py.NInt 0) (totals !! cat)) (Expense.amount expense)]>
    totals.

Definition _calculate_summary (py : Py.interpreter) (expenses : list Expense)
    : summary_result :=
  let count := length expenses in
  let grand_total := Py.sum py (List.map Expense.amount expenses) in
  let totals_by_category := fold_left add_to_totals expenses ∅ in
  mksummary count grand_total totals_by_category.

Definition list_expenses (py : Py.interpreter) (month category : option string)
    (min_amount max_amount : option Num.float) (sort_by : option string)
    (descending : bool) (limit : option Z) : M (list Expense) :=
  expenses <- ExpenseStorage.load_expenses ;;
  let expenses := _apply_filters expenses month None None category min_amount max_amount in
  let expenses :=
    match given sort_by with
    | Some f => _sort_expenses py expenses f descending
    | None => expenses
    end in
  let expenses :=
    match limit with
    | Some n => if n =? 0 then expenses else Py.slice_to n expenses
    | None => expenses
    end in
  ret expenses.

Definition summary (py : Py.interpreter)
    (month from_date to_date category : option string) : M summary_result :=
  expenses <- ExpenseStorage.load_expenses ;;
  let expenses := _apply_filters expenses month from_date to_date category None None in
  ret (_calculate_summary py expenses).

Definition delete_expense (expense_id : string) : M bool :=
  ExpenseStorage.delete_expense expense_id.

(** Truth value of an amount argument: [None], 0, 0.0 and -0.0 are false;
    NaN is true. *)
Definition amount_truthy (a : amount_arg) : bool :=
  match a with
  | ANone => false
  | AInt z => negb (z =? 0)
  | AFloat (S754_zero _) => false
  | AFloat _ => true
  end.

(** The [Expense(...)] call of [update_expense]. *)
Definition merged_expense (existing : Expense) (amount : amount_arg)
    (note category date : option string) : M Expense :=
  Expense_init
    (match given date with Some d => d | None => Expense.date existing end)
    (match given category with Some c => c | None => Expense.category existing end)
    (if amount_truthy amount then amount else AFloat (Expense.amount existing))
    (match note with Some n => n | None => Expense.note existing end)
    (Expense.currency existing)
    (Some (Expense.id existing)).

Definition update_expense (expense_id : string) (amount : amount_arg)
    (note category date : option string) : M bool :=
  existing <- ExpenseStorage.get_expense_by_id expense_id ;;
  match existing with
  | None => ret false
  | Some existing =>
      updated_expense <- merged_expense existing amount note category date ;;
      ExpenseStorage.update_expense expense_id updated_expense
  end.

End ExpenseService.

(** ** Well-formed expenses *)

(** What every constructed expense is shown to satisfy. *)
Record well_formed (e : Expense) : Prop := {
  wf_date : Strptime.strptime (Expense.date e) <> None;
  wf_category : Text.lower (Text.strip (Expense.category e)) = Expense.category e;
  wf_category_nonempty : Expense.category e <> EmptyString;
  wf_amount : Num.fle (Expense.amount e) Num.fzero = false;
  wf_id : Expense.id e <> EmptyString
}.

(** Sample data for the closed examples below. *)
Module Samples.

Definition amount_12_5 : Num.float :=
  Eval vm_compute in SFdiv Num.prec Num.emax (Num.nearest 25) (Num.nearest 2).
Definition amount_10 : Num.float := Eval vm_compute in Num.nearest 10.
Definition amount_5 : Num.float := Eval vm_compute in Num.nearest 5.

Definition clock (k : nat) : string := "093015123456".

Definition lunch : Expense :=
  Expense.mk "EXP-20240105-093015" "2024-01-05" "food" amount_12_5 "lunch" "BDT".
Definition bus : Expense :=
  Expense.mk "EXP-20240106-101500" "2024-01-06" "transport" amount_5 "bus" "BDT".
Definition dinner : Expense :=
  Expense.mk "EXP-20240307-200000" "2024-03-07" "food" amount_10 "dinner" "BDT".
(** A second entry made on the same date within the same second as
    [lunch]: the generated id is the same. *)
Definition coffee : Expense :=
  Expense.mk "EXP-20240105-093015" "2024-01-05" "food" amount_5 "coffee" "BDT".

Definition stored (l : list Expense) : file_content :=
  Text (Versioned (Some ExpenseStorage.VERSION) (Some (List.map to_dict l))).

(** A clock that advances within one second: the microseconds differ,
    the first six characters (hours, minutes, seconds) do not. *)
Definition same_second_clock (k : nat) : string :=
  match k with O => "093015123456" | _ => "093015987654" end.

(** Two entries of the same date added within that second through the
    service, starting without a store file. *)
Definition add_two_in_one_second : M (Expense * Expense) :=
  e1 <- Expense_init "2024-01-05" "food" (AFloat amount_12_5) "lunch" "BDT" None ;;
  _ <- ExpenseService.add_expense e1 ;;
  e2 <- Expense_init "2024-01-05" "food" (AFloat amount_5) "coffee" "BDT" None ;;
  _ <- ExpenseService.add_expense e2 ;;
  ret (e1, e2).

Definition world_of (l : list Expense) (faults : list fault) : world :=
  mkworld (Some (stored l)) faults clock 0.

End Samples.


(** ** Vocabulary for the store properties *)

(** The part of the world that only writes change. *)
Definition same_disk (w w' : world) : Prop :=
  w_file w' = w_file w /\ w_faults w' = w_faults w /\ w_clock w' = w_clock w.

Definition next_fault (w : world) : fault :=
  match w_faults w with [] => NoFault | f :: _ => f end.

Definition after_write (w : world) (c : option file_content) : world :=
  mkworld c (tl (w_faults w)) (w_clock w) (w_tick w).

Definition write_error : exn :=
  Exception "Error writing expenses" (Exception "Error writing to file" OSError).


(** The document [_write_expenses] writes for a list of expenses. *)
Definition document_of (l : list Expense) : document :=
  Versioned (Some ExpenseStorage.VERSION) (Some (List.map to_dict l)).

(** The entries [delete_expense] keeps. *)
Definition without_id (expense_id : string) (l : list Expense) : list Expense :=
  List.filter (fun e => negb (ExpenseStorage.id_is expense_id e)) l.

Definition has_id (expense_id : string) (l : list Expense) : bool :=
  List.existsb (ExpenseStorage.id_is expense_id) l.

(** A numeric zero in amount position: the integer 0, 0.0 or -0.0. *)
Definition is_numeric_zero (a : amount_arg) : bool :=
  match a with
  | AInt z => z =? 0
  | AFloat (S754_zero _) => true
  | _ => false
  end.

(** ** Vocabulary for the query properties *)

(** A condition that holds when no value is supplied. *)
Definition opt_holds {A} (o : option A) (p : A -> bool) : bool :=
  match o with Some a => p a | None => true end.

(** The conjunction of the filter predicates, in the words of the
    specification: month prefix on the date, inclusive date range,
    category equality without regard to case, inclusive amount range; a
    filter that is not supplied imposes nothing. *)
Definition satisfies_all (e : Expense)
    (month from_date to_date category : option string)
    (min_amount max_amount : option Num.float) : bool :=
  opt_holds month (fun m => Text.startswith (Expense.date e) m)
  && opt_holds from_date (fun d => Text.str_le d (Expense.date e))
  && opt_holds to_date (fun d => Text.str_le (Expense.date e) d)
  && opt_holds category
       (fun c => String.eqb (Text.lower (Expense.category e)) (Text.lower c))
  && opt_holds min_amount (fun a => Num.fge (Expense.amount e) a)
  && opt_holds max_amount (fun a => Num.fle (Expense.amount e) a).

(** One filter as a step on lists. *)
Definition stage {A} (o : option A) (p : A -> Expense -> bool)
    : list Expense -> list Expense :=
  match o with
  | Some a => List.filter (p a)
  | None => fun l => l
  end.

(** The six steps of [_apply_filters], in the order of the code. *)
Definition filter_stages (month from_date to_date category : option string)
    (min_amount max_amount : option Num.float)
    : list (list Expense -> list Expense) :=
  [ stage (ExpenseService.given month) (fun m e => Text.startswith (Expense.date e) m);
    stage (ExpenseService.given from_date) (fun d e => Text.str_le d (Expense.date e));
    stage (ExpenseService.given to_date) (fun d e => Text.str_le (Expense.date e) d);
    stage (ExpenseService.given category)
      (fun c e => String.eqb (Text.lower (Expense.category e)) (Text.lower c));
    stage min_amount (fun a e => Num.fge (Expense.amount e) a);
    stage max_amount (fun a e => Num.fle (Expense.amount e) a) ].

Definition run_stages (stages : list (list Expense -> list Expense))
    (l : list Expense) : list Expense :=
  fold_left (fun acc f => f acc) stages l.

(** A step that is some filter. *)
Definition is_filter (f : list Expense -> list Expense) : Prop :=
  exists p, forall l, f l = List.filter p l.


(** ** Vocabulary for the sort properties *)

(** A float that is not NaN, placed among triples of integers ordered
    lexicographically: class (infinite, finite, zero), then exponent, then
    mantissa, mirrored for negative values. *)
Definition fkey (a : Num.float) : Z * Z * Z :=
  match a with
  | S754_infinity true => (-2, 0, 0)
  | S754_finite true m e => (-1, - e, - Zpos m)
  | S754_zero _ => (0, 0, 0)
  | S754_nan => (0, 0, 0)
  | S754_finite false m e => (1, e, Zpos m)
  | S754_infinity false => (2, 0, 0)
  end.

Definition lex_lt (a b : Z * Z * Z) : Prop :=
  a.1.1 < b.1.1
  \/ (a.1.1 = b.1.1 /\ (a.1.2 < b.1.2 \/ (a.1.2 = b.1.2 /\ a.2 < b.2))).

Definition lex_eq (a b : Z * Z * Z) : Prop :=
  a.1.1 = b.1.1 /\ a.1.2 = b.1.2 /\ a.2 = b.2.

(** [key(a) < key(b)] and [key(a) == key(b)] for the key that [sort_by]
    names. *)
Definition key_lt (sort_by : string) (a b : Expense) : bool :=
  if String.eqb sort_by "date" then Text.str_lt (Expense.date a) (Expense.date b)
  else if String.eqb sort_by "amount" then Num.flt (Expense.amount a) (Expense.amount b)
  else if String.eqb sort_by "category" then
    Text.str_lt (Expense.category a) (Expense.category b)
  else false.

Definition same_key (sort_by : string) (a b : Expense) : bool :=
  if String.eqb sort_by "date" then String.eqb (Expense.date a) (Expense.date b)
  else if String.eqb sort_by "amount" then Num.feq (Expense.amount a) (Expense.amount b)
  else if String.eqb sort_by "category" then
    String.eqb (Expense.category a) (Expense.category b)
  else false.

(** Ascending: no expense has a smaller key than one before it.
    Descending: no expense has a greater key than one before it. *)
Definition ordered_by (sort_by : string) (descending : bool) (l : list Expense) : Prop :=
  StronglySorted
    (fun a b => if descending then key_lt sort_by a b = false
                else key_lt sort_by b a = false)
    l.

Definition no_nan_amount (l : list Expense) : Prop :=
  Forall (fun e => Num.is_nan (Expense.amount e) = false) l.

(** ** Vocabulary for the summary properties *)

Definition in_category (c : string) (e : Expense) : bool :=
  String.eqb (Expense.category e) c.

(** The amounts of the expenses of one category, in the order of the list. *)
Definition category_amounts (c : string) (l : list Expense) : list Num.float :=
  List.map Expense.amount (List.filter (in_category c) l).

Definition has_category (c : string) (l : list Expense) : bool :=
  List.existsb (in_category c) l.

(** The sum of amounts in float arithmetic: the amounts are added one
    after another to 0.0, in the order of the list, and every addition is
    rounded to the nearest float. *)
Definition float_sum (amounts : list Num.float) : Num.float :=
  fold_left Num.fadd amounts Num.fzero.

(** What the rounding of [f + x] has lost, recovered from the larger of
    the two in magnitude. *)
Definition rounding_error (f x : Num.float) : Num.float :=
  let t := Num.fadd f x in
  if Num.fle (Num.fabs x) (Num.fabs f)
  then Num.fadd (Num.fsub f t) x
  else Num.fadd (Num.fsub x t) f.

(** The rounding errors of the additions that a float sum standing at [f]
    makes for the further [amounts]. *)
Fixpoint rounding_errors (f : Num.float) (amounts : list Num.float)
    : list Num.float :=
  match amounts with
  | [] => []
  | x :: rest => rounding_error f x :: rounding_errors (Num.fadd f x) rest
  end.

(** The float sum with the float sum of the rounding errors of its
    additions given back to it, where that is finite and not zero. *)
Definition corrected_sum (amounts : list Num.float) : Num.float :=
  match amounts with
  | [] => Num.fzero
  | x :: rest =>
      let c := float_sum (rounding_errors (Num.fadd Num.fzero x) rest) in
      if Num.nonzero c && Num.is_finite c
      then Num.fadd (float_sum amounts) c
      else float_sum amounts
  end.

(** ** Parsing helpers ([tracker/utils.py]) *)

Module Utils.


Definition parse_amount (amount : amount_arg) : result Num.float :=
  let body :=
    match py_float amount with
    | Ok a =>
        if Num.fle a Num.fzero then Raise (ValueError "amount must be > 0")
        else Ok a
    | Raise e => Raise e
    end in
  match body with
  | Ok a => Ok a
  | Raise (ValueError _ as e) | Raise (TypeError _ as e) =>
      if contains "amount must be > 0" (exn_str e) then Raise e
      else Raise (ValueError "amount must be a valid number")
  | Raise e => Raise e
  end.

Definition parse_category (category : string) : result string :=
  if negb (Text.truthy category) || negb (Text.truthy (Text.strip category))
  then Raise (ValueError "category cannot be empty")
  else Ok (Text.lower (Text.strip category)).

End Utils.

(** ** The edit and delete commands ([tracker/cli.py])

    What a handler prints is its message; [sys.exit(1)] is [Exit 1]. *)

Inductive outcome : Type :=
  | Done (message : string)
  | Exit (code : Z) (message : string).

Module Cli.

(** [any([args.amount, args.note is not None, args.category, args.date])] *)
Definition any_field (amount : amount_arg) (note category date : option string) : bool :=
  ExpenseService.amount_truthy amount
  || match note with Some _ => true | None => false end
  || match ExpenseService.given category with Some _ => true | None => false end
  || match ExpenseService.given date with Some _ => true | None => false end.

Definition handle_edit (expense_id : string) (amount : amount_arg)
    (note category date : option string) : M outcome :=
  if negb (any_field amount note category date) then
    ret (Exit 1 "Error: Please provide at least one field to update (--amount, --note, --category, or --date)")
  else
    success <- ExpenseService.update_expense expense_id amount note category date ;;
    if success then ret (Done ("Updated: " ++ expense_id))
    else ret (Exit 1 ("Error: Expense " ++ expense_id ++ " not found")).

Definition handle_delete (expense_id : string) : M outcome :=
  success <- ExpenseService.delete_expense expense_id ;;
  if success then ret (Done ("Deleted: " ++ expense_id))
  else ret (Exit 1 ("Error: Expense " ++ expense_id ++ " not found")).

End Cli.

(** ** Further vocabulary *)

(** The world with another content of the store file. *)
Definition set_file (w : world) (c : option file_content) : world :=
  mkworld c (w_faults w) (w_clock w) (w_tick w).

(** The world after one reading of the clock. *)
Definition tick (w : world) : world :=
  mkworld (w_file w) (w_faults w) (w_clock w) (S (w_tick w)).

(** A record that lacks a key [from_dict] indexes. *)
Definition lacks_required_key (item : dict) : bool :=
  match d_date item, d_category item, d_amount item with
  | Some _, Some _, Some _ => false
  | _, _, _ => true
  end.

(** [a > 0], or [a] is NaN. *)
Definition positive_or_nan (a : Num.float) : bool :=
  Num.is_nan a || Num.fgt a Num.fzero.

(** Further sample data. *)
Module MoreSamples.

Definition amount_minus_5 : Num.float := Eval vm_compute in Num.nearest (-5).

(** The note "café": its last character is U+00E9, two bytes in UTF-8. *)
Definition cafe : string := "caf" ++ String (Ascii.ascii_of_nat 233) EmptyString.

Definition tea : Expense :=
  Expense.mk "EXP-20240108-160000" "2024-01-08" "food" Samples.amount_5 cafe "BDT".

Definition amount_1 : Num.float := Eval vm_compute in Num.nearest 1.
Definition amount_2 : Num.float := Eval vm_compute in Num.nearest 2.
Definition amount_6 : Num.float := Eval vm_compute in Num.nearest 6.
Definition amount_7 : Num.float := Eval vm_compute in Num.nearest 7.
Definition amount_15 : Num.float := Eval vm_compute in Num.nearest 15.
Definition amount_22_5 : Num.float :=
  Eval vm_compute in SFdiv Num.prec Num.emax (Num.nearest 45) (Num.nearest 2).

(** An expense with the amount NaN, as the constructor accepts it. *)
Definition odd : Expense :=
  Expense.mk "EXP-20240106-120000" "2024-01-06" "transport" S754_nan "odd" "BDT".

(** Expenses of one day told apart by their ids. *)
Definition priced (id : string) (amount : Num.float) : Expense :=
  Expense.mk id "2024-02-01" "food" amount EmptyString "BDT".

(** Amounts 5, 6, 7, NaN, 2, 1, 2: the two of amount 2 are "2a" and then
    "2b". *)
Definition with_nan_amount : list Expense :=
  [priced "5" Samples.amount_5; priced "6" amount_6; priced "7" amount_7;
   priced "nan" S754_nan; priced "2a" amount_2; priced "1" amount_1;
   priced "2b" amount_2].

(** The floats nearest to 0.1, 0.2 and 0.3, and the two floats that their
    sums come to: 0.6 and the next float above it. *)
Definition tenths (z : Z) : Num.float :=
  SFdiv Num.prec Num.emax (Num.nearest z) (Num.nearest 10).
Definition amount_0_1 : Num.float := Eval vm_compute in tenths 1.
Definition amount_0_2 : Num.float := Eval vm_compute in tenths 2.
Definition amount_0_3 : Num.float := Eval vm_compute in tenths 3.
Definition amount_0_6 : Num.float := Eval vm_compute in tenths 6.
Definition amount_above_0_6 : Num.float := S754_finite false 5404319552844596 (-53).

Definition three_tenths : list Expense :=
  [priced "a" amount_0_1; priced "b" amount_0_2; priced "c" amount_0_3].

End MoreSamples.
(** * Properties *)

(** ** Text normalisation *)

Module TextFacts.
Import Text.

Lemma is_space_lower_char (c : ascii) : is_space (lower_char c) = is_space c.
Proof. destruct c as [[] [] [] [] [] [] [] []]; reflexivity. Qed.

Lemma lower_char_idem (c : ascii) : lower_char (lower_char c) = lower_char c.
Proof. destruct c as [[] [] [] [] [] [] [] []]; reflexivity. Qed.

Lemma lower_idem (s : string) : lower (lower s) = lower s.
Proof.
  induction s as [|c s IH]; simpl; [reflexivity|].
  now rewrite lower_char_idem, IH.
Qed.

Lemma is_empty_lower (s : string) : is_empty (lower s) = is_empty s.
Proof. destruct s; reflexivity. Qed.

Lemma lstrip_lower (s : string) : lstrip (lower s) = lower (lstrip s).
Proof.
  induction s as [|c s IH]; simpl; [reflexivity|].
  rewrite is_space_lower_char. destruct (is_space c); [exact IH | reflexivity].
Qed.

Lemma rstrip_lower (s : string) : rstrip (lower s) = lower (rstrip s).
Proof.
  induction s as [|c s IH]; simpl; [reflexivity|].
  rewrite is_space_lower_char, IH, is_empty_lower.
  destruct (is_space c && is_empty (rstrip s)); reflexivity.
Qed.

Lemma strip_lower (s : string) : strip (lower s) = lower (strip s).
Proof. unfold strip. now rewrite lstrip_lower, rstrip_lower. Qed.

Lemma lstrip_rstrip (s : string) : lstrip (rstrip s) = rstrip (lstrip s).
Proof.
  induction s as [|c s IH]; [reflexivity|].
  cbn [rstrip lstrip]. destruct (is_space c) eqn:Hc; cbn [andb].
  - destruct (is_empty (rstrip s)) eqn:He.
    + rewrite <- IH. destruct (rstrip s); [reflexivity | discriminate].
    + cbn [lstrip]. now rewrite Hc.
  - cbn [lstrip rstrip]. now rewrite Hc.
Qed.

Lemma lstrip_idem (s : string) : lstrip (lstrip s) = lstrip s.
Proof.
  induction s as [|c s IH]; [reflexivity|].
  cbn [lstrip]. destruct (is_space c) eqn:Hc; [exact IH|].
  cbn [lstrip]. now rewrite Hc.
Qed.

Lemma rstrip_idem (s : string) : rstrip (rstrip s) = rstrip s.
Proof.
  induction s as [|c s IH]; [reflexivity|].
  cbn [rstrip]. destruct (is_space c && is_empty (rstrip s)) eqn:Hc; [reflexivity|].
  cbn [rstrip]. now rewrite IH, Hc.
Qed.

Lemma strip_idem (s : string) : strip (strip s) = strip s.
Proof.
  unfold strip. now rewrite lstrip_rstrip, lstrip_idem, rstrip_idem.
Qed.

(** A trimmed, lower-cased text is a fixed point of both operations. *)
Lemma normal_form_fixed (s : string) :
  lower (strip (lower (strip s))) = lower (strip s).
Proof. now rewrite <- strip_lower, lower_idem, strip_lower, strip_idem. Qed.

Lemma truthy_lower (s : string) : truthy (lower s) = truthy s.
Proof. unfold truthy. now rewrite is_empty_lower. Qed.

Lemma truthy_nonempty (s : string) : truthy s = true <-> s <> EmptyString.
Proof. destruct s; cbn; split; congruence. Qed.

End TextFacts.

(** ** The entity *)

Lemma _validate_date_ok (d d' : string) :
  _validate_date d = Ok d' -> d' = d /\ Strptime.strptime d <> None.
Proof.
  unfold _validate_date. destruct (Strptime.strptime d); [|discriminate].
  intros [= <-]. split; [reflexivity | discriminate].
Qed.

Lemma _validate_category_ok (c c' : string) :
  _validate_category c = Ok c' ->
  c' = Text.lower (Text.strip c) /\ c' <> EmptyString.
Proof.
  unfold _validate_category.
  destruct (Text.truthy c); cbn [negb orb]; [|discriminate].
  destruct (Text.truthy (Text.strip c)) eqn:Hs; cbn [negb]; [|discriminate].
  intros [= <-]. split; [reflexivity|].
  apply TextFacts.truthy_nonempty. now rewrite TextFacts.truthy_lower.
Qed.

Lemma py_float_ok (a : amount_arg) (f : Num.float) :
  py_float a = Ok f ->
  match a with
  | ANone => False
  | AInt z => f = Num.nearest z
  | AFloat g => f = g
  end.
Proof.
  destruct a as [|z|g]; cbn; [discriminate| |congruence].
  destruct (Num.nearest z); congruence.
Qed.

Lemma _validate_amount_ok (a : amount_arg) (f : Num.float) :
  _validate_amount a = Ok f -> py_float a = Ok f /\ Num.fle f Num.fzero = false.
Proof.
  unfold _validate_amount.
  destruct (py_float a) as [g|e].
  - destruct (Num.fle g Num.fzero) eqn:Hle.
    + cbn. discriminate.
    + intros [= <-]. auto.
  - destruct e; cbn; try discriminate;
      match goal with |- context [if ?b then _ else _] => destruct b end;
      discriminate.
Qed.

Lemma _validate_amount_float (f : Num.float) :
  Num.fle f Num.fzero = false -> _validate_amount (AFloat f) = Ok f.
Proof. intros H. unfold _validate_amount. cbn. now rewrite H. Qed.

Lemma _generate_id_nonempty (d : string) (w w' : world) (i : string) :
  _generate_id d w = (Ok i, w') -> i <> EmptyString.
Proof. unfold _generate_id, bind, now_stamp, ret. intros [= <- _]. discriminate. Qed.

Lemma _generate_id_returns (d : string) (w : world) :
  exists i w', _generate_id d w = (Ok i, w').
Proof. unfold _generate_id, bind, now_stamp, ret. eauto. Qed.

(** What a successful construction returns. *)
Lemma Expense_init_ok date category amount note currency expense_id w e w' :
  Expense_init date category amount note currency expense_id w = (Ok e, w') ->
  well_formed e
  /\ Expense.date e = date
  /\ Expense.category e = Text.lower (Text.strip category)
  /\ py_float amount = Ok (Expense.amount e)
  /\ Expense.note e = note
  /\ Expense.currency e = currency
  /\ (forall i, expense_id = Some i -> i <> EmptyString -> Expense.id e = i /\ w' = w).
Proof.
  unfold Expense_init, bind, lift.
  destruct (_validate_date date) as [d|] eqn:Hd; [|discriminate].
  destruct (_validate_category category) as [c|] eqn:Hc; [|discriminate].
  destruct (_validate_amount amount) as [a|] eqn:Ha; [|discriminate].
  apply _validate_date_ok in Hd as [-> Hd].
  apply _validate_category_ok in Hc as [Hc Hne].
  apply _validate_amount_ok in Ha as [Ha Hpos].
  assert (Hnorm : Text.lower (Text.strip c) = c)
    by (subst c; apply TextFacts.normal_form_fixed).
  assert (Hfin : forall i wi,
             i <> EmptyString ->
             (forall j, expense_id = Some j -> j <> EmptyString -> i = j /\ wi = w) ->
             (Ok (Expense.mk i date c a note currency), wi) = (Ok e, w') ->
             well_formed e
             /\ Expense.date e = date
             /\ Expense.category e = Text.lower (Text.strip category)
             /\ py_float amount = Ok (Expense.amount e)
             /\ Expense.note e = note
             /\ Expense.currency e = currency
             /\ (forall j, expense_id = Some j -> j <> EmptyString ->
                 Expense.id e = j /\ w' = w)).
  { intros i wi Hi Hid [= <- <-]. cbn.
    split; [constructor; cbn; assumption|].
    split; [reflexivity|]. split; [assumption|]. split; [assumption|].
    split; [reflexivity|]. split; [reflexivity|]. exact Hid. }
  destruct expense_id as [i|].
  - destruct (Text.truthy i) eqn:Hi.
    + cbn. apply Hfin.
      * now apply TextFacts.truthy_nonempty.
      * intros j [= ->] _. auto.
    + destruct (_generate_id date w) as [[g|] wg] eqn:Hg; [|discriminate].
      cbn. apply Hfin.
      * eapply _generate_id_nonempty; eauto.
      * intros j [= ->] Hj. apply TextFacts.truthy_nonempty in Hj. congruence.
  - destruct (_generate_id date w) as [[g|] wg] eqn:Hg; [|discriminate].
    cbn. apply Hfin.
    + eapply _generate_id_nonempty; eauto.
    + discriminate.
Qed.

(** Building an expense again from the fields of a well-formed one, with
    its id, returns those very fields and does not read the clock. *)
Lemma Expense_init_well_formed (e : Expense) (note : string) (w : world) :
  well_formed e ->
  Expense_init (Expense.date e) (Expense.category e) (AFloat (Expense.amount e))
    note (Expense.currency e) (Some (Expense.id e)) w
  = (Ok (Expense.with_note e note), w).
Proof.
  intros [Hd Hc Hne Ha Hi].
  unfold Expense_init, bind, lift, _validate_date, _validate_category.
  destruct (Strptime.strptime (Expense.date e)); [|congruence].
  assert (Ht : Text.truthy (Expense.category e) = true)
    by now apply TextFacts.truthy_nonempty.
  assert (Hs : Text.truthy (Text.strip (Expense.category e)) = true).
  { rewrite <- TextFacts.truthy_lower, Hc. exact Ht. }
  rewrite Ht, Hs, Hc. cbn [negb orb].
  rewrite (_validate_amount_float _ Ha).
  apply TextFacts.truthy_nonempty in Hi. rewrite Hi. reflexivity.
Qed.

Lemma with_note_same (e : Expense) : Expense.with_note e (Expense.note e) = e.
Proof. destruct e; reflexivity. Qed.

Lemma from_dict_to_dict (e : Expense) (w : world) :
  well_formed e -> from_dict (to_dict e) w = (Ok e, w).
Proof.
  intros Hwf.
  pose proof (Expense_init_well_formed e (Expense.note e) w Hwf) as H.
  rewrite with_note_same in H. exact H.
Qed.

(** The rules are checked in the order date, category, amount, and the
    first one that fails decides the exception. *)
Lemma Expense_init_first_failure date category amount note currency expense_id w :
  (Strptime.strptime date = None ->
   Expense_init date category amount note currency expense_id w
   = (Raise (ValueError "date must be YYYY-MM-DD"), w))
  /\ (Strptime.strptime date <> None ->
      Text.strip category = EmptyString ->
      Expense_init date category amount note currency expense_id w
      = (Raise (ValueError "category cannot be empty"), w))
  /\ (Strptime.strptime date <> None ->
      Text.strip category <> EmptyString ->
      amount = ANone ->
      Expense_init date category amount note currency expense_id w
      = (Raise (ValueError "amount must be a valid number"), w))
  /\ (Strptime.strptime date <> None ->
      Text.strip category <> EmptyString ->
      forall f, py_float amount = Ok f -> Num.fle f Num.fzero = true ->
      Expense_init date category amount note currency expense_id w
      = (Raise (ValueError "amount must be > 0"), w)).
Proof.
  assert (Hcat : Text.strip category <> EmptyString ->
                 exists c, _validate_category category = Ok c).
  { intros Hs. unfold _validate_category.
    assert (Text.truthy (Text.strip category) = true) as ->
      by now apply TextFacts.truthy_nonempty.
    destruct category as [|a s]; [now contradiction Hs|]. cbn. eauto. }
  unfold Expense_init, bind, lift, _validate_date.
  repeat apply conj.
  - now intros ->.
  - intros Hd Hs. destruct (Strptime.strptime date); [|congruence].
    unfold _validate_category. rewrite Hs. cbn.
    now rewrite orb_true_r.
  - intros Hd Hs ->. destruct (Strptime.strptime date); [|congruence].
    destruct (Hcat Hs) as [c ->]. reflexivity.
  - intros Hd Hs f Hf Hle. destruct (Strptime.strptime date); [|congruence].
    destruct (Hcat Hs) as [c ->].
    unfold _validate_amount. rewrite Hf, Hle. reflexivity.
Qed.

(** The lenient side of [strptime]: fields without zero padding pass the
    date rule and are stored as written. *)
Example date_without_padding_accepted :
  _validate_date "2024-1-5" = Ok "2024-1-5".
Proof. reflexivity. Qed.

(** C1.  Construction checks date, category and amount in this order and
    is meant to return only expenses with amount > 0.  The amount rule
    rejects an amount only when [amount <= 0] holds, which is false for
    NaN: with the amount NaN the constructor returns an expense, and its
    amount is not greater than 0. *)
Theorem C1_nan_amount_accepted (w : world) :
  exists e w',
    Expense_init "2024-01-05" "Food" (AFloat S754_nan) EmptyString "BDT" None w
    = (Ok e, w')
    /\ Expense.category e = "food"
    /\ Expense.amount e = S754_nan
    /\ Num.fgt (Expense.amount e) Num.fzero = false.
Proof.
  eexists. eexists. split; [reflexivity|]. cbn. auto.
Qed.

(** C5.  Serialization round-trips: for every expense [e] returned by the
    constructor, [from_dict (to_dict e)] returns [e] itself, field for
    field, and leaves the world as it was. *)
Theorem C5_from_dict_to_dict_roundtrip
    date category amount note currency expense_id w e w' :
  Expense_init date category amount note currency expense_id w = (Ok e, w') ->
  forall w2, from_dict (to_dict e) w2 = (Ok e, w2).
Proof.
  intros Hinit w2. apply from_dict_to_dict.
  now apply Expense_init_ok in Hinit as [Hwf _].
Qed.

Lemma C5_roundtrip_witness :
  Expense_init "2024-01-05" "  Food " (AFloat Samples.amount_12_5) "lunch" "BDT" None
    (Samples.world_of [] [])
  = (Ok Samples.lunch, mkworld (Some (Samples.stored [])) [] Samples.clock 1)
  /\ from_dict (to_dict Samples.lunch) (Samples.world_of [] [])
     = (Ok Samples.lunch, Samples.world_of [] []).
Proof.
  split; [reflexivity|].
  apply (C5_from_dict_to_dict_roundtrip
           "2024-01-05" "  Food " (AFloat Samples.amount_12_5) "lunch" "BDT" None
           (Samples.world_of [] []) Samples.lunch
           (mkworld (Some (Samples.stored [])) [] Samples.clock 1)).
  reflexivity.
Defined.

(** ** The store *)

Module StoreFacts.
Import ExpenseStorage.

Lemma same_disk_refl w : same_disk w w.
Proof. now repeat split. Qed.

Lemma same_disk_trans w1 w2 w3 : same_disk w1 w2 -> same_disk w2 w3 -> same_disk w1 w3.
Proof. unfold same_disk. intros (-> & -> & ->) (-> & -> & ->). now repeat split. Qed.

Lemma Expense_init_same_disk date category amount note currency expense_id w r w' :
  Expense_init date category amount note currency expense_id w = (r, w') ->
  same_disk w w'.
Proof.
  unfold Expense_init, bind, lift.
  destruct (_validate_date date) as [d0|]; [|intros [= _ <-]; apply same_disk_refl].
  destruct (_validate_category category); [|intros [= _ <-]; apply same_disk_refl].
  destruct (_validate_amount amount); [|intros [= _ <-]; apply same_disk_refl].
  assert (Hgen : forall d wg rg, _generate_id d w = (rg, wg) -> same_disk w wg).
  { unfold _generate_id, bind, now_stamp, ret. intros d wg rg [= _ <-].
    now repeat split. }
  destruct expense_id as [i|]; [destruct (Text.truthy i)|].
  - cbn. intros [= _ <-]. apply same_disk_refl.
  - destruct (_generate_id d0 w) as [[g|] wg] eqn:Hg; cbn; intros [= _ <-];
      eapply Hgen; eauto.
  - destruct (_generate_id d0 w) as [[g|] wg] eqn:Hg; cbn; intros [= _ <-];
      eapply Hgen; eauto.
Qed.

Lemma from_dict_same_disk d w r w' : from_dict d w = (r, w') -> same_disk w w'.
Proof.
  unfold from_dict, bind, getitem, raise, ret.
  destruct (d_date d); [|intros [= _ <-]; apply same_disk_refl].
  destruct (d_category d); [|intros [= _ <-]; apply same_disk_refl].
  destruct (d_amount d); [|intros [= _ <-]; apply same_disk_refl].
  apply Expense_init_same_disk.
Qed.

Lemma from_dict_well_formed d w e w' : from_dict d w = (Ok e, w') -> well_formed e.
Proof.
  unfold from_dict, bind, getitem, raise, ret.
  destruct (d_date d); [|discriminate].
  destruct (d_category d); [|discriminate].
  destruct (d_amount d); [|discriminate].
  intros H. now apply Expense_init_ok in H as [Hwf _].
Qed.

Lemma mapM_from_dict_same_disk ds : forall w r w',
  mapM from_dict ds w = (r, w') -> same_disk w w'.
Proof.
  induction ds as [|d ds IH]; intros w r w'; cbn [mapM].
  - intros [= _ <-]. apply same_disk_refl.
  - unfold bind at 1. destruct (from_dict d w) as [[e|x] w1] eqn:Hd.
    + unfold bind at 1. destruct (mapM from_dict ds w1) as [[l|y] w2] eqn:Hm;
        intros [= _ <-];
        (eapply same_disk_trans; [eapply from_dict_same_disk; eauto | eapply IH; eauto]).
    + intros [= _ <-]. eapply from_dict_same_disk; eauto.
Qed.

Lemma mapM_from_dict_well_formed ds : forall w l w',
  mapM from_dict ds w = (Ok l, w') -> Forall well_formed l.
Proof.
  induction ds as [|d ds IH]; intros w l w'; cbn [mapM].
  - intros [= <- _]. constructor.
  - unfold bind at 1. destruct (from_dict d w) as [[e|x] w1] eqn:Hd; [|discriminate].
    unfold bind at 1. destruct (mapM from_dict ds w1) as [[l1|y] w2] eqn:Hm; [|discriminate].
    intros [= <- _]. constructor.
    + eapply from_dict_well_formed; eauto.
    + eapply IH; eauto.
Qed.

Lemma mapM_from_dict_to_dict l w :
  Forall well_formed l -> mapM from_dict (List.map to_dict l) w = (Ok l, w).
Proof.
  induction 1 as [|e l He Hl IH]; [reflexivity|].
  cbn [List.map mapM]. unfold bind at 1. rewrite (from_dict_to_dict e w He).
  unfold bind at 1. now rewrite IH.
Qed.

(** Loading from a file that holds a whole document. *)
Lemma load_expenses_text w d :
  w_file w = Some (Text d) ->
  load_expenses w =
  match mapM from_dict (expense_list_of d) w with
  | (Ok l, w') => (Ok l, w')
  | (Raise e, w') => (Raise (Exception "Error reading expenses" e), w')
  end.
Proof.
  intros Hf. unfold load_expenses, bind, _ensure_file_exists, try_except, open_and_load.
  rewrite Hf. cbv beta iota. rewrite Hf. cbv beta iota.
  destruct (mapM from_dict (expense_list_of d) w) as [[l|e] w'] eqn:Hm; [reflexivity|].
  assert (e <> JSONDecodeError).
  { clear Hf. revert w w' e Hm. generalize (expense_list_of d) as ds.
    induction ds as [|x ds IH]; intros w w' e; cbn [mapM]; [discriminate|].
    unfold bind at 1. destruct (from_dict x w) as [[y|z] w1] eqn:Hd.
    - unfold bind at 1. destruct (mapM from_dict ds w1) as [[l1|e1] w2] eqn:Hm;
        [discriminate|]. intros [= <- _]. eapply IH; eauto.
    - intros [= <- _]. clear IH. revert Hd.
      unfold from_dict, bind, getitem, raise, ret.
      destruct (d_date x) as [dt|]; [|intros [= <- _]; discriminate].
      destruct (d_category x); [|intros [= <- _]; discriminate].
      destruct (d_amount x) as [a|]; [|intros [= <- _]; discriminate].
      unfold Expense_init, bind, lift, _validate_date, _validate_category,
        _validate_amount.
      destruct (Strptime.strptime dt); [|intros [= <- _]; discriminate].
      destruct (_ || _); [intros [= <- _]; discriminate|].
      destruct (py_float a) as [f|pe] eqn:Hp.
      + destruct (Num.fle f Num.fzero); cbn.
        * intros [= <- _]; discriminate.
        * destruct (d_id x) as [i|]; [destruct (Text.truthy i)|];
            cbn; discriminate.
      + destruct a as [|q|q]; cbn in Hp; try discriminate.
        * injection Hp as <-. cbn. intros [= <- _]; discriminate.
        * destruct (Num.nearest q); try discriminate.
          injection Hp as <-. cbn. intros [= <- _]; discriminate. }
  destruct e; try reflexivity; congruence.
Qed.

Lemma load_expenses_stored w l :
  Forall well_formed l ->
  w_file w = Some (Text (Versioned (Some VERSION) (Some (List.map to_dict l)))) ->
  load_expenses w = (Ok l, w).
Proof.
  intros Hl Hf. rewrite (load_expenses_text w _ Hf). cbn [expense_list_of].
  now rewrite mapM_from_dict_to_dict.
Qed.

Lemma load_expenses_truncated w d n :
  w_file w = Some (Truncated d n) ->
  load_expenses w = (Raise (Exception "Corrupted data file" JSONDecodeError), w).
Proof.
  intros Hf. unfold load_expenses, bind, _ensure_file_exists, try_except, open_and_load.
  rewrite Hf. cbv beta iota. now rewrite Hf.
Qed.

Lemma load_expenses_truncated_inside w d n :
  w_file w = Some (TruncatedInside d n) ->
  load_expenses w = (Raise (Exception "Error reading expenses" UnicodeDecodeError), w).
Proof.
  intros Hf. unfold load_expenses, bind, _ensure_file_exists, try_except, open_and_load.
  rewrite Hf. cbv beta iota. now rewrite Hf.
Qed.

(** A load that returns leaves an existing file as it was, and every
    expense it returns is well formed. *)
Lemma load_expenses_ok w l w1 :
  load_expenses w = (Ok l, w1) ->
  Forall well_formed l
  /\ (exists d, w_file w1 = Some (Text d))
  /\ w_clock w1 = w_clock w
  /\ (forall c, w_file w = Some c -> same_disk w w1).
Proof.
  destruct (w_file w) as [c|] eqn:Hf.
  - destruct c as [d|d n|t|d n].
    + rewrite (load_expenses_text w d Hf).
      destruct (mapM from_dict (expense_list_of d) w) as [[l'|e] w'] eqn:Hm; [|discriminate].
      intros [= <- <-]. pose proof (mapM_from_dict_same_disk _ _ _ _ Hm) as Hs.
      split; [eapply mapM_from_dict_well_formed; eauto|].
      split; [exists d; destruct Hs as (-> & _); exact Hf|].
      split; [apply Hs | intros; exact Hs].
    + rewrite (load_expenses_truncated w d n Hf). discriminate.
    + unfold load_expenses, bind, _ensure_file_exists, try_except, open_and_load.
      rewrite Hf. cbv beta iota. rewrite Hf. discriminate.
    + rewrite (load_expenses_truncated_inside w d n Hf). discriminate.
  - unfold load_expenses, bind at 1, _ensure_file_exists. rewrite Hf.
    unfold _write_data, try_except at 1, open_and_dump, raise.
    destruct (w_faults w) as [|[| |n|n] rest]; try discriminate.
    + unfold try_except, bind, open_and_load. cbn.
      intros [= <- <-]. cbn. repeat split; try constructor; eauto; discriminate.
    + unfold try_except, bind, open_and_load. cbn.
      intros [= <- <-]. cbn. repeat split; try constructor; eauto; discriminate.
Qed.

(** The ways a rewrite can go. *)
Lemma _write_expenses_cases w l :
  let data := Versioned (Some VERSION) (Some (List.map to_dict l)) in
  _write_expenses l w =
  match next_fault w with
  | NoFault => (Ok tt, after_write w (Some (Text data)))
  | OpenFails => (Raise write_error, after_write w (w_file w))
  | WriteFails n => (Raise write_error, after_write w (Some (Truncated data n)))
  | WriteFailsInside n =>
      (Raise write_error,
       after_write w
         (Some (if document_several_bytes data then TruncatedInside data n
                else Truncated data n)))
  end.
Proof.
  unfold _write_expenses, _write_data, try_except, open_and_dump, raise,
    next_fault, after_write, write_error.
  destruct (w_faults w) as [|[| |n|n] rest]; reflexivity.
Qed.

End StoreFacts.

Module DeleteFacts.
Import ExpenseStorage StoreFacts.

Lemma filter_length_le {A} (f : A -> bool) (l : list A) :
  (length (List.filter f l) <= length l)%nat.
Proof. induction l as [|x l IH]; cbn; [lia|]. destruct (f x); cbn; lia. Qed.

Lemma filter_keeps_all {A} (f : A -> bool) (l : list A) :
  List.forallb f l = true -> List.filter f l = l.
Proof.
  induction l as [|x l IH]; cbn; [reflexivity|].
  destruct (f x); cbn; [intros H; now rewrite IH | discriminate].
Qed.

Lemma filter_drops_some {A} (f : A -> bool) (l : list A) :
  List.forallb f l = false -> (length (List.filter f l) < length l)%nat.
Proof.
  induction l as [|x l IH]; cbn; [discriminate|].
  destruct (f x); cbn.
  - intros H. specialize (IH H). lia.
  - intros _. pose proof (filter_length_le f l). lia.
Qed.

Lemma has_id_forallb expense_id l :
  List.forallb (fun e => negb (id_is expense_id e)) l = negb (has_id expense_id l).
Proof.
  unfold has_id. induction l as [|x l IH]; cbn; [reflexivity|].
  rewrite IH. now destruct (id_is expense_id x), (existsb (id_is expense_id) l).
Qed.

Lemma without_id_absent expense_id l :
  has_id expense_id l = false -> without_id expense_id l = l.
Proof.
  intros H. apply filter_keeps_all. now rewrite has_id_forallb, H.
Qed.

Lemma without_id_shorter expense_id l :
  has_id expense_id l = true ->
  (length (without_id expense_id l) < length l)%nat.
Proof.
  intros H. apply filter_drops_some. now rewrite has_id_forallb, H.
Qed.

Lemma has_id_In expense_id l :
  has_id expense_id l = false -> ~ List.In expense_id (List.map Expense.id l).
Proof.
  unfold has_id. induction l as [|x l IH]; cbn; [tauto|].
  intros H. apply orb_false_iff in H as [Hx Hl].
  intros [Heq | Hin]; [|now apply IH].
  unfold id_is in Hx. apply String.eqb_neq in Hx. congruence.
Qed.

(** With distinct ids, exactly one entry carries a given stored id. *)
Lemma without_id_one expense_id l :
  List.NoDup (List.map Expense.id l) ->
  has_id expense_id l = true ->
  S (length (without_id expense_id l)) = length l.
Proof.
  unfold has_id, without_id.
  induction l as [|x l IH]; cbn; [discriminate|].
  intros Hnd Hex. apply List.NoDup_cons_iff in Hnd as [Hnot Hnd].
  destruct (id_is expense_id x) eqn:Hx; cbn.
  - f_equal. f_equal. apply filter_keeps_all.
    rewrite has_id_forallb. apply negb_true_iff.
    destruct (has_id expense_id l) eqn:Hh; [|reflexivity].
    exfalso. apply Hnot. unfold id_is in Hx. apply String.eqb_eq in Hx. rewrite Hx.
    clear -Hh. unfold has_id in Hh. induction l as [|y l IH]; cbn in *; [discriminate|].
    apply orb_true_iff in Hh as [Hy | Hl]; [left | right; auto].
    unfold id_is in Hy. now apply String.eqb_eq in Hy.
  - f_equal. now apply IH.
Qed.

Lemma delete_expense_unfold expense_id w l w1 :
  load_expenses w = (Ok l, w1) ->
  delete_expense expense_id w =
  if has_id expense_id l
  then (let '(r, w2) := _write_expenses (without_id expense_id l) w1 in
        match r with Ok _ => (Ok true, w2) | Raise e => (Raise e, w2) end)
  else (Ok false, w1).
Proof.
  intros Hl. unfold delete_expense, bind at 1. rewrite Hl.
  fold (without_id expense_id l).
  destruct (has_id expense_id l) eqn:Hh.
  - pose proof (without_id_shorter _ _ Hh) as Hlt.
    destruct (Nat.eqb_spec (length (without_id expense_id l)) (length l)); [lia|].
    unfold bind, ret. now destruct (_write_expenses _ w1) as [[[]|e] w2].
  - rewrite (without_id_absent _ _ Hh). now rewrite Nat.eqb_refl.
Qed.

End DeleteFacts.

(** C2, as stated, fails: the file is opened for writing before anything
    is written, so a write that fails under way leaves neither the prior
    content nor the new document.  Appending [bus] to a store holding
    [lunch], with the write failing after 40 characters: the operation
    raises, the file no longer holds its prior content, and the next load
    fails. *)
Lemma C2_failed_write_loses_prior_content :
  let w := Samples.world_of [Samples.lunch] [WriteFails 40] in
  exists w',
    ExpenseStorage.load_expenses w = (Ok [Samples.lunch], w)
    /\ ExpenseStorage.save_expense Samples.bus w = (Raise write_error, w')
    /\ w_file w = Some (Text (document_of [Samples.lunch]))
    /\ w_file w' = Some (Truncated (document_of [Samples.lunch; Samples.bus]) 40)
    /\ w_file w' <> w_file w
    /\ ExpenseStorage.load_expenses w'
       = (Raise (Exception "Corrupted data file" JSONDecodeError), w').
Proof.
  eexists. repeat apply conj; try reflexivity. discriminate.
Qed.

(** C2, amended.  Appending to a store that loads: when the rewrite
    succeeds the file holds the whole new document; when opening the file
    fails the file is as the load left it (an existing file is unchanged);
    when the write fails after the file was opened the file holds only an
    initial part of the new document, and the next load does not read it:
    it raises "Corrupted data file" when the part ends between two
    characters, and "Error reading expenses" when it ends inside a
    character of several bytes. *)
Theorem C2_append_outcomes (w : world) (expense : Expense) l w1 :
  ExpenseStorage.load_expenses w = (Ok l, w1) ->
  let data := document_of (l ++ [expense]) in
  (forall c, w_file w = Some c -> w_file w1 = Some c)
  /\ match next_fault w1 with
     | NoFault =>
         ExpenseStorage.save_expense expense w
         = (Ok tt, after_write w1 (Some (Text data)))
     | OpenFails =>
         ExpenseStorage.save_expense expense w
         = (Raise write_error, after_write w1 (w_file w1))
     | WriteFails n =>
         let w2 := after_write w1 (Some (Truncated data n)) in
         ExpenseStorage.save_expense expense w = (Raise write_error, w2)
         /\ ExpenseStorage.load_expenses w2
            = (Raise (Exception "Corrupted data file" JSONDecodeError), w2)
     | WriteFailsInside n =>
         if document_several_bytes data then
           let w2 := after_write w1 (Some (TruncatedInside data n)) in
           ExpenseStorage.save_expense expense w = (Raise write_error, w2)
           /\ ExpenseStorage.load_expenses w2
              = (Raise (Exception "Error reading expenses" UnicodeDecodeError), w2)
         else
           let w2 := after_write w1 (Some (Truncated data n)) in
           ExpenseStorage.save_expense expense w = (Raise write_error, w2)
           /\ ExpenseStorage.load_expenses w2
              = (Raise (Exception "Corrupted data file" JSONDecodeError), w2)
     end.
Proof.
  intros Hl data. split.
  - intros c Hc. destruct (StoreFacts.load_expenses_ok _ _ _ Hl) as (_ & _ & _ & Hs).
    destruct (Hs c Hc) as (-> & _). exact Hc.
  - unfold ExpenseStorage.save_expense, bind. rewrite Hl.
    pose proof (StoreFacts._write_expenses_cases w1 (l ++ [expense])) as Hw.
    cbv zeta in Hw. rewrite Hw. subst data. unfold document_of.
    destruct (next_fault w1) as [| |n|n]; try reflexivity.
    + split; [reflexivity|]. now eapply StoreFacts.load_expenses_truncated.
    + destruct (document_several_bytes _); (split; [reflexivity|]).
      * now eapply StoreFacts.load_expenses_truncated_inside.
      * now eapply StoreFacts.load_expenses_truncated.
Qed.

Lemma C2_append_outcomes_witness :
  let w := Samples.world_of [Samples.lunch] [OpenFails] in
  let v := Samples.world_of [Samples.lunch] [WriteFailsInside 339] in
  let cut :=
    TruncatedInside (document_of [Samples.lunch; MoreSamples.tea]) 339 in
  (ExpenseStorage.load_expenses w = (Ok [Samples.lunch], w)
   /\ ExpenseStorage.save_expense Samples.bus w
      = (Raise write_error, after_write w (w_file w)))
  /\ (ExpenseStorage.load_expenses v = (Ok [Samples.lunch], v)
      /\ ExpenseStorage.save_expense MoreSamples.tea v
         = (Raise write_error, after_write v (Some cut))
      /\ ExpenseStorage.load_expenses (after_write v (Some cut))
         = (Raise (Exception "Error reading expenses" UnicodeDecodeError),
            after_write v (Some cut))).
Proof.
  split.
  - split; [reflexivity|].
    exact (proj2 (C2_append_outcomes
                    (Samples.world_of [Samples.lunch] [OpenFails]) Samples.bus
                    [Samples.lunch]
                    (Samples.world_of [Samples.lunch] [OpenFails]) eq_refl)).
  - split; [reflexivity|].
    exact (proj2 (C2_append_outcomes
                    (Samples.world_of [Samples.lunch] [WriteFailsInside 339])
                    MoreSamples.tea [Samples.lunch]
                    (Samples.world_of [Samples.lunch] [WriteFailsInside 339])
                    eq_refl)).
Defined.

(** C3, as stated, fails where it says that exactly one entry is removed:
    the id ends in the time of day cut to the second, so two entries of
    one date added within one second share an id, and deleting that id
    removes both. *)
Lemma C3_delete_removes_every_entry_of_the_id :
  let w0 := mkworld None [] Samples.same_second_clock 0 in
  exists w w',
    Samples.add_two_in_one_second w0 = (Ok (Samples.lunch, Samples.coffee), w)
    /\ ExpenseStorage.load_expenses w = (Ok [Samples.lunch; Samples.coffee], w)
    /\ ExpenseService.delete_expense "EXP-20240105-093015" w = (Ok true, w')
    /\ ExpenseStorage.load_expenses w' = (Ok [], w')
    /\ S (length (@nil Expense)) <> length [Samples.lunch; Samples.coffee].
Proof.
  intros w0.
  exists (mkworld (Some (Samples.stored [Samples.lunch; Samples.coffee])) []
            Samples.same_second_clock 2).
  exists (mkworld (Some (Samples.stored [])) [] Samples.same_second_clock 2).
  repeat apply conj; try (vm_compute; reflexivity). cbn. lia.
Qed.

(** C3, amended.  On a store that loads as [l]:
    - when no entry has the id, [delete_expense] returns false and the
      world is the one the load alone leaves: nothing is rewritten, an
      existing file keeps its content and the stored list is [l];
    - when some entry has the id and the rewrite succeeds, it returns true
      and the store then loads as [l] without the entries of that id, the
      others unchanged and in their order; one entry is removed when the
      stored ids are distinct. *)
Theorem C3_delete_by_id (w : world) (expense_id : string) l w1 :
  ExpenseStorage.load_expenses w = (Ok l, w1) ->
  (has_id expense_id l = false ->
   ExpenseService.delete_expense expense_id w = (Ok false, w1)
   /\ (forall c, w_file w = Some c -> w_file w1 = Some c)
   /\ without_id expense_id l = l)
  /\ (has_id expense_id l = true ->
      next_fault w1 = NoFault ->
      let kept := without_id expense_id l in
      let w2 := after_write w1 (Some (Text (document_of kept))) in
      ExpenseService.delete_expense expense_id w = (Ok true, w2)
      /\ ExpenseStorage.load_expenses w2 = (Ok kept, w2)
      /\ (forall e, List.In e kept <->
                    List.In e l /\ Expense.id e <> expense_id)
      /\ (List.NoDup (List.map Expense.id l) -> S (length kept) = length l)).
Proof.
  intros Hl. unfold ExpenseService.delete_expense.
  rewrite (DeleteFacts.delete_expense_unfold _ _ _ _ Hl).
  destruct (StoreFacts.load_expenses_ok _ _ _ Hl) as (Hwf & _ & _ & Hs).
  split.
  - intros Hh. rewrite Hh. split; [reflexivity|]. split.
    + intros c Hc. destruct (Hs c Hc) as (-> & _). exact Hc.
    + now apply DeleteFacts.without_id_absent.
  - intros Hh Hf. cbv zeta. rewrite Hh.
    pose proof (StoreFacts._write_expenses_cases w1 (without_id expense_id l)) as Hw.
    cbv zeta in Hw. rewrite Hf in Hw. rewrite Hw.
    split; [reflexivity|]. split; [|split].
    + apply StoreFacts.load_expenses_stored; [|reflexivity].
      unfold without_id. rewrite List.Forall_forall in *.
      intros e He. apply List.filter_In in He as [He _]. auto.
    + intros e. unfold without_id. rewrite List.filter_In.
      unfold ExpenseStorage.id_is. rewrite negb_true_iff, String.eqb_neq. tauto.
    + intros Hnd. now apply DeleteFacts.without_id_one.
Qed.

Lemma C3_delete_by_id_witness :
  let w := Samples.world_of [Samples.lunch; Samples.bus] [] in
  ExpenseStorage.load_expenses w = (Ok [Samples.lunch; Samples.bus], w)
  /\ ExpenseService.delete_expense "EXP-20240106-101500" w
     = (Ok true, after_write w (Some (Text (document_of [Samples.lunch]))))
  /\ ExpenseService.delete_expense "EXP-nonexistent" w = (Ok false, w).
Proof.
  pose proof (C3_delete_by_id (Samples.world_of [Samples.lunch; Samples.bus] [])
                "EXP-20240106-101500" [Samples.lunch; Samples.bus]
                (Samples.world_of [Samples.lunch; Samples.bus] []) eq_refl) as H1.
  pose proof (C3_delete_by_id (Samples.world_of [Samples.lunch; Samples.bus] [])
                "EXP-nonexistent" [Samples.lunch; Samples.bus]
                (Samples.world_of [Samples.lunch; Samples.bus] []) eq_refl) as H2.
  split; [reflexivity|]. split.
  - exact (proj1 (proj2 H1 eq_refl eq_refl)).
  - exact (proj1 (proj1 H2 eq_refl)).
Defined.

(** ** Updating *)

Module UpdateFacts.
Import ExpenseStorage StoreFacts.

Lemma find_id_is expense_id l e :
  List.find (id_is expense_id) l = Some e ->
  List.In e l /\ Expense.id e = expense_id.
Proof.
  intros H. apply List.find_some in H as [Hin Hid]. split; [exact Hin|].
  now apply String.eqb_eq in Hid.
Qed.

Lemma get_expense_by_id_found expense_id w e w1 :
  get_expense_by_id expense_id w = (Ok (Some e), w1) ->
  well_formed e /\ Expense.id e = expense_id
  /\ exists l, load_expenses w = (Ok l, w1) /\ List.find (id_is expense_id) l = Some e.
Proof.
  unfold get_expense_by_id, bind, ret.
  destruct (load_expenses w) as [[l|x] w'] eqn:Hl; [|discriminate].
  intros [= Hf <-]. destruct (find_id_is _ _ _ Hf) as [Hin Hid].
  destruct (load_expenses_ok _ _ _ Hl) as (Hwf & _).
  rewrite List.Forall_forall in Hwf. eauto 6.
Qed.

(** With no amount, category or date given, the merged record is the
    existing one with the note that was given, if any. *)
Lemma merged_expense_keeps (e : Expense) amount note category date w :
  well_formed e ->
  ExpenseService.amount_truthy amount = false ->
  ExpenseService.given category = None ->
  ExpenseService.given date = None ->
  ExpenseService.merged_expense e amount note category date w
  = (Ok (Expense.with_note e (default (Expense.note e) note)), w).
Proof.
  intros Hwf Ha Hc Hd. unfold ExpenseService.merged_expense.
  rewrite Ha, Hc, Hd. destruct note as [n|]; now apply Expense_init_well_formed.
Qed.

Lemma replace_first_found expense_id u l :
  has_id expense_id l = true ->
  exists l', replace_first expense_id u l = Some l'
             /\ List.In u l' /\ length l' = length l.
Proof.
  unfold has_id. induction l as [|x l IH]; cbn; [discriminate|].
  destruct (id_is expense_id x) eqn:Hx; cbn.
  - intros _. eexists. split; [reflexivity|]. cbn. auto.
  - intros H. destruct (IH H) as (l' & -> & Hin & Hlen). cbn.
    eexists. split; [reflexivity|]. cbn. auto.
Qed.

Lemma replace_first_well_formed expense_id u l l' :
  well_formed u -> Forall well_formed l ->
  replace_first expense_id u l = Some l' -> Forall well_formed l'.
Proof.
  intros Hu Hl. revert l'. induction Hl as [|x l Hx Hl IH]; cbn; [discriminate|].
  intros l'. destruct (id_is expense_id x).
  - intros [= <-]. now constructor.
  - destruct (replace_first expense_id u l) as [r|]; cbn; [|discriminate].
    intros [= <-]. constructor; auto.
Qed.

Lemma with_note_well_formed e n : well_formed e -> well_formed (Expense.with_note e n).
Proof. intros [? ? ? ? ?]. now constructor. Qed.

(** What the store does with the record it is handed. *)
Lemma update_expense_writes expense_id u w l w1 :
  well_formed u ->
  load_expenses w = (Ok l, w1) ->
  has_id expense_id l = true ->
  next_fault w1 = NoFault ->
  exists l',
    replace_first expense_id u l = Some l'
    /\ List.In u l'
    /\ update_expense expense_id u w
       = (Ok true, after_write w1 (Some (Text (document_of l'))))
    /\ load_expenses (after_write w1 (Some (Text (document_of l'))))
       = (Ok l', after_write w1 (Some (Text (document_of l')))).
Proof.
  intros Hu Hl Hh Hf.
  destruct (replace_first_found expense_id u l Hh) as (l' & Hr & Hin & _).
  exists l'. split; [exact Hr|]. split; [exact Hin|].
  destruct (load_expenses_ok _ _ _ Hl) as (Hwf & _).
  split.
  - unfold update_expense, bind at 1. rewrite Hl, Hr.
    pose proof (_write_expenses_cases w1 l') as Hw. cbv zeta in Hw.
    rewrite Hf in Hw. unfold bind. now rewrite Hw.
  - apply load_expenses_stored; [|reflexivity].
    eapply replace_first_well_formed; eauto.
Qed.

End UpdateFacts.

(** C4.  An amount of numeric zero (0, 0.0 or -0.0) is treated as not
    provided.  For an expense [e] found in the store: the update with the
    zero amount builds the same record as the update without an amount;
    whatever else is supplied, a record that gets built has the amount of
    [e], and the amount rule is not what rejects a merge; with the zero
    amount alone, the record handed to the store is [e] itself. *)
Theorem C4_zero_amount_is_not_provided
    (w : world) (expense_id : string) (e : Expense) (w1 : world)
    (zero : amount_arg) (note category date : option string) :
  ExpenseStorage.get_expense_by_id expense_id w = (Ok (Some e), w1) ->
  is_numeric_zero zero = true ->
  ExpenseService.update_expense expense_id zero note category date w
  = ExpenseService.update_expense expense_id ANone note category date w
  /\ ExpenseService.merged_expense e zero note category date w1
     = ExpenseService.merged_expense e ANone note category date w1
  /\ (forall u w2,
        ExpenseService.merged_expense e zero note category date w1 = (Ok u, w2) ->
        Expense.amount u = Expense.amount e)
  /\ (forall w2,
        ExpenseService.merged_expense e zero note category date w1
        <> (Raise (ValueError "amount must be > 0"), w2))
  /\ ExpenseService.update_expense expense_id zero None None None w
     = ExpenseStorage.update_expense expense_id e w1.
Proof.
  intros Hget Hz.
  assert (Hfalse : ExpenseService.amount_truthy zero = false).
  { destruct zero as [|z|[s|s| |s m x]]; cbn in *; try discriminate; auto.
    now rewrite Hz. }
  assert (Hsame : forall x, ExpenseService.merged_expense x zero note category date
                            = ExpenseService.merged_expense x ANone note category date).
  { intros x. unfold ExpenseService.merged_expense. now rewrite Hfalse. }
  destruct (UpdateFacts.get_expense_by_id_found _ _ _ _ Hget) as (Hwf & Hid & _).
  split; [|split; [|split; [|split]]].
  - unfold ExpenseService.update_expense, bind at 1 3.
    destruct (ExpenseStorage.get_expense_by_id expense_id w) as [[[x|]|] wx];
      try reflexivity.
    now rewrite Hsame.
  - now rewrite Hsame.
  - intros u w2 Hm. unfold ExpenseService.merged_expense in Hm. rewrite Hfalse in Hm.
    apply Expense_init_ok in Hm as (_ & _ & _ & Hp & _). cbn in Hp. congruence.
  - intros w2 Hm. unfold ExpenseService.merged_expense in Hm. rewrite Hfalse in Hm.
    unfold Expense_init, bind, lift, _validate_date, _validate_category in Hm.
    destruct (Strptime.strptime _); [|discriminate].
    destruct (_ || _); [discriminate|].
    rewrite (_validate_amount_float _ (wf_amount e Hwf)) in Hm.
    destruct (Text.truthy (Expense.id e)); [discriminate|].
    unfold _generate_id, bind, now_stamp, ret in Hm. discriminate.
  - unfold ExpenseService.update_expense, bind at 1. rewrite Hget.
    unfold bind at 1.
    rewrite (UpdateFacts.merged_expense_keeps e zero None None None w1 Hwf Hfalse
               eq_refl eq_refl).
    cbn [default]. now rewrite with_note_same.
Qed.

Lemma C4_zero_amount_witness :
  let w := Samples.world_of [Samples.lunch; Samples.bus] [] in
  ExpenseStorage.get_expense_by_id "EXP-20240105-093015" w = (Ok (Some Samples.lunch), w)
  /\ is_numeric_zero (AFloat (S754_zero false)) = true
  /\ ExpenseService.update_expense "EXP-20240105-093015" (AFloat (S754_zero false))
       None None None w
     = ExpenseStorage.update_expense "EXP-20240105-093015" Samples.lunch w.
Proof.
  split; [reflexivity|]. split; [reflexivity|].
  exact (proj2 (proj2 (proj2 (proj2
    (C4_zero_amount_is_not_provided
       (Samples.world_of [Samples.lunch; Samples.bus] []) "EXP-20240105-093015"
       Samples.lunch (Samples.world_of [Samples.lunch; Samples.bus] [])
       (AFloat (S754_zero false)) None None None eq_refl eq_refl))))).
Defined.

(** C8.  An update that supplies only a note.  For an expense [e] found
    in the store, the record that is built is [e] with the new note: id,
    date, category, amount and currency are those of [e].  This record is
    what the store is handed, and when the store still holds the id and
    the rewrite succeeds, the update returns true and the store then
    loads with that record in the place of the first entry of the id. *)
Theorem C8_note_only_update
    (w : world) (expense_id : string) (e : Expense) (w1 : world) (n : string) :
  ExpenseStorage.get_expense_by_id expense_id w = (Ok (Some e), w1) ->
  let u := Expense.with_note e n in
  ExpenseService.merged_expense e ANone (Some n) None None w1 = (Ok u, w1)
  /\ (Expense.id u = Expense.id e
      /\ Expense.date u = Expense.date e
      /\ Expense.category u = Expense.category e
      /\ Expense.amount u = Expense.amount e
      /\ Expense.currency u = Expense.currency e
      /\ Expense.note u = n)
  /\ ExpenseService.update_expense expense_id ANone (Some n) None None w
     = ExpenseStorage.update_expense expense_id u w1
  /\ (forall l w2,
        ExpenseStorage.load_expenses w1 = (Ok l, w2) ->
        has_id expense_id l = true ->
        next_fault w2 = NoFault ->
        exists l',
          ExpenseStorage.replace_first expense_id u l = Some l'
          /\ List.In u l'
          /\ ExpenseService.update_expense expense_id ANone (Some n) None None w
             = (Ok true, after_write w2 (Some (Text (document_of l'))))
          /\ ExpenseStorage.load_expenses
               (after_write w2 (Some (Text (document_of l'))))
             = (Ok l', after_write w2 (Some (Text (document_of l'))))).
Proof.
  intros Hget u.
  destruct (UpdateFacts.get_expense_by_id_found _ _ _ _ Hget) as (Hwf & Hid & _).
  assert (Hm : ExpenseService.merged_expense e ANone (Some n) None None w1 = (Ok u, w1))
    by now apply UpdateFacts.merged_expense_keeps.
  assert (Hup : ExpenseService.update_expense expense_id ANone (Some n) None None w
                = ExpenseStorage.update_expense expense_id u w1).
  { unfold ExpenseService.update_expense, bind at 1. rewrite Hget.
    unfold bind at 1. now rewrite Hm. }
  split; [exact Hm|]. split; [now repeat split|]. split; [exact Hup|].
  intros l w2 Hl Hh Hf. rewrite Hup.
  destruct (UpdateFacts.update_expense_writes expense_id u w1 l w2
              (UpdateFacts.with_note_well_formed e n Hwf) Hl Hh Hf)
    as (l' & Hr & Hin & Hw & Hload).
  exists l'. auto.
Qed.

Lemma C8_note_only_update_witness :
  let w := Samples.world_of [Samples.lunch; Samples.bus] [] in
  let u := Expense.with_note Samples.lunch "team lunch" in
  ExpenseStorage.get_expense_by_id "EXP-20240105-093015" w = (Ok (Some Samples.lunch), w)
  /\ ExpenseService.update_expense "EXP-20240105-093015" ANone (Some "team lunch")
       None None w
     = ExpenseStorage.update_expense "EXP-20240105-093015" u w
  /\ ExpenseStorage.update_expense "EXP-20240105-093015" u w
     = (Ok true, after_write w (Some (Text (document_of [u; Samples.bus])))).
Proof.
  split; [reflexivity|]. split; [|reflexivity].
  exact (proj1 (proj2 (proj2
    (C8_note_only_update
       (Samples.world_of [Samples.lunch; Samples.bus] []) "EXP-20240105-093015"
       Samples.lunch (Samples.world_of [Samples.lunch; Samples.bus] [])
       "team lunch" eq_refl)))).
Defined.

(** C10.  In an update an empty text for the category or the date counts
    as not provided, and an empty note does not.  The update with an empty
    category or date is the update without it.  For an expense [e] found
    in the store: with an empty category and an empty date the record
    built is [e], both values kept; with an empty note the record built is
    [e] with the note emptied; with no note at all the note of [e] stays. *)
Theorem C10_empty_text_in_update
    (w : world) (expense_id : string) (e : Expense) (w1 : world)
    (amount : amount_arg) (note category date : option string) :
  ExpenseStorage.get_expense_by_id expense_id w = (Ok (Some e), w1) ->
  ExpenseService.update_expense expense_id amount note (Some EmptyString) date w
  = ExpenseService.update_expense expense_id amount note None date w
  /\ ExpenseService.update_expense expense_id amount note category (Some EmptyString) w
     = ExpenseService.update_expense expense_id amount note category None w
  /\ ExpenseService.merged_expense e ANone None (Some EmptyString) (Some EmptyString) w1
     = (Ok e, w1)
  /\ ExpenseService.merged_expense e ANone (Some EmptyString) None None w1
     = (Ok (Expense.with_note e EmptyString), w1)
  /\ ExpenseService.merged_expense e ANone None None None w1 = (Ok e, w1)
  /\ ExpenseService.update_expense expense_id ANone (Some EmptyString) None None w
     = ExpenseStorage.update_expense expense_id (Expense.with_note e EmptyString) w1.
Proof.
  intros Hget.
  destruct (UpdateFacts.get_expense_by_id_found _ _ _ _ Hget) as (Hwf & Hid & _).
  assert (Hnote : ExpenseService.merged_expense e ANone (Some EmptyString) None None w1
                  = (Ok (Expense.with_note e EmptyString), w1))
    by now apply UpdateFacts.merged_expense_keeps.
  split; [reflexivity|]. split; [reflexivity|]. split; [|split; [|split]].
  - rewrite <- (with_note_same e) at 2.
    now apply (UpdateFacts.merged_expense_keeps e ANone None).
  - exact Hnote.
  - rewrite <- (with_note_same e) at 2.
    now apply (UpdateFacts.merged_expense_keeps e ANone None).
  - unfold ExpenseService.update_expense, bind at 1. rewrite Hget.
    unfold bind at 1. now rewrite Hnote.
Qed.

Lemma C10_empty_text_witness :
  let w := Samples.world_of [Samples.lunch; Samples.bus] [] in
  ExpenseStorage.get_expense_by_id "EXP-20240105-093015" w = (Ok (Some Samples.lunch), w)
  /\ ExpenseService.merged_expense Samples.lunch ANone None
       (Some EmptyString) (Some EmptyString) w
     = (Ok Samples.lunch, w)
  /\ ExpenseService.merged_expense Samples.lunch ANone (Some EmptyString) None None w
     = (Ok (Expense.with_note Samples.lunch EmptyString), w).
Proof.
  pose proof (C10_empty_text_in_update
                (Samples.world_of [Samples.lunch; Samples.bus] [])
                "EXP-20240105-093015" Samples.lunch
                (Samples.world_of [Samples.lunch; Samples.bus] [])
                ANone None None None eq_refl) as H.
  split; [reflexivity|]. split.
  - exact (proj1 (proj2 (proj2 H))).
  - exact (proj1 (proj2 (proj2 (proj2 H)))).
Defined.

(** ** Filtering *)

Module FilterFacts.

Lemma filter_true {A} (l : list A) : List.filter (fun _ => true) l = l.
Proof. induction l as [|x l IH]; cbn; congruence. Qed.

Lemma filter_andb {A} (p q : A -> bool) (l : list A) :
  List.filter (fun x => p x && q x) l = List.filter q (List.filter p l).
Proof.
  induction l as [|x l IH]; cbn; [reflexivity|].
  destruct (p x); cbn; [destruct (q x)|]; now rewrite IH.
Qed.

Lemma filter_comm {A} (p q : A -> bool) (l : list A) :
  List.filter p (List.filter q l) = List.filter q (List.filter p l).
Proof.
  rewrite <- !filter_andb. apply List.filter_ext. intros x. apply andb_comm.
Qed.

Lemma stage_filter {A} (o : option A) (p : A -> Expense -> bool) (l : list Expense) :
  stage o p l = List.filter (fun e => opt_holds o (fun a => p a e)) l.
Proof. destruct o; cbn; [reflexivity | now rewrite filter_true]. Qed.

Lemma stage_is_filter {A} (o : option A) p : is_filter (stage o p).
Proof. eexists. intros l. apply stage_filter. Qed.

Lemma filter_stages_are_filters m f t c mn mx :
  Forall is_filter (filter_stages m f t c mn mx).
Proof. repeat constructor; apply stage_is_filter. Qed.

Lemma run_stages_permutation stages stages' :
  Permutation stages stages' -> Forall is_filter stages ->
  forall l, run_stages stages' l = run_stages stages l.
Proof.
  unfold run_stages.
  induction 1 as [|f s s' Hp IH|f g s|s1 s2 s3 H12 IH12 H23 IH23]; intros Hf l.
  - reflexivity.
  - cbn. apply IH. now inversion Hf.
  - cbn. inversion Hf as [|? ? [p Hp2] Hf']; subst.
    inversion Hf' as [|? ? [q Hq] _]; subst.
    now rewrite Hp2, Hq, Hp2, Hq, filter_comm.
  - rewrite IH23, IH12; auto.
    eapply Permutation_Forall; eauto.
Qed.

Lemma prefix_empty (s : string) : String.prefix EmptyString s = true.
Proof. now destruct s. Qed.

Lemma month_stage (mo : string) (l : list Expense) :
  stage (ExpenseService.given (Some mo)) (fun m e => Text.startswith (Expense.date e) m) l
  = List.filter (fun e => Text.startswith (Expense.date e) mo) l.
Proof.
  destruct mo as [|a s]; cbn; [|reflexivity].
  rewrite <- (filter_true l) at 1. apply List.filter_ext.
  intros e. unfold Text.startswith. now rewrite prefix_empty.
Qed.

End FilterFacts.

(** C7, as stated, fails for a filter supplied as the empty text: the
    code skips it, so with [to_date] empty every expense is returned,
    though none has a date that is at most the empty text. *)
Lemma C7_empty_to_date_is_skipped :
  ExpenseService._apply_filters [Samples.lunch] None None (Some EmptyString) None None None
  = [Samples.lunch]
  /\ List.filter
       (fun e => satisfies_all e None None (Some EmptyString) None None None)
       [Samples.lunch]
     = []
  /\ ExpenseService._apply_filters [Samples.lunch] None None (Some EmptyString) None None None
     <> List.filter
          (fun e => satisfies_all e None None (Some EmptyString) None None None)
          [Samples.lunch].
Proof. repeat apply conj; try reflexivity. discriminate. Qed.

(** C7, amended.  A text filter counts as supplied when it is neither
    absent nor empty; an amount bound when it is not absent.  The result
    of [_apply_filters] is the input restricted, in its order, to the
    expenses that satisfy all supplied predicates; with no filter the
    input is returned; the six steps give the same result in whatever
    order they are applied; and filtering by month alone keeps the
    expenses whose date starts with the given text. *)
Theorem C7_filters_are_an_intersection
    (l : list Expense) (month from_date to_date category : option string)
    (min_amount max_amount : option Num.float) :
  ExpenseService._apply_filters l month from_date to_date category min_amount max_amount
  = List.filter
      (fun e => satisfies_all e
                  (ExpenseService.given month) (ExpenseService.given from_date)
                  (ExpenseService.given to_date) (ExpenseService.given category)
                  min_amount max_amount)
      l
  /\ ExpenseService._apply_filters l None None None None None None = l
  /\ (forall stages,
        Permutation
          (filter_stages month from_date to_date category min_amount max_amount)
          stages ->
        run_stages stages l
        = ExpenseService._apply_filters l month from_date to_date category
            min_amount max_amount)
  /\ (forall mo,
        ExpenseService._apply_filters l (Some mo) None None None None None
        = List.filter (fun e => Text.startswith (Expense.date e) mo) l).
Proof.
  assert (Hrun : forall m f t c mn mx,
             ExpenseService._apply_filters l m f t c mn mx
             = run_stages (filter_stages m f t c mn mx) l).
  { intros m f t c mn mx. unfold ExpenseService._apply_filters, run_stages, filter_stages.
    cbn [fold_left]. unfold stage.
    destruct (ExpenseService.given m), (ExpenseService.given f),
      (ExpenseService.given t), (ExpenseService.given c), mn, mx; reflexivity. }
  split; [|split; [|split]].
  - rewrite Hrun. unfold run_stages, filter_stages. cbn [fold_left].
    rewrite !FilterFacts.stage_filter, <- !FilterFacts.filter_andb.
    apply List.filter_ext. intros e. unfold satisfies_all.
    now rewrite !andb_assoc.
  - reflexivity.
  - intros stages Hp. rewrite Hrun.
    apply FilterFacts.run_stages_permutation; [exact Hp|].
    apply FilterFacts.filter_stages_are_filters.
  - intros mo. rewrite Hrun. unfold run_stages, filter_stages. cbn [fold_left].
    now rewrite FilterFacts.month_stage.
Qed.

Lemma C7_filters_witness :
  let l := [Samples.lunch; Samples.bus; Samples.dinner] in
  let stages := filter_stages (Some "2024-01") None None (Some "FOOD") None None in
  Permutation stages (rev stages)
  /\ run_stages (rev stages) l
     = ExpenseService._apply_filters l (Some "2024-01") None None (Some "FOOD") None None
  /\ ExpenseService._apply_filters l (Some "2024-01") None None (Some "FOOD") None None
     = [Samples.lunch].
Proof.
  split; [apply Permutation_rev|]. split; [|reflexivity].
  apply (proj1 (proj2 (proj2
    (C7_filters_are_an_intersection [Samples.lunch; Samples.bus; Samples.dinner]
       (Some "2024-01") None None (Some "FOOD") None None)))).
  apply Permutation_rev.
Defined.

(** ** Sorting *)

Module OrderFacts.

Lemma flt_spec (a b : Num.float) :
  Num.is_nan a = false -> Num.is_nan b = false ->
  (Num.flt a b = true <-> lex_lt (fkey a) (fkey b)).
Proof.
  unfold Num.flt, SFltb, lex_lt.
  destruct a as [sa|sa| |sa ma ea], b as [sb|sb| |sb mb eb]; try discriminate;
    intros _ _; cbn;
    repeat match goal with s : bool |- _ => destruct s end; cbn;
    try (split; intros; (lia || discriminate || reflexivity)).
  - change (Pos.compare_cont Eq ma mb) with (Pos.compare ma mb).
    destruct (Z.compare_spec ea eb); [destruct (Pos.compare_spec ma mb)| |];
      cbn; split; intros; try lia; try discriminate; reflexivity.
  - change (Pos.compare_cont Eq ma mb) with (Pos.compare ma mb).
    destruct (Z.compare_spec ea eb); [destruct (Pos.compare_spec ma mb)| |];
      cbn; split; intros; try lia; try discriminate; reflexivity.
Qed.

Lemma feq_spec (a b : Num.float) :
  Num.is_nan a = false -> Num.is_nan b = false ->
  (Num.feq a b = true <-> lex_eq (fkey a) (fkey b)).
Proof.
  unfold Num.feq, SFeqb, lex_eq.
  destruct a as [sa|sa| |sa ma ea], b as [sb|sb| |sb mb eb]; try discriminate;
    intros _ _; cbn;
    repeat match goal with s : bool |- _ => destruct s end; cbn;
    try (split; intros; (lia || discriminate || reflexivity)).
  - change (Pos.compare_cont Eq ma mb) with (Pos.compare ma mb).
    destruct (Z.compare_spec ea eb); [destruct (Pos.compare_spec ma mb)| |];
      cbn; split; intros; try lia; try discriminate; reflexivity.
  - change (Pos.compare_cont Eq ma mb) with (Pos.compare ma mb).
    destruct (Z.compare_spec ea eb); [destruct (Pos.compare_spec ma mb)| |];
      cbn; split; intros; try lia; try discriminate; reflexivity.
Qed.

Lemma flt_not_nan (a b : Num.float) :
  Num.flt a b = true -> Num.is_nan a = false /\ Num.is_nan b = false.
Proof. destruct a, b; cbn; try discriminate; auto. Qed.

Lemma feq_not_nan (a b : Num.float) :
  Num.feq a b = true -> Num.is_nan a = false /\ Num.is_nan b = false.
Proof. destruct a, b; cbn; try discriminate; auto. Qed.

Lemma flt_false (a b : Num.float) :
  Num.is_nan a = false -> Num.is_nan b = false ->
  (Num.flt a b = false <-> ~ lex_lt (fkey a) (fkey b)).
Proof.
  intros Ha Hb. rewrite <- (flt_spec a b Ha Hb). destruct (Num.flt a b); split; congruence.
Qed.

Lemma flt_asym (a b : Num.float) : Num.flt a b = true -> Num.flt b a = false.
Proof.
  intros H. destruct (flt_not_nan _ _ H) as [Ha Hb].
  apply (flt_spec a b Ha Hb) in H. apply (flt_false b a Hb Ha).
  unfold lex_lt in *. lia.
Qed.

Lemma fle_trans (a b c : Num.float) :
  Num.is_nan a = false -> Num.is_nan b = false -> Num.is_nan c = false ->
  Num.flt b a = false -> Num.flt c b = false -> Num.flt c a = false.
Proof.
  intros Ha Hb Hc H1 H2.
  apply (flt_false b a Hb Ha) in H1. apply (flt_false c b Hc Hb) in H2.
  apply (flt_false c a Hc Ha). unfold lex_lt in *. lia.
Qed.

Lemma flt_feq (a b k : Num.float) :
  Num.flt a b = true -> Num.feq k b = true -> Num.feq k a = false.
Proof.
  intros Hlt Heq. destruct (flt_not_nan _ _ Hlt) as [Ha Hb].
  destruct (feq_not_nan _ _ Heq) as [Hk _].
  apply (flt_spec a b Ha Hb) in Hlt. apply (feq_spec k b Hk Hb) in Heq.
  destruct (Num.feq k a) eqn:E; [|reflexivity].
  apply (feq_spec k a Hk Ha) in E. unfold lex_lt, lex_eq in *. lia.
Qed.

(** Strings. *)

Lemma str_compare_refl (s : string) : String.compare s s = Eq.
Proof.
  pose proof (String.compare_antisym s s) as H.
  destruct (String.compare s s); cbn in H; congruence.
Qed.

Lemma str_le_trans : forall a b c : string,
  String.compare a b <> Gt -> String.compare b c <> Gt -> String.compare a c <> Gt.
Proof.
  induction a as [|x a IH]; intros [|y b] [|z c]; cbn; try congruence.
  unfold Ascii.compare.
  destruct (N.compare_spec (N_of_ascii x) (N_of_ascii y)),
           (N.compare_spec (N_of_ascii y) (N_of_ascii z)),
           (N.compare_spec (N_of_ascii x) (N_of_ascii z));
    try congruence; try lia; eauto.
Qed.

Lemma str_lt_false (a b : string) :
  Text.str_lt a b = false <-> String.compare b a <> Gt.
Proof.
  unfold Text.str_lt, String.ltb. rewrite (String.compare_antisym b a).
  destruct (String.compare a b); cbn; split; congruence.
Qed.

Lemma str_lt_asym (a b : string) : Text.str_lt a b = true -> Text.str_lt b a = false.
Proof.
  unfold Text.str_lt, String.ltb. rewrite (String.compare_antisym b a).
  destruct (String.compare a b); cbn; congruence.
Qed.

Lemma str_lt_trans_neg (a b c : string) :
  Text.str_lt b a = false -> Text.str_lt c b = false -> Text.str_lt c a = false.
Proof.
  rewrite !str_lt_false. intros H1 H2. eapply str_le_trans; eauto.
Qed.

Lemma str_lt_eqb (a b k : string) :
  Text.str_lt a b = true -> String.eqb k b = true -> String.eqb k a = false.
Proof.
  intros Hlt Heq. apply String.eqb_eq in Heq. subst k.
  apply String.eqb_neq. intros <-.
  unfold Text.str_lt, String.ltb in Hlt. now rewrite str_compare_refl in Hlt.
Qed.

(** In a sorted list an element is related to all that come after it. *)
Lemma StronglySorted_before {A} (R : A -> A -> Prop) (l1 : list A) x l2 y :
  StronglySorted R (l1 ++ x :: l2) -> List.In y l2 -> R x y.
Proof.
  induction l1 as [|z l1 IH]; cbn; intros H Hy.
  - apply StronglySorted_inv in H. destruct H as [_ H].
    rewrite List.Forall_forall in H. now apply H.
  - apply StronglySorted_inv in H. now apply IH.
Qed.

End OrderFacts.

Section SortFacts.

Context {A K : Type} (lt eqk : K -> K -> bool) (key : A -> K) (ok : K -> Prop).

(** A key below another is not equal to what the other is equal to. *)
Hypothesis lt_eqk : forall a b k, lt a b = true -> eqk k b = true -> eqk k a = false.
Hypothesis lt_asym : forall a b, lt a b = true -> lt b a = false.
Hypothesis le_trans : forall a b c, ok a -> ok b -> ok c ->
  lt b a = false -> lt c b = false -> lt c a = false.

Let same (k : K) (x : A) : bool := eqk k (key x).
Let le (a b : A) : Prop := lt (key b) (key a) = false.

Lemma insert_permutation (x : A) (l : list A) :
  Permutation (x :: l) (Py.insert lt key x l).
Proof.
  induction l as [|y l IH]; cbn; [reflexivity|].
  destruct (lt (key y) (key x)); [|reflexivity].
  rewrite perm_swap. now apply perm_skip.
Qed.

Lemma sort_permutation (l : list A) : Permutation l (Py.sort lt key l).
Proof.
  induction l as [|x l IH]; cbn; [reflexivity|].
  rewrite <- insert_permutation. now apply perm_skip.
Qed.

Lemma stable_sorted_permutation (reverse : bool) (l : list A) :
  Permutation l (Py.stable_sorted lt key reverse l).
Proof.
  unfold Py.stable_sorted. destruct reverse; [|apply sort_permutation].
  rewrite <- Permutation_rev, <- sort_permutation. apply Permutation_rev.
Qed.

Lemma insert_stable (k : K) (x : A) (l : list A) :
  List.filter (same k) (Py.insert lt key x l) = List.filter (same k) (x :: l).
Proof.
  induction l as [|y l IH]; [reflexivity|].
  cbn [Py.insert]. destruct (lt (key y) (key x)) eqn:Hlt; [|reflexivity].
  cbn [List.filter] in *. rewrite IH.
  destruct (same k x) eqn:Hx; [|reflexivity].
  unfold same in *. now rewrite (lt_eqk _ _ _ Hlt Hx).
Qed.

Lemma sort_stable (k : K) (l : list A) :
  List.filter (same k) (Py.sort lt key l) = List.filter (same k) l.
Proof.
  induction l as [|x l IH]; [reflexivity|].
  cbn [Py.sort fold_right]. rewrite insert_stable. cbn [List.filter].
  fold (Py.sort lt key l). now rewrite IH.
Qed.

Lemma filter_rev_comm (f : A -> bool) (l : list A) :
  List.filter f (rev l) = rev (List.filter f l).
Proof.
  induction l as [|x l IH]; [reflexivity|].
  cbn [rev List.filter]. rewrite List.filter_app, IH. cbn.
  destruct (f x); cbn; [reflexivity | now rewrite List.app_nil_r].
Qed.

Lemma stable_sorted_stable (reverse : bool) (k : K) (l : list A) :
  List.filter (same k) (Py.stable_sorted lt key reverse l) = List.filter (same k) l.
Proof.
  unfold Py.stable_sorted. destruct reverse; [|apply sort_stable].
  now rewrite filter_rev_comm, sort_stable, filter_rev_comm, List.rev_involutive.
Qed.

Lemma insert_ordered (x : A) (l : list A) :
  ok (key x) -> Forall (fun y => ok (key y)) l ->
  StronglySorted le l -> StronglySorted le (Py.insert lt key x l).
Proof.
  intros Hx Hok Hs. induction Hs as [|y l Hs IH Hy]; cbn.
  - repeat constructor.
  - inversion Hok as [|? ? Hoky Hokl]; subst.
    destruct (lt (key y) (key x)) eqn:Hlt.
    + constructor; [now apply IH|].
      eapply Permutation_Forall; [apply insert_permutation|].
      constructor; [|exact Hy]. unfold le. now apply lt_asym.
    + constructor; [now constructor|].
      constructor; [exact Hlt|].
      rewrite List.Forall_forall in *. intros z Hz.
      unfold le in *. apply (le_trans (key x) (key y) (key z)); auto.
Qed.

Lemma sort_ordered (l : list A) :
  Forall (fun y => ok (key y)) l -> StronglySorted le (Py.sort lt key l).
Proof.
  induction 1 as [|x l Hx Hl IH]; cbn; [constructor|].
  apply insert_ordered; auto.
  eapply Permutation_Forall; [apply sort_permutation|exact Hl].
Qed.

Lemma StronglySorted_snoc (R : A -> A -> Prop) (l : list A) (x : A) :
  StronglySorted R l -> Forall (fun y => R y x) l -> StronglySorted R (l ++ [x]).
Proof.
  induction 1 as [|y l Hs IH Hy]; intros Hx; cbn.
  - repeat constructor.
  - inversion Hx; subst. constructor; [now apply IH|].
    apply List.Forall_app. split; [exact Hy | now constructor].
Qed.

Lemma StronglySorted_rev (R : A -> A -> Prop) (l : list A) :
  StronglySorted R l -> StronglySorted (fun a b => R b a) (rev l).
Proof.
  induction 1 as [|x l Hs IH Hx]; cbn; [constructor|].
  apply StronglySorted_snoc; [exact IH|].
  rewrite List.Forall_forall in *. intros y Hy. apply Hx.
  now apply List.in_rev.
Qed.

Lemma stable_sorted_ordered (reverse : bool) (l : list A) :
  Forall (fun y => ok (key y)) l ->
  StronglySorted
    (fun a b => if reverse then lt (key a) (key b) = false
                else lt (key b) (key a) = false)
    (Py.stable_sorted lt key reverse l).
Proof.
  intros Hok. unfold Py.stable_sorted. destruct reverse.
  - apply (StronglySorted_rev le). apply sort_ordered.
    eapply Permutation_Forall; [apply Permutation_rev|exact Hok].
  - now apply sort_ordered.
Qed.

(** On keys that [ok] holds of, [<] is a strict weak order, and [sorted]
    is the stable sort whatever the interpreter. *)
Lemma lt_irrefl (a : K) : lt a a = false.
Proof.
  destruct (lt a a) eqn:H; [|reflexivity].
  pose proof (lt_asym _ _ H). congruence.
Qed.

Lemma orders_keys (keys : list K) : Forall ok keys -> Py.orders lt keys = true.
Proof.
  intros Hok. rewrite List.Forall_forall in Hok. unfold Py.orders.
  apply List.forallb_forall. intros a Ha. rewrite lt_irrefl. cbn [negb andb].
  apply List.forallb_forall. intros b Hb.
  apply List.forallb_forall. intros c Hc.
  apply andb_true_intro. split.
  - destruct (lt a b) eqn:Hab; [|reflexivity].
    destruct (lt b c) eqn:Hbc; [|reflexivity].
    destruct (lt a c) eqn:Hac; [reflexivity|]. cbn.
    pose proof (le_trans b c a (Hok _ Hb) (Hok _ Hc) (Hok _ Ha)
                  (lt_asym _ _ Hbc) Hac). congruence.
  - destruct (lt a b) eqn:Hab; [reflexivity|].
    destruct (lt b c) eqn:Hbc; [reflexivity|]. cbn.
    now rewrite (le_trans c b a (Hok _ Hc) (Hok _ Hb) (Hok _ Ha) Hbc Hab).
Qed.

Lemma sorted_stable_sorted (py : Py.interpreter) (reverse : bool) (l : list A) :
  Forall (fun y => ok (key y)) l ->
  Py.sorted lt key py reverse l = Py.stable_sorted lt key reverse l.
Proof.
  intros Hok. unfold Py.sorted. rewrite orders_keys; [reflexivity|].
  now apply List.Forall_map.
Qed.

End SortFacts.

(** C6, as stated, fails for sorting by amount: the constructor accepts
    the amount NaN, [<] does not order a list of amounts with a NaN among
    them, and there [sorted] keeps no promise.  CPython sorts the amounts
    5, 6, 7, NaN, 2, 1, 2 into 1, 2, 5, 6, 7, NaN, 2 with the second of
    the two expenses of amount 2 in front of the first. *)
Lemma C6_nan_amount_breaks_stability :
  let l := MoreSamples.with_nan_amount in
  let two := MoreSamples.priced "2a" MoreSamples.amount_2 in
  let r := ExpenseService._sort_expenses (Py.cpython false) l "amount" false in
  List.map Expense.id l = ["5"; "6"; "7"; "nan"; "2a"; "1"; "2b"]
  /\ List.map Expense.id r = ["1"; "2b"; "5"; "6"; "7"; "nan"; "2a"]
  /\ List.map Expense.id (List.filter (same_key "amount" two) l) = ["2a"; "2b"]
  /\ List.map Expense.id (List.filter (same_key "amount" two) r) = ["2b"; "2a"]
  /\ ~ ordered_by "amount" false r.
Proof.
  cbv zeta. repeat apply conj; try (vm_compute; reflexivity).
  intros H.
  assert (Hr : ExpenseService._sort_expenses (Py.cpython false)
                 MoreSamples.with_nan_amount "amount" false
               = ([MoreSamples.priced "1" MoreSamples.amount_1;
                   MoreSamples.priced "2b" MoreSamples.amount_2]
                  ++ MoreSamples.priced "5" Samples.amount_5
                  :: [MoreSamples.priced "6" MoreSamples.amount_6;
                      MoreSamples.priced "7" MoreSamples.amount_7;
                      MoreSamples.priced "nan" S754_nan;
                      MoreSamples.priced "2a" MoreSamples.amount_2])%list)
    by (vm_compute; reflexivity).
  rewrite Hr in H.
  apply (OrderFacts.StronglySorted_before _ _ _ _
           (MoreSamples.priced "2a" MoreSamples.amount_2)) in H.
  - vm_compute in H. discriminate H.
  - cbn. auto.
Qed.

(** C6, amended.  Sorting by date or by category of any list, and sorting
    by amount of a list in which no amount is NaN, in either direction and
    whatever the interpreter: the result is a rearrangement of the list,
    ordered over the chosen field (ascending, or descending with the
    flag), and the expenses whose key equals that of any given expense
    appear in the result in the order they had in the list. *)
Theorem C6_sort_is_stable
    (py : Py.interpreter) (l : list Expense) (sort_by : string) (descending : bool) :
  List.In sort_by ["date"; "amount"; "category"] ->
  (sort_by = "amount" -> no_nan_amount l) ->
  let r := ExpenseService._sort_expenses py l sort_by descending in
  Permutation l r
  /\ ordered_by sort_by descending r
  /\ (forall e0, List.filter (same_key sort_by e0) r
                 = List.filter (same_key sort_by e0) l).
Proof.
  intros Hin Hnan.
  assert (Htrue : Forall (fun e : Expense => True) l)
    by (apply List.Forall_forall; auto).
  cbn in Hin. destruct Hin as [<- | [<- | [<- | []]]];
    unfold ExpenseService._sort_expenses, ordered_by, key_lt, same_key;
    cbn [String.eqb Ascii.eqb Bool.eqb andb]; cbv zeta.
  - rewrite (sorted_stable_sorted Text.str_lt Expense.date (fun _ => True)
               OrderFacts.str_lt_asym
               (fun a b c _ _ _ => OrderFacts.str_lt_trans_neg a b c)
               py descending l Htrue).
    split; [apply stable_sorted_permutation|]. split.
    + exact (stable_sorted_ordered Text.str_lt Expense.date (fun _ => True)
               OrderFacts.str_lt_asym
               (fun a b c _ _ _ => OrderFacts.str_lt_trans_neg a b c)
               descending l Htrue).
    + intros e0.
      apply (stable_sorted_stable Text.str_lt String.eqb Expense.date
               OrderFacts.str_lt_eqb descending (Expense.date e0) l).
  - specialize (Hnan eq_refl).
    rewrite (sorted_stable_sorted Num.flt Expense.amount
               (fun a => Num.is_nan a = false)
               OrderFacts.flt_asym OrderFacts.fle_trans py descending l Hnan).
    split; [apply stable_sorted_permutation|]. split.
    + exact (stable_sorted_ordered Num.flt Expense.amount
               (fun a => Num.is_nan a = false)
               OrderFacts.flt_asym OrderFacts.fle_trans descending l Hnan).
    + intros e0.
      apply (stable_sorted_stable Num.flt Num.feq Expense.amount
               OrderFacts.flt_feq descending (Expense.amount e0) l).
  - rewrite (sorted_stable_sorted Text.str_lt Expense.category (fun _ => True)
               OrderFacts.str_lt_asym
               (fun a b c _ _ _ => OrderFacts.str_lt_trans_neg a b c)
               py descending l Htrue).
    split; [apply stable_sorted_permutation|]. split.
    + exact (stable_sorted_ordered Text.str_lt Expense.category (fun _ => True)
               OrderFacts.str_lt_asym
               (fun a b c _ _ _ => OrderFacts.str_lt_trans_neg a b c)
               descending l Htrue).
    + intros e0.
      apply (stable_sorted_stable Text.str_lt String.eqb Expense.category
               OrderFacts.str_lt_eqb descending (Expense.category e0) l).
Qed.

(** By date and by category a list with a NaN amount in it, by amount a
    list without one, in both directions; [lunch] and [coffee] have one
    date, [bus] and [coffee] one amount, [odd] and [bus] one category. *)
Lemma C6_sort_witness :
  let py := Py.cpython true in
  let l := [Samples.lunch; Samples.bus; Samples.dinner; Samples.coffee] in
  let n := [Samples.lunch; MoreSamples.odd; Samples.bus; Samples.dinner;
            Samples.coffee] in
  (ExpenseService._sort_expenses py n "date" false
   = [Samples.lunch; Samples.coffee; MoreSamples.odd; Samples.bus; Samples.dinner]
   /\ ExpenseService._sort_expenses py n "date" true
      = [Samples.dinner; MoreSamples.odd; Samples.bus; Samples.lunch; Samples.coffee]
   /\ List.filter (same_key "date" Samples.coffee)
        (ExpenseService._sort_expenses py n "date" true)
      = [Samples.lunch; Samples.coffee])
  /\ (ExpenseService._sort_expenses py l "amount" false
      = [Samples.bus; Samples.coffee; Samples.dinner; Samples.lunch]
      /\ ExpenseService._sort_expenses py l "amount" true
         = [Samples.lunch; Samples.dinner; Samples.bus; Samples.coffee]
      /\ List.filter (same_key "amount" Samples.bus)
           (ExpenseService._sort_expenses py l "amount" true)
         = [Samples.bus; Samples.coffee])
  /\ (ExpenseService._sort_expenses py n "category" false
      = [Samples.lunch; Samples.dinner; Samples.coffee; MoreSamples.odd; Samples.bus]
      /\ ExpenseService._sort_expenses py n "category" true
         = [MoreSamples.odd; Samples.bus; Samples.lunch; Samples.dinner;
            Samples.coffee]
      /\ List.filter (same_key "category" Samples.bus)
           (ExpenseService._sort_expenses py n "category" true)
         = [MoreSamples.odd; Samples.bus]).
Proof.
  assert (Hnan : no_nan_amount [Samples.lunch; Samples.bus; Samples.dinner; Samples.coffee])
    by (repeat constructor).
  split; [|split].
  - split; [reflexivity|]. split; [reflexivity|].
    etransitivity.
    + apply (proj2 (proj2 (C6_sort_is_stable (Py.cpython true)
        [Samples.lunch; MoreSamples.odd; Samples.bus; Samples.dinner; Samples.coffee]
        "date" true (or_introl eq_refl) (fun H => ltac:(discriminate H))))).
    + reflexivity.
  - split; [reflexivity|]. split; [reflexivity|].
    etransitivity.
    + apply (proj2 (proj2 (C6_sort_is_stable (Py.cpython true)
        [Samples.lunch; Samples.bus; Samples.dinner; Samples.coffee] "amount" true
        (or_intror (or_introl eq_refl)) (fun _ => Hnan)))).
    + reflexivity.
  - split; [reflexivity|]. split; [reflexivity|].
    etransitivity.
    + apply (proj2 (proj2 (C6_sort_is_stable (Py.cpython true)
        [Samples.lunch; MoreSamples.odd; Samples.bus; Samples.dinner; Samples.coffee]
        "category" true (or_intror (or_intror (or_introl eq_refl)))
        (fun H => ltac:(discriminate H))))).
    + reflexivity.
Defined.

(** ** Summary *)

Module SummaryFacts.

Lemma add_to_totals_lookup (totals : gmap string Py.number) (e : Expense) (c : string) :
  ExpenseService.add_to_totals totals e !! c =
  if in_category c e
  then Some (Py.add_float (default (Py.NInt 0) (totals !! c)) (Expense.amount e))
  else totals !! c.
Proof.
  unfold ExpenseService.add_to_totals, in_category.
  destruct (String.eqb_spec (Expense.category e) c) as [->|Hne].
  - rewrite lookup_insert_eq. destruct (totals !! c) eqn:Hc.
    + now rewrite Hc.
    + now rewrite lookup_insert_eq.
  - rewrite lookup_insert_ne by exact Hne.
    destruct (totals !! Expense.category e); [reflexivity|].
    now rewrite lookup_insert_ne.
Qed.

Lemma filter_none {A} (f : A -> bool) (l : list A) :
  List.existsb f l = false -> List.filter f l = [].
Proof.
  induction l as [|x l IH]; cbn; [reflexivity|].
  destruct (f x); cbn; [discriminate | exact IH].
Qed.

(** The loop, started from any totals. *)
Lemma totals_lookup (l : list Expense) : forall (totals : gmap string Py.number) c,
  fold_left ExpenseService.add_to_totals l totals !! c =
  if has_category c l
  then Some (fold_left Py.add_float (category_amounts c l)
               (default (Py.NInt 0) (totals !! c)))
  else totals !! c.
Proof.
  unfold has_category, category_amounts.
  induction l as [|e l IH]; intros totals c; [reflexivity|].
  cbn [fold_left List.existsb List.filter]. rewrite IH, add_to_totals_lookup.
  destruct (in_category c e); cbn [orb List.map fold_left default].
  - destruct (existsb (in_category c) l) eqn:Hex; [reflexivity|].
    now rewrite (filter_none _ _ Hex).
  - reflexivity.
Qed.

(** Adding floats to a number, and to the integer 0. *)
Lemma fold_add_float (l : list Num.float) : forall f,
  fold_left Py.add_float l (Py.NFloat f) = Py.NFloat (fold_left Num.fadd l f).
Proof.
  induction l as [|x l IH]; intros f; [reflexivity|].
  cbn [fold_left]. unfold Py.add_float at 2. cbn [Py.as_float]. apply IH.
Qed.

Lemma fold_add_float_0 (x : Num.float) (l : list Num.float) :
  fold_left Py.add_float (x :: l) (Py.NInt 0) = Py.NFloat (float_sum (x :: l)).
Proof.
  unfold float_sum. cbn [fold_left]. unfold Py.add_float at 2.
  cbn [Py.as_float]. rewrite fold_add_float. reflexivity.
Qed.

(** The entry of a category that is present is a float. *)
Lemma category_total (c : string) (l : list Expense) :
  has_category c l = true ->
  fold_left Py.add_float (category_amounts c l) (Py.NInt 0)
  = Py.NFloat (float_sum (category_amounts c l)).
Proof.
  unfold has_category, category_amounts. intros H.
  destruct (List.filter (in_category c) l) as [|e rest] eqn:Hf.
  - apply List.existsb_exists in H. destruct H as (e & He & Hc).
    assert (Hin : List.In e (List.filter (in_category c) l))
      by (apply List.filter_In; auto).
    rewrite Hf in Hin. destruct Hin.
  - cbn [List.map]. apply fold_add_float_0.
Qed.

(** The compensated loop keeps the plain running sum in its first
    component and adds up the rounding errors in its second. *)
Lemma fold_compensate (rest : list Num.float) : forall f c,
  fold_left Py.compensate rest (f, c)
  = (fold_left Num.fadd rest f, fold_left Num.fadd (rounding_errors f rest) c).
Proof.
  induction rest as [|x rest IH]; intros f c; [reflexivity|].
  cbn [fold_left rounding_errors]. unfold Py.compensate at 2.
  rewrite IH. unfold rounding_error.
  destruct (Num.fle (Num.fabs x) (Num.fabs f)); reflexivity.
Qed.

Lemma sum_of_floats (py : Py.interpreter) (amounts : list Num.float) :
  Py.sum py amounts
  = match amounts with
    | [] => Py.NInt 0
    | _ :: _ =>
        Py.NFloat (if Py.compensated_sum py then corrected_sum amounts
                   else float_sum amounts)
    end.
Proof.
  unfold Py.sum. destruct (Py.compensated_sum py).
  - destruct amounts as [|x rest]; [reflexivity|].
    unfold Py.add_float. cbn [Py.as_float].
    rewrite fold_compensate. unfold corrected_sum, float_sum.
    cbn [fold_left]. reflexivity.
  - destruct amounts as [|x rest]; [reflexivity|]. apply fold_add_float_0.
Qed.

Lemma has_category_In (c : string) (l : list Expense) :
  has_category c l = true <-> List.In c (List.map Expense.category l).
Proof.
  unfold has_category. rewrite List.existsb_exists, List.in_map_iff.
  unfold in_category. split; intros (e & H1 & H2).
  - apply String.eqb_eq in H2. eauto.
  - exists e. split; [exact H2|]. now apply String.eqb_eq.
Qed.

End SummaryFacts.

(** C9, as stated, fails where [sum] is compensated, as it is in CPython
    from 3.12 on: [grand_total] is made by [sum] and the total of a
    category by repeated [+=], so the two are not one sum of the amounts.
    With three expenses of the amounts 0.1, 0.2 and 0.3, all of one
    category, [grand_total] is 0.6 and the total of the category is the
    next float above it. *)
Lemma C9_grand_total_differs_from_category_total :
  let l := MoreSamples.three_tenths in
  let s := ExpenseService._calculate_summary (Py.cpython true) l in
  List.map Expense.amount l
  = [MoreSamples.amount_0_1; MoreSamples.amount_0_2; MoreSamples.amount_0_3]
  /\ category_amounts "food" l = List.map Expense.amount l
  /\ ExpenseService.grand_total s = Py.NFloat MoreSamples.amount_0_6
  /\ ExpenseService.totals_by_category s !! "food"
     = Some (Py.NFloat MoreSamples.amount_above_0_6)
  /\ Num.feq MoreSamples.amount_0_6 MoreSamples.amount_above_0_6 = false.
Proof. cbv zeta. repeat apply conj; vm_compute; reflexivity. Qed.

(** C9, amended.  The summary of a list of expenses: [count] is the
    length of the list; [totals_by_category] has an entry for a category
    exactly when an expense of the list has it, and the entry is the
    float sum of the amounts of the expenses of that category, added to
    0.0 one after another in the order of the list; [grand_total] is the
    integer 0 for the empty list and otherwise the float sum of all
    amounts in the order of the list, to which an interpreter with a
    compensated [sum] gives back the rounding errors of the additions. *)
Theorem C9_summary_aggregate (py : Py.interpreter) (l : list Expense) :
  let s := ExpenseService._calculate_summary py l in
  let amounts := List.map Expense.amount l in
  ExpenseService.count s = length l
  /\ ExpenseService.grand_total s
     = match amounts with
       | [] => Py.NInt 0
       | _ :: _ =>
           Py.NFloat (if Py.compensated_sum py then corrected_sum amounts
                      else float_sum amounts)
       end
  /\ (forall c,
        ExpenseService.totals_by_category s !! c =
        if has_category c l
        then Some (Py.NFloat (float_sum (category_amounts c l)))
        else None)
  /\ (forall c,
        is_Some (ExpenseService.totals_by_category s !! c)
        <-> List.In c (List.map Expense.category l))
  /\ dom (ExpenseService.totals_by_category s)
     = list_to_set (List.map Expense.category l).
Proof.
  cbv zeta. unfold ExpenseService._calculate_summary.
  cbn [ExpenseService.count ExpenseService.grand_total ExpenseService.totals_by_category].
  assert (Hlook : forall c,
             fold_left ExpenseService.add_to_totals l ∅ !! c =
             if has_category c l
             then Some (Py.NFloat (float_sum (category_amounts c l)))
             else None).
  { intros c. rewrite SummaryFacts.totals_lookup, lookup_empty.
    cbn [default]. destruct (has_category c l) eqn:Hc; [|reflexivity].
    now rewrite (SummaryFacts.category_total c l Hc). }
  assert (Hsome : forall c,
             is_Some (fold_left ExpenseService.add_to_totals l ∅ !! c)
             <-> List.In c (List.map Expense.category l)).
  { intros c. rewrite Hlook, <- SummaryFacts.has_category_In.
    destruct (has_category c l); split; intros H; eauto.
    - now destruct H.
    - discriminate. }
  split; [reflexivity|]. split; [apply SummaryFacts.sum_of_floats|].
  split; [exact Hlook|]. split; [exact Hsome|].
  apply set_eq. intros c.
  rewrite elem_of_dom, Hsome, elem_of_list_to_set, list_elem_of_In. reflexivity.
Qed.

(** The scenario of the specification, food 10.00 and transport 5.00, and
    the amounts 0.1, 0.2, 0.3 of one category under both kinds of [sum]. *)
Lemma C9_summary_witness :
  let food := Expense.mk "EXP-20240105-093015" "2024-01-05" "food"
                Samples.amount_10 EmptyString "BDT" in
  let s := ExpenseService._calculate_summary (Py.cpython false) [food; Samples.bus] in
  let plain := ExpenseService._calculate_summary (Py.cpython false)
                 MoreSamples.three_tenths in
  let compensated := ExpenseService._calculate_summary (Py.cpython true)
                       MoreSamples.three_tenths in
  (ExpenseService.count s = 2%nat
   /\ ExpenseService.grand_total s = Py.NFloat MoreSamples.amount_15
   /\ ExpenseService.totals_by_category s !! "food"
      = Some (Py.NFloat Samples.amount_10)
   /\ ExpenseService.totals_by_category s !! "transport"
      = Some (Py.NFloat Samples.amount_5)
   /\ ExpenseService.totals_by_category s !! "rent" = None)
  /\ (ExpenseService.grand_total plain = Py.NFloat MoreSamples.amount_above_0_6
      /\ ExpenseService.totals_by_category plain !! "food"
         = Some (Py.NFloat MoreSamples.amount_above_0_6))
  /\ (ExpenseService.grand_total compensated = Py.NFloat MoreSamples.amount_0_6
      /\ ExpenseService.totals_by_category compensated !! "food"
         = Some (Py.NFloat MoreSamples.amount_above_0_6)).
Proof.
  cbv zeta. split; [|split].
  - destruct (C9_summary_aggregate (Py.cpython false)
                [Expense.mk "EXP-20240105-093015" "2024-01-05" "food"
                   Samples.amount_10 EmptyString "BDT"; Samples.bus])
      as (Hcount & Htotal & Hentry & _).
    cbv zeta in Hcount, Htotal, Hentry.
    split; [exact Hcount|]. split; [rewrite Htotal; vm_compute; reflexivity|].
    split; [rewrite Hentry; vm_compute; reflexivity|].
    split; rewrite Hentry; vm_compute; reflexivity.
  - destruct (C9_summary_aggregate (Py.cpython false) MoreSamples.three_tenths)
      as (_ & Htotal & Hentry & _).
    cbv zeta in Htotal, Hentry.
    split; [rewrite Htotal | rewrite Hentry]; vm_compute; reflexivity.
  - destruct (C9_summary_aggregate (Py.cpython true) MoreSamples.three_tenths)
      as (_ & Htotal & Hentry & _).
    cbv zeta in Htotal, Hentry.
    split; [rewrite Htotal | rewrite Hentry]; vm_compute; reflexivity.
Defined.

(** The scenario of the specification under either kind of [sum]. *)
Example summary_food_and_transport (compensated : bool) :
  let food := Expense.mk "EXP-20240105-093015" "2024-01-05" "food"
                Samples.amount_10 EmptyString "BDT" in
  let s := ExpenseService._calculate_summary (Py.cpython compensated)
             [food; Samples.bus] in
  ExpenseService.count s = 2%nat
  /\ ExpenseService.grand_total s = Py.NFloat (Num.nearest 15)
  /\ map_to_list (ExpenseService.totals_by_category s)
     = [("food", Py.NFloat Samples.amount_10);
        ("transport", Py.NFloat Samples.amount_5)].
Proof.
  destruct compensated; cbv zeta; repeat apply conj; vm_compute; reflexivity.
Qed.

(** * Further properties of the code *)

(** ** Dates *)

Module DateFacts.
Import Text Strptime.

Lemma in_range_spec (c : ascii) (lo hi : N) :
  in_range c lo hi = true -> (lo <= code c <= hi)%N.
Proof.
  unfold in_range. intros H. apply andb_prop in H as [H1 H2].
  apply N.leb_le in H1, H2. lia.
Qed.

Lemma is_digit_spec (c : ascii) : is_digit c = true -> (48 <= code c <= 57)%N.
Proof. apply (in_range_spec c 48 57). Qed.

Ltac alts :=
  repeat match goal with
    | H : List.In _ (_ ++ _) |- _ => apply List.in_app_or in H; destruct H as [H|H]
    | H : List.In _ (if ?c then _ else _) |- _ => destruct c eqn:?
    | H : List.In _ [_] |- _ => destruct H as [H|[]]; injection H as <- <-
    | H : List.In _ [] |- _ => destruct H
    | H : _ && _ = true |- _ => apply andb_prop in H; destruct H
    | H : Ascii.eqb _ _ = true |- _ => apply Ascii.eqb_eq in H; subst
    | H : in_range _ _ _ = true |- _ => apply in_range_spec in H
    | H : is_digit _ = true |- _ => apply is_digit_spec in H
    end.

Lemma month_alts_spec (s r : string) (m : Z) :
  List.In (m, r) (month_alts s) ->
  1 <= m <= 12
  /\ (String.length s = S (String.length r)
      \/ String.length s = S (S (String.length r))).
Proof.
  unfold month_alts. destruct s as [|a [|b s]]; cbn [String.length]; intros H; alts;
    unfold two, digit_val in *; cbn in *; lia.
Qed.

Lemma day_alts_spec (s r : string) (d : Z) :
  List.In (d, r) (day_alts s) ->
  1 <= d <= 31
  /\ (String.length s = S (String.length r)
      \/ String.length s = S (S (String.length r))).
Proof.
  unfold day_alts. destruct s as [|a [|b s]]; cbn [String.length]; intros H; alts;
    unfold two, digit_val in *; cbn in *; lia.
Qed.

Lemma first_some_In {A B} (f : A -> option B) (l : list A) (y : B) :
  first_some f l = Some y -> exists x, List.In x l /\ f x = Some y.
Proof.
  induction l as [|x l IH]; cbn; [discriminate|].
  destruct (f x) eqn:Hx.
  - intros [= <-]. eauto.
  - intros H. destruct (IH H) as (x' & Hin & Hf). eauto.
Qed.

Lemma after_month_spec (m0 : Z) (s : string) m d rest :
  after_month m0 s = Some (m, d, rest) ->
  m = m0 /\ 1 <= d <= 31
  /\ (String.length s = S (S (String.length rest))
      \/ String.length s = S (S (S (String.length rest)))).
Proof.
  unfold after_month. destruct s as [|c r]; [discriminate|].
  destruct (Ascii.eqb c "-"); [|discriminate].
  destruct (day_alts r) as [|[d0 rest0] tl] eqn:Hd; [discriminate|].
  intros [= <- <- <-].
  assert (Hin : List.In (d0, rest0) (day_alts r)) by (rewrite Hd; now left).
  apply day_alts_spec in Hin. cbn [String.length]. lia.
Qed.

Lemma re_match_spec (s : string) y m d rest :
  re_match s = Some (y, m, d, rest) ->
  0 <= y <= 9999 /\ 1 <= m <= 12 /\ 1 <= d <= 31
  /\ (8 + String.length rest <= String.length s <= 10 + String.length rest)%nat.
Proof.
  unfold re_match.
  destruct s as [|y1 [|y2 [|y3 [|y4 [|h r]]]]]; try discriminate.
  destruct (is_digit y1 && is_digit y2 && is_digit y3 && is_digit y4 && Ascii.eqb h "-")
    eqn:Hc; [|discriminate].
  destruct (first_some _ (month_alts r)) as [[[m0 d0] rest0]|] eqn:Hf; [|discriminate].
  intros [= <- <- <- <-].
  apply first_some_In in Hf as ([m1 r1] & Hin & Ham).
  apply month_alts_spec in Hin. cbn [fst snd] in Ham.
  apply after_month_spec in Ham.
  alts. unfold two, digit_val. cbn [String.length]. lia.
Qed.

Lemma days_in_month_bounds (y m : Z) : 28 <= days_in_month y m <= 31.
Proof.
  unfold days_in_month.
  destruct (m =? 2); [destruct (is_leap y); lia|].
  destruct ((m =? 4) || (m =? 6) || (m =? 9) || (m =? 11)); lia.
Qed.

(** What [strptime] accepts. *)
Lemma strptime_spec (s : string) y m d :
  strptime s = Some (y, m, d) ->
  1 <= y <= 9999 /\ 1 <= m <= 12 /\ 1 <= d <= days_in_month y m
  /\ (8 <= String.length s <= 10)%nat.
Proof.
  unfold strptime.
  destruct (re_match s) as [[[[y0 m0] d0] rest]|] eqn:Hre; [|discriminate].
  destruct (is_empty rest && (1 <=? y0) && (d0 <=? days_in_month y0 m0)) eqn:Hc;
    [|discriminate].
  intros [= <- <- <-]. apply re_match_spec in Hre.
  apply andb_prop in Hc as [Hc Hd]. apply andb_prop in Hc as [He Hy].
  apply Z.leb_le in Hy, Hd.
  destruct rest; [|discriminate]. cbn [String.length] in Hre. lia.
Qed.

End DateFacts.



(** ** Construction *)

Module InitFacts.

Lemma fle_zero (f : Num.float) :
  Num.fle f Num.fzero = negb (positive_or_nan f).
Proof. destruct f as [[]|[]| |[] m e]; reflexivity. Qed.

Lemma normal_strip_fixed (c : string) :
  Text.strip (Text.lower (Text.strip c)) = Text.lower (Text.strip c).
Proof. now rewrite TextFacts.strip_lower, TextFacts.strip_idem. Qed.

(** The id of a constructed expense, and what the construction does to
    the world. *)
Lemma Expense_init_id date category amount note currency expense_id w e w' :
  Expense_init date category amount note currency expense_id w = (Ok e, w') ->
  match ExpenseService.given expense_id with
  | Some i => Expense.id e = i /\ w' = w
  | None =>
      Expense.id e
      = "EXP-" ++ Text.remove_hyphens date ++ "-"
        ++ String.substring 0 6 (w_clock w (w_tick w))
      /\ w' = tick w
  end.
Proof.
  unfold Expense_init, bind, lift.
  destruct (_validate_date date) as [d|] eqn:Hd; [|discriminate].
  destruct (_validate_category category) as [c|]; [|discriminate].
  destruct (_validate_amount amount) as [a|]; [|discriminate].
  apply _validate_date_ok in Hd as [-> _].
  unfold ExpenseService.given.
  destruct expense_id as [i|]; [destruct (Text.truthy i)|];
    cbn; intros [= <- <-]; cbn; auto.
Qed.

End InitFacts.

(** X1.  The constructor checks the date, then the category, then the
    amount.  The first rule that fails decides the [ValueError], whatever
    the later arguments are, and the world is left as it was: the clock is
    not read and no id is generated. *)
Theorem X1_first_failing_rule_decides
    (date category : string) (amount : amount_arg) (note currency : string)
    (expense_id : option string) (w : world) :
  (_validate_date date = Raise (ValueError "date must be YYYY-MM-DD") ->
   Expense_init date category amount note currency expense_id w
   = (Raise (ValueError "date must be YYYY-MM-DD"), w))
  /\ (forall d, _validate_date date = Ok d ->
      Text.strip category = EmptyString ->
      Expense_init date category amount note currency expense_id w
      = (Raise (ValueError "category cannot be empty"), w))
  /\ (forall d, _validate_date date = Ok d ->
      Text.strip category <> EmptyString ->
      amount = ANone ->
      Expense_init date category amount note currency expense_id w
      = (Raise (ValueError "amount must be a valid number"), w))
  /\ (forall d f, _validate_date date = Ok d ->
      Text.strip category <> EmptyString ->
      py_float amount = Ok f -> Num.fle f Num.fzero = true ->
      Expense_init date category amount note currency expense_id w
      = (Raise (ValueError "amount must be > 0"), w)).
Proof.
  destruct (Expense_init_first_failure date category amount note currency expense_id w)
    as (H1 & H2 & H3 & H4).
  assert (Hok : forall d, _validate_date date = Ok d -> Strptime.strptime date <> None).
  { intros d Hd. now apply _validate_date_ok in Hd as [_ Hd]. }
  repeat apply conj.
  - intros Hd. apply H1. unfold _validate_date in Hd.
    now destruct (Strptime.strptime date).
  - intros d Hd. apply H2. eauto.
  - intros d Hd. apply H3. eauto.
  - intros d f Hd Hc. apply H4; eauto.
Qed.

Lemma X1_first_failing_rule_witness :
  let w := Samples.world_of [] [] in
  Expense_init "2024-02-30" "   " (AInt 0) "n" "BDT" None w
  = (Raise (ValueError "date must be YYYY-MM-DD"), w)
  /\ Expense_init "2024-02-29" "   " (AInt 0) "n" "BDT" None w
     = (Raise (ValueError "category cannot be empty"), w)
  /\ Expense_init "2024-02-29" "Food" (AInt 0) "n" "BDT" None w
     = (Raise (ValueError "amount must be > 0"), w).
Proof.
  split; [|split].
  - exact (proj1 (X1_first_failing_rule_decides "2024-02-30" "   " (AInt 0) "n" "BDT"
                    None (Samples.world_of [] [])) eq_refl).
  - exact (proj1 (proj2 (X1_first_failing_rule_decides "2024-02-29" "   " (AInt 0) "n"
                           "BDT" None (Samples.world_of [] [])))
             "2024-02-29" eq_refl eq_refl).
  - refine (proj2 (proj2 (proj2 (X1_first_failing_rule_decides "2024-02-29" "Food"
                           (AInt 0) "n" "BDT" None (Samples.world_of [] []))))
             "2024-02-29" (S754_zero false) eq_refl _ eq_refl eq_refl).
    discriminate.
Defined.

(** X2.  Every expense the constructor returns has: the date as given,
    naming a real calendar date; the category trimmed and lower-cased,
    not empty, and unchanged by trimming or lower-casing again; an amount
    that is greater than 0 or NaN; the note and the currency as given;
    and an id that is not empty. *)
Theorem X2_constructed_expense
    date category amount note currency expense_id w e w' :
  Expense_init date category amount note currency expense_id w = (Ok e, w') ->
  Expense.date e = date
  /\ (exists y m d,
        Strptime.strptime date = Some (y, m, d)
        /\ 1 <= y <= 9999 /\ 1 <= m <= 12
        /\ 1 <= d <= Strptime.days_in_month y m)
  /\ Expense.category e = Text.lower (Text.strip category)
  /\ Expense.category e <> EmptyString
  /\ Text.strip (Expense.category e) = Expense.category e
  /\ Text.lower (Expense.category e) = Expense.category e
  /\ positive_or_nan (Expense.amount e) = true
  /\ Expense.note e = note
  /\ Expense.currency e = currency
  /\ Expense.id e <> EmptyString.
Proof.
  intros H. apply Expense_init_ok in H as (Hwf & Hd & Hc & _ & Hn & Hcur & _).
  destruct Hwf as [Hdate Hnorm Hne Ha Hid].
  split; [exact Hd|]. split.
  { rewrite Hd in Hdate.
    destruct (Strptime.strptime date) as [[[y m] d]|] eqn:Hs; [|congruence].
    exists y, m, d. apply DateFacts.strptime_spec in Hs. tauto. }
  split; [exact Hc|]. split; [exact Hne|].
  split; [rewrite Hc; apply InitFacts.normal_strip_fixed|].
  split; [rewrite Hc; apply TextFacts.lower_idem|].
  split; [|auto].
  rewrite InitFacts.fle_zero in Ha. now apply negb_false_iff in Ha.
Qed.

Lemma X2_constructed_expense_witness :
  Expense_init "2024-01-05" "  Food " (AFloat Samples.amount_12_5) "lunch" "BDT" None
    (Samples.world_of [] [])
  = (Ok Samples.lunch, tick (Samples.world_of [] []))
  /\ positive_or_nan (Expense.amount Samples.lunch) = true.
Proof.
  split; [reflexivity|].
  exact (proj1 (proj2 (proj2 (proj2 (proj2 (proj2 (proj2
    (X2_constructed_expense "2024-01-05" "  Food " (AFloat Samples.amount_12_5)
       "lunch" "BDT" None (Samples.world_of [] []) Samples.lunch
       (tick (Samples.world_of [] [])) eq_refl)))))))).
Defined.

(** X3.  The id of a constructed expense.  A non-empty id that is passed
    in is kept, and the clock is not read.  Without one (absent or empty)
    the id is "EXP-", the date without its hyphens, "-", and the first six
    characters of the time stamp, that is hours, minutes and seconds; the
    clock is read once. *)
Theorem X3_expense_id date category amount note currency expense_id w e w' :
  Expense_init date category amount note currency expense_id w = (Ok e, w') ->
  match expense_id with
  | Some (String c i) => Expense.id e = String c i /\ w' = w
  | _ =>
      Expense.id e
      = "EXP-" ++ Text.remove_hyphens date ++ "-"
        ++ String.substring 0 6 (w_clock w (w_tick w))
      /\ w' = tick w
  end.
Proof.
  intros H. apply InitFacts.Expense_init_id in H.
  destruct expense_id as [[|c i]|]; exact H.
Qed.

Lemma X3_expense_id_witness :
  Expense_init "2024-01-05" "food" (AFloat Samples.amount_12_5) "lunch" "BDT"
    (Some EmptyString) (Samples.world_of [] [])
  = (Ok Samples.lunch, tick (Samples.world_of [] []))
  /\ Expense.id Samples.lunch = "EXP-20240105-093015".
Proof.
  split; [reflexivity|].
  exact (proj1 (X3_expense_id "2024-01-05" "food" (AFloat Samples.amount_12_5) "lunch"
                  "BDT" (Some EmptyString) (Samples.world_of [] []) Samples.lunch
                  (tick (Samples.world_of [] [])) eq_refl)).
Defined.

(** X4.  Generated ids are not unique: two expenses of the same date that
    are constructed without an id at times that agree up to the second
    get the same id, whatever their other fields are. *)
Theorem X4_same_second_same_id
    date c1 a1 n1 cur1 w1 e1 w1' c2 a2 n2 cur2 w2 e2 w2' :
  Expense_init date c1 a1 n1 cur1 None w1 = (Ok e1, w1') ->
  Expense_init date c2 a2 n2 cur2 None w2 = (Ok e2, w2') ->
  String.substring 0 6 (w_clock w1 (w_tick w1))
  = String.substring 0 6 (w_clock w2 (w_tick w2)) ->
  Expense.id e1 = Expense.id e2.
Proof.
  intros H1 H2 Hs.
  apply InitFacts.Expense_init_id in H1 as [-> _].
  apply InitFacts.Expense_init_id in H2 as [-> _].
  cbn. now rewrite Hs.
Qed.

Lemma X4_same_second_same_id_witness :
  let w1 := mkworld None [] Samples.same_second_clock 0 in
  let w2 := mkworld None [] Samples.same_second_clock 1 in
  Expense_init "2024-01-05" "food" (AFloat Samples.amount_12_5) "lunch" "BDT" None w1
  = (Ok Samples.lunch, tick w1)
  /\ Expense_init "2024-01-05" "food" (AFloat Samples.amount_5) "coffee" "BDT" None w2
     = (Ok Samples.coffee, tick w2)
  /\ w_clock w1 (w_tick w1) <> w_clock w2 (w_tick w2)
  /\ Expense.id Samples.lunch = Expense.id Samples.coffee.
Proof.
  split; [reflexivity|]. split; [reflexivity|]. split; [discriminate|].
  exact (X4_same_second_same_id "2024-01-05"
           "food" (AFloat Samples.amount_12_5) "lunch" "BDT"
           (mkworld None [] Samples.same_second_clock 0) Samples.lunch
           (tick (mkworld None [] Samples.same_second_clock 0))
           "food" (AFloat Samples.amount_5) "coffee" "BDT"
           (mkworld None [] Samples.same_second_clock 1) Samples.coffee
           (tick (mkworld None [] Samples.same_second_clock 1))
           eq_refl eq_refl eq_refl).
Defined.

(** X6.  The amount rule, of the entity and of [utils] alike.  A float is
    accepted, and returned as it is, exactly when it is greater than 0 or
    NaN: positive infinity and NaN pass; zero, negative numbers and
    negative infinity raise "amount must be > 0".  [None] raises "amount
    must be a valid number".  The two rules agree on every argument. *)
Theorem X6_amount_rule (f : Num.float) :
  _validate_amount (AFloat f)
  = (if positive_or_nan f then Ok f else Raise (ValueError "amount must be > 0"))
  /\ _validate_amount ANone = Raise (ValueError "amount must be a valid number")
  /\ (forall a, Utils.parse_amount a = _validate_amount a)
  /\ (positive_or_nan f = true <-> Num.is_nan f = true \/ Num.flt Num.fzero f = true)
  /\ positive_or_nan (S754_infinity false) = true
  /\ positive_or_nan (S754_infinity true) = false.
Proof.
  repeat apply conj; try reflexivity.
  - unfold _validate_amount. cbn [py_float]. rewrite InitFacts.fle_zero.
    now destruct (positive_or_nan f).
  - unfold positive_or_nan, Num.fgt, Num.flt. intros H.
    now apply orb_true_iff in H.
  - unfold positive_or_nan, Num.fgt, Num.flt. intros H.
    now apply orb_true_iff.
Qed.

(** X7.  The category rule, of the entity and of [utils] alike.  A
    category is rejected exactly when nothing but white space is in it.
    An accepted category is returned trimmed and lower-cased, and that
    result is accepted again and returned unchanged. *)
Theorem X7_category_rule (c : string) :
  (Text.strip c = EmptyString ->
   _validate_category c = Raise (ValueError "category cannot be empty"))
  /\ (Text.strip c <> EmptyString ->
      let c' := Text.lower (Text.strip c) in
      _validate_category c = Ok c'
      /\ c' <> EmptyString
      /\ _validate_category c' = Ok c')
  /\ Utils.parse_category c = _validate_category c.
Proof.
  assert (Hacc : forall s, Text.strip s <> EmptyString ->
                 _validate_category s = Ok (Text.lower (Text.strip s))).
  { intros s Hs. unfold _validate_category.
    assert (Text.truthy (Text.strip s) = true) as ->
      by now apply TextFacts.truthy_nonempty.
    destruct s as [|a s]; [now contradiction Hs | reflexivity]. }
  split; [|split; [|reflexivity]].
  - intros Hs. unfold _validate_category. rewrite Hs. cbn. now rewrite orb_true_r.
  - intros Hs c'. assert (Hne : c' <> EmptyString).
    { apply TextFacts.truthy_nonempty. unfold c'. rewrite TextFacts.truthy_lower.
      now apply TextFacts.truthy_nonempty. }
    split; [now apply Hacc|]. split; [exact Hne|].
    assert (Hfix : Text.strip c' = c') by apply InitFacts.normal_strip_fixed.
    rewrite (Hacc c') by (now rewrite Hfix).
    rewrite Hfix. unfold c'. now rewrite TextFacts.lower_idem.
Qed.

Lemma X7_category_rule_witness :
  _validate_category "  Food " = Ok "food"
  /\ _validate_category "food" = Ok "food"
  /\ _validate_category "   " = Raise (ValueError "category cannot be empty").
Proof.
  pose proof (X7_category_rule "  Food ") as H1.
  pose proof (X7_category_rule "   ") as H2.
  split; [|split].
  - refine (proj1 (proj1 (proj2 H1) _)). discriminate.
  - refine (proj2 (proj2 (proj1 (proj2 H1) _))). discriminate.
  - exact (proj1 H2 eq_refl).
Defined.

(** ** More on the store *)

Module StoreMore.
Import ExpenseStorage StoreFacts.

Lemma Expense_init_set_file date category amount note currency expense_id w c :
  Expense_init date category amount note currency expense_id (set_file w c)
  = (let '(r, w') := Expense_init date category amount note currency expense_id w in
     (r, set_file w' c)).
Proof.
  unfold Expense_init, bind, lift.
  destruct (_validate_date date); [|reflexivity].
  destruct (_validate_category category); [|reflexivity].
  destruct (_validate_amount amount); [|reflexivity].
  destruct expense_id as [i|]; [destruct (Text.truthy i)|]; reflexivity.
Qed.

Lemma from_dict_set_file d w c :
  from_dict d (set_file w c)
  = (let '(r, w') := from_dict d w in (r, set_file w' c)).
Proof.
  unfold from_dict, bind, getitem, raise, ret.
  destruct (d_date d); [|reflexivity].
  destruct (d_category d); [|reflexivity].
  destruct (d_amount d); [|reflexivity].
  apply Expense_init_set_file.
Qed.

Lemma mapM_from_dict_set_file ds : forall w c,
  mapM from_dict ds (set_file w c)
  = (let '(r, w') := mapM from_dict ds w in (r, set_file w' c)).
Proof.
  induction ds as [|d ds IH]; intros w c; [reflexivity|].
  cbn [mapM]. unfold bind. rewrite from_dict_set_file.
  destruct (from_dict d w) as [[e|x] w1]; cbv beta iota; [|reflexivity].
  rewrite IH.
  now destruct (mapM from_dict ds w1) as [[l|y] w2].
Qed.

Lemma from_dict_missing_key item w :
  lacks_required_key item = true ->
  exists k, from_dict item w = (Raise (KeyError k), w).
Proof.
  unfold lacks_required_key, from_dict, bind, getitem, raise, ret.
  destruct (d_date item); [|eauto].
  destruct (d_category item); [|eauto].
  destruct (d_amount item); [discriminate|eauto].
Qed.

Lemma mapM_from_dict_fails ds item :
  List.In item ds -> lacks_required_key item = true ->
  forall w, exists e w', mapM from_dict ds w = (Raise e, w').
Proof.
  intros Hin Hbad. induction ds as [|d ds IH]; [destruct Hin|].
  intros w. cbn [mapM]. unfold bind at 1.
  destruct (from_dict d w) as [[e|x] w1] eqn:Hd; [|eauto].
  destruct Hin as [->|Hin].
  - destruct (from_dict_missing_key item w Hbad) as [k Hk]. congruence.
  - destruct (IH Hin w1) as (e' & w' & Hm). unfold bind. rewrite Hm. eauto.
Qed.

Lemma has_id_without_id expense_id l :
  has_id expense_id (without_id expense_id l) = false.
Proof.
  unfold has_id, without_id. induction l as [|x l IH]; [reflexivity|].
  cbn. destruct (id_is expense_id x) eqn:Hx; cbn; [exact IH|].
  now rewrite Hx, IH.
Qed.

Lemma find_has_id expense_id l :
  List.find (id_is expense_id) l = None <-> has_id expense_id l = false.
Proof.
  unfold has_id. induction l as [|x l IH]; cbn; [tauto|].
  destruct (id_is expense_id x); cbn; [split; discriminate | exact IH].
Qed.

Lemma find_app_absent expense_id l l' :
  has_id expense_id l = false ->
  List.find (id_is expense_id) (l ++ l') = List.find (id_is expense_id) l'.
Proof.
  unfold has_id. induction l as [|x l IH]; cbn; [reflexivity|].
  destruct (id_is expense_id x); cbn; [discriminate | exact IH].
Qed.

Lemma find_split expense_id l e :
  List.find (id_is expense_id) l = Some e ->
  exists l1 l2, l = (l1 ++ e :: l2)%list /\ has_id expense_id l1 = false
                /\ Expense.id e = expense_id.
Proof.
  unfold has_id. induction l as [|x l IH]; cbn; [discriminate|].
  destruct (id_is expense_id x) eqn:Hx.
  - intros [= <-]. exists [], l. repeat split.
    unfold id_is in Hx. now apply String.eqb_eq in Hx.
  - intros H. destruct (IH H) as (l1 & l2 & -> & Hl1 & Hid).
    exists (x :: l1), l2. cbn. now rewrite Hx, Hl1.
Qed.

Lemma replace_first_absent expense_id u l :
  has_id expense_id l = false -> replace_first expense_id u l = None.
Proof.
  unfold has_id. induction l as [|x l IH]; cbn; [reflexivity|].
  destruct (id_is expense_id x); cbn; [discriminate|].
  intros H. now rewrite IH.
Qed.

Lemma replace_first_split expense_id u l1 e l2 :
  has_id expense_id l1 = false -> Expense.id e = expense_id ->
  replace_first expense_id u (l1 ++ e :: l2)%list = Some (l1 ++ u :: l2)%list.
Proof.
  unfold has_id. intros Hl1 He. induction l1 as [|x l1 IH]; cbn in *.
  - unfold id_is. rewrite He, String.eqb_refl. reflexivity.
  - destruct (id_is expense_id x); cbn in *; [discriminate|].
    now rewrite IH.
Qed.

(** A construction that raises leaves the world as it was. *)
Lemma Expense_init_raise date category amount note currency expense_id w x w' :
  Expense_init date category amount note currency expense_id w = (Raise x, w') ->
  w' = w.
Proof.
  unfold Expense_init, bind, lift.
  destruct (_validate_date date); [|now intros [= _ <-]].
  destruct (_validate_category category); [|now intros [= _ <-]].
  destruct (_validate_amount amount); [|now intros [= _ <-]].
  destruct expense_id as [i|]; [destruct (Text.truthy i)|]; cbn; discriminate.
Qed.

End StoreMore.

(** X8.  The legacy shape of the store file, a bare array, loads to the
    same result as the versioned object with the same entries, whatever
    its version; a versioned object without the key "expenses" loads as
    the empty list. *)
Theorem X8_legacy_shape_loads_alike
    (w : world) (items : list dict) (version : option Z) :
  (ExpenseStorage.load_expenses (set_file w (Some (Text (Legacy items))))).1
  = (ExpenseStorage.load_expenses
       (set_file w (Some (Text (Versioned version (Some items)))))).1
  /\ ExpenseStorage.load_expenses (set_file w (Some (Text (Versioned version None))))
     = (Ok [], set_file w (Some (Text (Versioned version None)))).
Proof.
  split.
  - rewrite (StoreFacts.load_expenses_text
               (set_file w (Some (Text (Legacy items)))) (Legacy items) eq_refl).
    rewrite (StoreFacts.load_expenses_text
               (set_file w (Some (Text (Versioned version (Some items)))))
               (Versioned version (Some items)) eq_refl).
    cbn [ExpenseStorage.expense_list_of]. rewrite !StoreMore.mapM_from_dict_set_file.
    now destruct (mapM from_dict items w) as [[l|e] w'].
  - now rewrite (StoreFacts.load_expenses_text
                   (set_file w (Some (Text (Versioned version None))))
                   (Versioned version None) eq_refl).
Qed.

(** X9.  Loading when the store file does not exist.  When the write
    succeeds, the file is created with the empty document of version 1
    and the load returns the empty list.  When the file cannot be opened,
    the load raises "Error writing to file" and there is still no file;
    when the write fails under way, it raises the same and leaves a
    truncated file, which the next load reports as corrupted.  The empty
    document has no character of several bytes, so the write cannot stop
    inside one. *)
Theorem X9_load_without_file (w : world) :
  w_file w = None ->
  let empty := Versioned (Some ExpenseStorage.VERSION) (Some []) in
  let failure := Exception "Error writing to file" OSError in
  match next_fault w with
  | NoFault =>
      ExpenseStorage.load_expenses w = (Ok [], after_write w (Some (Text empty)))
  | OpenFails =>
      ExpenseStorage.load_expenses w = (Raise failure, after_write w None)
  | WriteFails n | WriteFailsInside n =>
      let w' := after_write w (Some (Truncated empty n)) in
      ExpenseStorage.load_expenses w = (Raise failure, w')
      /\ ExpenseStorage.load_expenses w'
         = (Raise (Exception "Corrupted data file" JSONDecodeError), w')
  end.
Proof.
  destruct w as [f faults clock tk]. cbn [w_file]. intros ->. cbv zeta.
  unfold next_fault, after_write. cbn [w_faults w_file w_clock w_tick].
  destruct faults as [|[| |n|n] rest]; try reflexivity.
  - split; [reflexivity|]. now eapply StoreFacts.load_expenses_truncated.
  - split; [reflexivity|]. now eapply StoreFacts.load_expenses_truncated.
Qed.

Lemma X9_load_without_file_witness :
  let w := mkworld None [] Samples.clock 0 in
  ExpenseStorage.load_expenses w = (Ok [], Samples.world_of [] []).
Proof.
  exact (X9_load_without_file (mkworld None [] Samples.clock 0) eq_refl).
Defined.

(** X10.  One bad record fails the whole load.  When the store file holds
    a whole document and some entry lacks one of the keys "date",
    "category" and "amount", loading raises "Error reading expenses" and
    returns no expense at all; the file is left as it is. *)
Theorem X10_bad_record_fails_the_load (w : world) (d : document) (item : dict) :
  w_file w = Some (Text d) ->
  List.In item (ExpenseStorage.expense_list_of d) ->
  lacks_required_key item = true ->
  exists e w',
    ExpenseStorage.load_expenses w = (Raise (Exception "Error reading expenses" e), w')
    /\ w_file w' = w_file w.
Proof.
  intros Hf Hin Hbad. rewrite (StoreFacts.load_expenses_text w d Hf).
  destruct (StoreMore.mapM_from_dict_fails _ _ Hin Hbad w) as (e & w' & Hm).
  rewrite Hm. exists e, w'. split; [reflexivity|].
  now apply StoreFacts.mapM_from_dict_same_disk in Hm as (-> & _).
Qed.

Lemma X10_bad_record_witness :
  let bad := mkdict (Some "EXP-1") (Some "2024-01-05") None
               (Some (AFloat Samples.amount_5)) None None in
  let d := Legacy [to_dict Samples.lunch; bad] in
  let w := mkworld (Some (Text d)) [] Samples.clock 0 in
  lacks_required_key bad = true
  /\ exists e w',
       ExpenseStorage.load_expenses w
       = (Raise (Exception "Error reading expenses" e), w')
       /\ w_file w' = w_file w.
Proof.
  split; [reflexivity|].
  refine (X10_bad_record_fails_the_load
            (mkworld
               (Some (Text (Legacy
                  [to_dict Samples.lunch;
                   mkdict (Some "EXP-1") (Some "2024-01-05") None
                     (Some (AFloat Samples.amount_5)) None None])))
               [] Samples.clock 0)
            (Legacy
               [to_dict Samples.lunch;
                mkdict (Some "EXP-1") (Some "2024-01-05") None
                  (Some (AFloat Samples.amount_5)) None None])
            (mkdict (Some "EXP-1") (Some "2024-01-05") None
               (Some (AFloat Samples.amount_5)) None None)
            eq_refl _ eq_refl).
  right. left. reflexivity.
Defined.

(** X11.  Writing and reading back.  [save_all_expenses] with a list of
    well-formed expenses, when the write succeeds, replaces the file by
    the version 1 document of the list, whatever the file held, and the
    next load returns that very list, in order. *)
Theorem X11_save_all_then_load (w : world) (l : list Expense) :
  Forall well_formed l ->
  next_fault w = NoFault ->
  let w' := after_write w (Some (Text (document_of l))) in
  ExpenseStorage.save_all_expenses l w = (Ok tt, w')
  /\ ExpenseStorage.load_expenses w' = (Ok l, w').
Proof.
  intros Hl Hf. cbv zeta. unfold ExpenseStorage.save_all_expenses.
  pose proof (StoreFacts._write_expenses_cases w l) as Hw. cbv zeta in Hw.
  rewrite Hf in Hw. split; [exact Hw|].
  now apply StoreFacts.load_expenses_stored.
Qed.

Lemma X11_save_all_then_load_witness :
  let w := mkworld (Some (Malformed "not json")) [] Samples.clock 0 in
  ExpenseStorage.save_all_expenses [Samples.lunch; Samples.bus] w
  = (Ok tt, Samples.world_of [Samples.lunch; Samples.bus] [])
  /\ ExpenseStorage.load_expenses (Samples.world_of [Samples.lunch; Samples.bus] [])
     = (Ok [Samples.lunch; Samples.bus], Samples.world_of [Samples.lunch; Samples.bus] []).
Proof.
  assert (Hwf : Forall well_formed [Samples.lunch; Samples.bus]).
  { repeat constructor; cbn; try discriminate; reflexivity. }
  exact (X11_save_all_then_load (mkworld (Some (Malformed "not json")) [] Samples.clock 0)
           [Samples.lunch; Samples.bus] Hwf eq_refl).
Defined.

(** X12.  Adding.  On a store that loads as [l], adding a well-formed
    expense, when the rewrite succeeds, returns that expense, and the
    store then loads as [l] followed by it: the entries before are kept,
    in order, and the count grows by one.  A later lookup of its id finds
    it when no earlier entry has that id. *)
Theorem X12_add_then_load (w : world) (e : Expense) l w1 :
  ExpenseStorage.load_expenses w = (Ok l, w1) ->
  well_formed e ->
  next_fault w1 = NoFault ->
  let w2 := after_write w1 (Some (Text (document_of (l ++ [e])))) in
  ExpenseService.add_expense e w = (Ok e, w2)
  /\ ExpenseStorage.load_expenses w2 = (Ok (l ++ [e])%list, w2)
  /\ length (l ++ [e]) = S (length l)
  /\ (has_id (Expense.id e) l = false ->
      ExpenseStorage.get_expense_by_id (Expense.id e) w2 = (Ok (Some e), w2)).
Proof.
  intros Hl He Hf. cbv zeta.
  destruct (StoreFacts.load_expenses_ok _ _ _ Hl) as (Hwf & _).
  assert (Hall : Forall well_formed (l ++ [e])%list)
    by (apply List.Forall_app; split; [exact Hwf | now constructor]).
  assert (Hload : ExpenseStorage.load_expenses
                    (after_write w1 (Some (Text (document_of (l ++ [e])))))
                  = (Ok (l ++ [e])%list,
                     after_write w1 (Some (Text (document_of (l ++ [e]))))))
    by now apply StoreFacts.load_expenses_stored.
  split; [|split; [exact Hload|split]].
  - unfold ExpenseService.add_expense, ExpenseStorage.save_expense, bind. rewrite Hl.
    pose proof (StoreFacts._write_expenses_cases w1 (l ++ [e])) as Hw.
    cbv zeta in Hw. rewrite Hf in Hw. now rewrite Hw.
  - rewrite List.length_app. cbn. lia.
  - intros Hfresh. unfold ExpenseStorage.get_expense_by_id, bind, ret.
    rewrite Hload. f_equal. f_equal.
    rewrite (StoreMore.find_app_absent _ _ _ Hfresh). cbn.
    unfold ExpenseStorage.id_is. now rewrite String.eqb_refl.
Qed.

Lemma X12_add_then_load_witness :
  let w := Samples.world_of [Samples.lunch] [] in
  ExpenseStorage.load_expenses w = (Ok [Samples.lunch], w)
  /\ ExpenseService.add_expense Samples.bus w
     = (Ok Samples.bus, Samples.world_of [Samples.lunch; Samples.bus] [])
  /\ ExpenseStorage.load_expenses (Samples.world_of [Samples.lunch; Samples.bus] [])
     = (Ok [Samples.lunch; Samples.bus], Samples.world_of [Samples.lunch; Samples.bus] []).
Proof.
  assert (Hwf : well_formed Samples.bus)
    by (constructor; cbn; try discriminate; reflexivity).
  pose proof (X12_add_then_load (Samples.world_of [Samples.lunch] []) Samples.bus
                [Samples.lunch] (Samples.world_of [Samples.lunch] [])
                eq_refl Hwf eq_refl) as H.
  split; [reflexivity|]. split; [exact (proj1 H) | exact (proj1 (proj2 H))].
Defined.

(** X13.  Looking up by id.  On a store that loads as [l] the lookup
    returns the first entry of [l] with the id: none when no entry has
    it; otherwise an entry that has the id and has no entry of that id
    before it.  The lookup writes nothing. *)
Theorem X13_lookup_returns_first_match (w : world) (expense_id : string) l w1 :
  ExpenseStorage.load_expenses w = (Ok l, w1) ->
  exists found,
    ExpenseStorage.get_expense_by_id expense_id w = (Ok found, w1)
    /\ (found = None <-> has_id expense_id l = false)
    /\ (forall e, found = Some e ->
          exists l1 l2, l = (l1 ++ e :: l2)%list
                        /\ has_id expense_id l1 = false
                        /\ Expense.id e = expense_id)
    /\ (forall c, w_file w = Some c -> w_file w1 = Some c).
Proof.
  intros Hl. exists (List.find (ExpenseStorage.id_is expense_id) l).
  split; [|split; [|split]].
  - unfold ExpenseStorage.get_expense_by_id, bind, ret. now rewrite Hl.
  - apply StoreMore.find_has_id.
  - intros e. apply StoreMore.find_split.
  - intros c Hc. destruct (StoreFacts.load_expenses_ok _ _ _ Hl) as (_ & _ & _ & Hs).
    destruct (Hs c Hc) as (-> & _). exact Hc.
Qed.

Lemma X13_lookup_witness :
  let w := Samples.world_of [Samples.bus; Samples.lunch; Samples.coffee] [] in
  ExpenseStorage.load_expenses w = (Ok [Samples.bus; Samples.lunch; Samples.coffee], w)
  /\ exists found,
       ExpenseStorage.get_expense_by_id "EXP-20240105-093015" w = (Ok found, w)
       /\ (found = None <->
           has_id "EXP-20240105-093015" [Samples.bus; Samples.lunch; Samples.coffee]
           = false).
Proof.
  split; [reflexivity|].
  destruct (X13_lookup_returns_first_match
              (Samples.world_of [Samples.bus; Samples.lunch; Samples.coffee] [])
              "EXP-20240105-093015" [Samples.bus; Samples.lunch; Samples.coffee]
              (Samples.world_of [Samples.bus; Samples.lunch; Samples.coffee] []) eq_refl)
    as (found & H1 & H2 & _).
  exists found. split; assumption.
Defined.

(** X14.  Replacing in the store.  On a store that loads as [l]: when no
    entry has the id, [update_expense] of the store returns false and
    writes nothing; otherwise, when the rewrite succeeds, it returns true
    and the file holds [l] with the first entry of the id replaced by the
    given record, every other entry, later ones of the same id included,
    as it was. *)
Theorem X14_store_update_replaces_first_match
    (w : world) (expense_id : string) (u : Expense) l w1 :
  ExpenseStorage.load_expenses w = (Ok l, w1) ->
  (has_id expense_id l = false ->
   ExpenseStorage.update_expense expense_id u w = (Ok false, w1))
  /\ (forall l1 e l2,
        l = (l1 ++ e :: l2)%list ->
        has_id expense_id l1 = false ->
        Expense.id e = expense_id ->
        next_fault w1 = NoFault ->
        ExpenseStorage.update_expense expense_id u w
        = (Ok true, after_write w1 (Some (Text (document_of (l1 ++ u :: l2)))))).
Proof.
  intros Hl. split.
  - intros Hh. unfold ExpenseStorage.update_expense, bind at 1. rewrite Hl.
    now rewrite (StoreMore.replace_first_absent _ _ _ Hh).
  - intros l1 e l2 -> Hl1 He Hf.
    unfold ExpenseStorage.update_expense, bind at 1. rewrite Hl.
    rewrite (StoreMore.replace_first_split _ u _ _ l2 Hl1 He).
    pose proof (StoreFacts._write_expenses_cases w1 (l1 ++ u :: l2)) as Hw.
    cbv zeta in Hw. rewrite Hf in Hw. unfold bind. now rewrite Hw.
Qed.

Lemma X14_store_update_witness :
  let w := Samples.world_of [Samples.bus; Samples.lunch; Samples.coffee] [] in
  ExpenseStorage.load_expenses w = (Ok [Samples.bus; Samples.lunch; Samples.coffee], w)
  /\ ExpenseStorage.update_expense "EXP-20240105-093015" Samples.dinner w
     = (Ok true, Samples.world_of [Samples.bus; Samples.dinner; Samples.coffee] [])
  /\ ExpenseStorage.update_expense "EXP-none" Samples.dinner w = (Ok false, w).
Proof.
  pose proof (X14_store_update_replaces_first_match
                (Samples.world_of [Samples.bus; Samples.lunch; Samples.coffee] [])
                "EXP-20240105-093015" Samples.dinner
                [Samples.bus; Samples.lunch; Samples.coffee]
                (Samples.world_of [Samples.bus; Samples.lunch; Samples.coffee] [])
                eq_refl) as H1.
  pose proof (X14_store_update_replaces_first_match
                (Samples.world_of [Samples.bus; Samples.lunch; Samples.coffee] [])
                "EXP-none" Samples.dinner
                [Samples.bus; Samples.lunch; Samples.coffee]
                (Samples.world_of [Samples.bus; Samples.lunch; Samples.coffee] [])
                eq_refl) as H2.
  split; [reflexivity|]. split.
  - exact (proj2 H1 [Samples.bus] Samples.lunch [Samples.coffee]
             eq_refl eq_refl eq_refl eq_refl).
  - exact (proj1 H2 eq_refl).
Defined.

(** X15.  Updating an id that is not stored.  On a store that loads and
    has no entry of the id, [update_expense] of the service returns false
    whatever fields are supplied: the fields are not validated, so even an
    amount or a date that no expense may have raises nothing; and nothing
    is written. *)
Theorem X15_update_of_missing_id
    (w : world) (expense_id : string) l w1
    (amount : amount_arg) (note category date : option string) :
  ExpenseStorage.load_expenses w = (Ok l, w1) ->
  has_id expense_id l = false ->
  ExpenseService.update_expense expense_id amount note category date w = (Ok false, w1)
  /\ (forall c, w_file w = Some c -> w_file w1 = Some c).
Proof.
  intros Hl Hh. split.
  - unfold ExpenseService.update_expense, bind at 1,
      ExpenseStorage.get_expense_by_id, bind at 1, ret.
    rewrite Hl. apply StoreMore.find_has_id in Hh. now rewrite Hh.
  - intros c Hc. destruct (StoreFacts.load_expenses_ok _ _ _ Hl) as (_ & _ & _ & Hs).
    destruct (Hs c Hc) as (-> & _). exact Hc.
Qed.

Lemma X15_update_of_missing_id_witness :
  let w := Samples.world_of [Samples.lunch] [] in
  ExpenseStorage.load_expenses w = (Ok [Samples.lunch], w)
  /\ ExpenseService.update_expense "EXP-none" (AInt (-5)) None None (Some "yesterday") w
     = (Ok false, w).
Proof.
  split; [reflexivity|].
  exact (proj1 (X15_update_of_missing_id (Samples.world_of [Samples.lunch] [])
                  "EXP-none" [Samples.lunch] (Samples.world_of [Samples.lunch] [])
                  (AInt (-5)) None None (Some "yesterday") eq_refl eq_refl)).
Defined.

(** X16.  An update that fails validation writes nothing.  For an expense
    found in the store, when building the merged record raises, the update
    raises the same exception and the world is the one the lookup left:
    the file is untouched.  So it is for an amount that is a float at
    most 0 other than zero itself, with no category or date supplied: the
    update raises "amount must be > 0". *)
Theorem X16_rejected_update_writes_nothing
    (w : world) (expense_id : string) (e : Expense) (w1 : world)
    (amount : amount_arg) (note category date : option string) :
  ExpenseStorage.get_expense_by_id expense_id w = (Ok (Some e), w1) ->
  (forall x w2,
     ExpenseService.merged_expense e amount note category date w1 = (Raise x, w2) ->
     w2 = w1
     /\ ExpenseService.update_expense expense_id amount note category date w
        = (Raise x, w1))
  /\ (forall f,
        ExpenseService.amount_truthy (AFloat f) = true ->
        Num.fle f Num.fzero = true ->
        ExpenseService.update_expense expense_id (AFloat f) note None None w
        = (Raise (ValueError "amount must be > 0"), w1))
  /\ (forall c, w_file w = Some c -> w_file w1 = Some c).
Proof.
  intros Hget.
  destruct (UpdateFacts.get_expense_by_id_found _ _ _ _ Hget) as (Hwf & Hid & l & Hl & _).
  assert (Hgen : forall a n c d x w2,
             ExpenseService.merged_expense e a n c d w1 = (Raise x, w2) ->
             w2 = w1
             /\ ExpenseService.update_expense expense_id a n c d w = (Raise x, w1)).
  { intros a n c d x w2 Hm.
    assert (w2 = w1) as ->
      by (unfold ExpenseService.merged_expense in Hm;
          eapply StoreMore.Expense_init_raise; exact Hm).
    split; [reflexivity|].
    unfold ExpenseService.update_expense, bind at 1. rewrite Hget.
    unfold bind at 1. now rewrite Hm. }
  split; [apply Hgen|]. split.
  - intros f Ht Hle. apply (Hgen (AFloat f) note None None _ w1).
    unfold ExpenseService.merged_expense. rewrite Ht. cbn [ExpenseService.given].
    destruct (Expense_init_first_failure (Expense.date e) (Expense.category e)
                (AFloat f) (match note with Some n => n | None => Expense.note e end)
                (Expense.currency e) (Some (Expense.id e)) w1) as (_ & _ & _ & H4).
    assert (Hstrip : Text.strip (Expense.category e) <> EmptyString).
    { intros Hs. pose proof (wf_category e Hwf) as Hc. rewrite Hs in Hc. cbn in Hc.
      apply (wf_category_nonempty e Hwf). now symmetry. }
    exact (H4 (wf_date e Hwf) Hstrip f eq_refl Hle).
  - intros c Hc. destruct (StoreFacts.load_expenses_ok _ _ _ Hl) as (_ & _ & _ & Hs).
    destruct (Hs c Hc) as (-> & _). exact Hc.
Qed.

Lemma X16_rejected_update_witness :
  let w := Samples.world_of [Samples.lunch; Samples.bus] [] in
  ExpenseStorage.get_expense_by_id "EXP-20240105-093015" w = (Ok (Some Samples.lunch), w)
  /\ ExpenseService.update_expense "EXP-20240105-093015"
       (AFloat MoreSamples.amount_minus_5) (Some "x") None None w
     = (Raise (ValueError "amount must be > 0"), w).
Proof.
  split; [reflexivity|].
  exact (proj1 (proj2 (X16_rejected_update_writes_nothing
                  (Samples.world_of [Samples.lunch; Samples.bus] [])
                  "EXP-20240105-093015" Samples.lunch
                  (Samples.world_of [Samples.lunch; Samples.bus] [])
                  ANone (Some "x") None None eq_refl))
           MoreSamples.amount_minus_5 eq_refl eq_refl).
Defined.

(** X17.  Deleting twice.  On a store that loads with an entry of the id,
    after a delete whose rewrite succeeds a lookup of the id finds
    nothing and a second delete returns false and writes nothing. *)
Theorem X17_delete_then_gone (w : world) (expense_id : string) l w1 :
  ExpenseStorage.load_expenses w = (Ok l, w1) ->
  has_id expense_id l = true ->
  next_fault w1 = NoFault ->
  let w2 := after_write w1 (Some (Text (document_of (without_id expense_id l)))) in
  ExpenseService.delete_expense expense_id w = (Ok true, w2)
  /\ ExpenseStorage.get_expense_by_id expense_id w2 = (Ok None, w2)
  /\ ExpenseService.delete_expense expense_id w2 = (Ok false, w2).
Proof.
  intros Hl Hh Hf. cbv zeta.
  destruct (StoreFacts.load_expenses_ok _ _ _ Hl) as (Hwf & _).
  assert (Hkept : Forall well_formed (without_id expense_id l)).
  { unfold without_id. rewrite List.Forall_forall in *.
    intros e He. apply List.filter_In in He as [He _]. auto. }
  assert (Hload : ExpenseStorage.load_expenses
                    (after_write w1 (Some (Text (document_of (without_id expense_id l)))))
                  = (Ok (without_id expense_id l),
                     after_write w1 (Some (Text (document_of (without_id expense_id l))))))
    by now apply StoreFacts.load_expenses_stored.
  pose proof (StoreMore.has_id_without_id expense_id l) as Hgone.
  split; [|split].
  - unfold ExpenseService.delete_expense.
    rewrite (DeleteFacts.delete_expense_unfold _ _ _ _ Hl), Hh.
    pose proof (StoreFacts._write_expenses_cases w1 (without_id expense_id l)) as Hw.
    cbv zeta in Hw. rewrite Hf in Hw. now rewrite Hw.
  - unfold ExpenseStorage.get_expense_by_id, bind, ret. rewrite Hload.
    apply StoreMore.find_has_id in Hgone. now rewrite Hgone.
  - unfold ExpenseService.delete_expense.
    now rewrite (DeleteFacts.delete_expense_unfold _ _ _ _ Hload), Hgone.
Qed.

Lemma X17_delete_then_gone_witness :
  let w := Samples.world_of [Samples.lunch; Samples.bus] [] in
  let w2 := Samples.world_of [Samples.bus] [] in
  ExpenseStorage.load_expenses w = (Ok [Samples.lunch; Samples.bus], w)
  /\ ExpenseService.delete_expense "EXP-20240105-093015" w = (Ok true, w2)
  /\ ExpenseService.delete_expense "EXP-20240105-093015" w2 = (Ok false, w2).
Proof.
  pose proof (X17_delete_then_gone (Samples.world_of [Samples.lunch; Samples.bus] [])
                "EXP-20240105-093015" [Samples.lunch; Samples.bus]
                (Samples.world_of [Samples.lunch; Samples.bus] [])
                eq_refl eq_refl eq_refl) as H.
  split; [reflexivity|]. split; [exact (proj1 H) | exact (proj2 (proj2 H))].
Defined.

(** ** More on the query engine *)

Section SortAgain.

Context {A K : Type} (lt : K -> K -> bool) (key : A -> K) (ok : K -> Prop).

Hypothesis lt_asym : forall a b, lt a b = true -> lt b a = false.
Hypothesis le_trans : forall a b c, ok a -> ok b -> ok c ->
  lt b a = false -> lt c b = false -> lt c a = false.

Lemma sort_of_ordered (l : list A) :
  StronglySorted (fun a b => lt (key b) (key a) = false) l ->
  Py.sort lt key l = l.
Proof.
  induction 1 as [|x l Hs IH Hx]; [reflexivity|].
  cbn [Py.sort fold_right]. fold (Py.sort lt key l). rewrite IH.
  destruct l as [|y l]; [reflexivity|].
  cbn [Py.insert]. inversion Hx as [|? ? Hy _]; subst. now rewrite Hy.
Qed.

Lemma sort_idempotent (l : list A) :
  Forall (fun y => ok (key y)) l ->
  Py.sort lt key (Py.sort lt key l) = Py.sort lt key l.
Proof.
  intros Hok. apply sort_of_ordered.
  exact (sort_ordered lt key ok lt_asym le_trans l Hok).
Qed.

Lemma stable_sorted_idempotent (reverse : bool) (l : list A) :
  Forall (fun y => ok (key y)) l ->
  Py.stable_sorted lt key reverse (Py.stable_sorted lt key reverse l)
  = Py.stable_sorted lt key reverse l.
Proof.
  intros Hok. unfold Py.stable_sorted. destruct reverse.
  - rewrite List.rev_involutive, sort_idempotent; [reflexivity|].
    eapply Permutation_Forall; [apply Permutation_rev|exact Hok].
  - now apply sort_idempotent.
Qed.

Lemma sorted_idempotent (py : Py.interpreter) (reverse : bool) (l : list A) :
  Forall (fun y => ok (key y)) l ->
  Py.sorted lt key py reverse (Py.sorted lt key py reverse l)
  = Py.sorted lt key py reverse l.
Proof.
  intros Hok.
  rewrite (sorted_stable_sorted lt key ok lt_asym le_trans py reverse l Hok).
  rewrite (sorted_stable_sorted lt key ok lt_asym le_trans py reverse).
  - now apply stable_sorted_idempotent.
  - eapply Permutation_Forall; [apply stable_sorted_permutation|exact Hok].
Qed.

End SortAgain.

Module QueryFacts.

Lemma lstrip_length (s : string) :
  (String.length (Text.lstrip s) <= String.length s)%nat
  /\ (String.length (Text.lstrip s) = String.length s -> Text.lstrip s = s).
Proof.
  induction s as [|a s [IH1 IH2]]; cbn; [auto|].
  destruct (Text.is_space a); cbn; [|auto].
  split; [lia|]. intros H. lia.
Qed.

Lemma rstrip_length (s : string) :
  (String.length (Text.rstrip s) <= String.length s)%nat
  /\ (String.length (Text.rstrip s) = String.length s -> Text.rstrip s = s).
Proof.
  induction s as [|a s [IH1 IH2]]; cbn; [auto|].
  destruct (Text.is_space a && Text.is_empty (Text.rstrip s)); cbn.
  - split; [lia | discriminate].
  - split; [lia|]. intros H. f_equal. apply IH2. lia.
Qed.

Lemma strip_length (s : string) :
  String.length (Text.strip s) = String.length s -> Text.strip s = s.
Proof.
  unfold Text.strip. intros H.
  destruct (lstrip_length s) as [L1 L2].
  destruct (rstrip_length (Text.lstrip s)) as [R1 R2].
  rewrite R2 by lia. apply L2. lia.
Qed.

Lemma lower_length (s : string) : String.length (Text.lower s) = String.length s.
Proof. induction s as [|a s IH]; cbn; congruence. Qed.

Lemma well_formed_lower (e : Expense) :
  well_formed e -> Text.lower (Expense.category e) = Expense.category e.
Proof.
  intros Hwf. rewrite <- (wf_category e Hwf) at 1.
  rewrite TextFacts.lower_idem. apply (wf_category e Hwf).
Qed.

Lemma well_formed_strip (e : Expense) :
  well_formed e -> Text.strip (Expense.category e) = Expense.category e.
Proof.
  intros Hwf. rewrite <- (wf_category e Hwf) at 1.
  rewrite InitFacts.normal_strip_fixed. apply (wf_category e Hwf).
Qed.

(** The category filter on well-formed expenses. *)
Lemma category_filter (l : list Expense) (c : string) :
  Forall well_formed l ->
  List.filter
    (fun e => String.eqb (Text.lower (Expense.category e)) (Text.lower c)) l
  = List.filter (in_category (Text.lower c)) l.
Proof.
  intros Hl. induction Hl as [|e l He Hl IH]; [reflexivity|].
  cbn. unfold in_category at 1. rewrite (well_formed_lower e He). now rewrite IH.
Qed.

Lemma category_filter_untrimmed (l : list Expense) (c : string) :
  Forall well_formed l -> Text.strip c <> c ->
  List.filter (in_category (Text.lower c)) l = [].
Proof.
  intros Hl Hc. induction Hl as [|e l He Hl IH]; [reflexivity|].
  cbn. rewrite IH. unfold in_category.
  destruct (String.eqb_spec (Expense.category e) (Text.lower c)) as [Heq|]; [|reflexivity].
  exfalso. apply Hc. apply strip_length.
  pose proof (well_formed_strip e He) as Hs. rewrite Heq in Hs.
  rewrite TextFacts.strip_lower in Hs.
  apply (f_equal String.length) in Hs. now rewrite !lower_length in Hs.
Qed.

Lemma filter_idem {A} (f : A -> bool) (l : list A) :
  List.filter f (List.filter f l) = List.filter f l.
Proof.
  induction l as [|x l IH]; [reflexivity|].
  cbn. destruct (f x) eqn:Hx; cbn; [now rewrite Hx, IH | exact IH].
Qed.

Lemma has_category_filter (k c : string) (l : list Expense) :
  has_category k (List.filter (in_category c) l)
  = String.eqb k c && negb (Nat.eqb (length (List.filter (in_category c) l)) 0).
Proof.
  unfold has_category. induction l as [|e l IH]; cbn; [now rewrite andb_false_r|].
  destruct (in_category c e) eqn:He; [|exact IH].
  cbn. rewrite andb_true_r. unfold in_category in *.
  apply String.eqb_eq in He. rewrite He, IH, (String.eqb_sym c k).
  now destruct (String.eqb k c).
Qed.

Lemma list_expenses_unfold (py : Py.interpreter) w l w1 month category min_amount max_amount
    sort_by descending limit :
  ExpenseStorage.load_expenses w = (Ok l, w1) ->
  ExpenseService.list_expenses py month category min_amount max_amount sort_by
    descending limit w
  = (Ok (let filtered :=
           ExpenseService._apply_filters l month None None category
             min_amount max_amount in
         let ordered :=
           match ExpenseService.given sort_by with
           | Some f => ExpenseService._sort_expenses py filtered f descending
           | None => filtered
           end in
         match limit with
         | Some n => if n =? 0 then ordered else Py.slice_to n ordered
         | None => ordered
         end), w1).
Proof.
  intros Hl. unfold ExpenseService.list_expenses, bind, ret. now rewrite Hl.
Qed.

Lemma load_keeps_file w l w1 :
  ExpenseStorage.load_expenses w = (Ok l, w1) ->
  forall c, w_file w = Some c -> w_file w1 = Some c.
Proof.
  intros Hl c Hc. destruct (StoreFacts.load_expenses_ok _ _ _ Hl) as (_ & _ & _ & Hs).
  destruct (Hs c Hc) as (-> & _). exact Hc.
Qed.

End QueryFacts.

(** X18.  Sorting again changes nothing: for a list without a NaN amount
    and a sort field among date, amount and category, sorting the sorted
    list by the same field in the same direction returns it as it is. *)
Theorem X18_sorting_twice (py : Py.interpreter) (l : list Expense) (sort_by : string) (descending : bool) :
  List.In sort_by ["date"; "amount"; "category"] ->
  no_nan_amount l ->
  ExpenseService._sort_expenses py
    (ExpenseService._sort_expenses py l sort_by descending) sort_by descending
  = ExpenseService._sort_expenses py l sort_by descending.
Proof.
  intros Hin Hnan.
  assert (Htrue : Forall (fun e : Expense => True) l)
    by (apply List.Forall_forall; auto).
  cbn in Hin. destruct Hin as [<- | [<- | [<- | []]]];
    unfold ExpenseService._sort_expenses;
    cbn [String.eqb Ascii.eqb Bool.eqb andb].
  - exact (sorted_idempotent Text.str_lt Expense.date (fun _ => True)
             OrderFacts.str_lt_asym
             (fun a b c _ _ _ => OrderFacts.str_lt_trans_neg a b c)
             py descending l Htrue).
  - exact (sorted_idempotent Num.flt Expense.amount (fun a => Num.is_nan a = false)
             OrderFacts.flt_asym OrderFacts.fle_trans py descending l Hnan).
  - exact (sorted_idempotent Text.str_lt Expense.category (fun _ => True)
             OrderFacts.str_lt_asym
             (fun a b c _ _ _ => OrderFacts.str_lt_trans_neg a b c)
             py descending l Htrue).
Qed.

Lemma X18_sorting_twice_witness :
  let l := [Samples.lunch; Samples.bus; Samples.dinner; Samples.coffee] in
  ExpenseService._sort_expenses (Py.cpython true) l "amount" true
  = [Samples.lunch; Samples.dinner; Samples.bus; Samples.coffee]
  /\ ExpenseService._sort_expenses (Py.cpython true)
       (ExpenseService._sort_expenses (Py.cpython true) l "amount" true) "amount" true
     = ExpenseService._sort_expenses (Py.cpython true) l "amount" true.
Proof.
  split; [reflexivity|].
  refine (X18_sorting_twice (Py.cpython true) [Samples.lunch; Samples.bus; Samples.dinner; Samples.coffee]
            "amount" true _ _).
  - right. left. reflexivity.
  - repeat constructor.
Defined.

(** X19.  Listing keeps the stored order unless it can sort.  On a store
    that loads as [l], listing without a sort field, with an empty one, or
    with one that is not date, amount or category, and without a limit,
    returns the expenses that pass the filters in the order of the store;
    the date range is not among the filters of a listing.  Listing writes
    nothing. *)
Theorem X19_listing_without_a_sort_field (py : Py.interpreter)
    (w : world) l w1 (month category : option string)
    (min_amount max_amount : option Num.float) (sort_by : option string)
    (descending : bool) :
  ExpenseStorage.load_expenses w = (Ok l, w1) ->
  (forall f, sort_by = Some f -> ~ List.In f ["date"; "amount"; "category"]) ->
  ExpenseService.list_expenses py month category min_amount max_amount sort_by
    descending None w
  = (Ok (ExpenseService._apply_filters l month None None category
           min_amount max_amount), w1)
  /\ (forall c, w_file w = Some c -> w_file w1 = Some c).
Proof.
  intros Hl Hs. split; [|now apply (QueryFacts.load_keeps_file w l w1)].
  rewrite (QueryFacts.list_expenses_unfold _ _ _ _ _ _ _ _ _ _ _ Hl). cbv zeta.
  f_equal. f_equal. unfold ExpenseService.given.
  destruct sort_by as [f|]; [|reflexivity].
  destruct (Text.truthy f); [|reflexivity].
  specialize (Hs f eq_refl). unfold ExpenseService._sort_expenses.
  destruct (String.eqb_spec f "date") as [->|_]; [exfalso; apply Hs; cbn; auto|].
  destruct (String.eqb_spec f "amount") as [->|_]; [exfalso; apply Hs; cbn; auto|].
  destruct (String.eqb_spec f "category") as [->|_]; [exfalso; apply Hs; cbn; auto|].
  reflexivity.
Qed.

Lemma X19_listing_witness :
  let w := Samples.world_of [Samples.lunch; Samples.bus; Samples.dinner] [] in
  ExpenseStorage.load_expenses w = (Ok [Samples.lunch; Samples.bus; Samples.dinner], w)
  /\ ExpenseService.list_expenses (Py.cpython true) (Some "2024-01") None None None (Some "note") true None w
     = (Ok [Samples.lunch; Samples.bus], w).
Proof.
  split; [reflexivity|].
  refine (proj1 (X19_listing_without_a_sort_field (Py.cpython true)
                   (Samples.world_of [Samples.lunch; Samples.bus; Samples.dinner] [])
                   [Samples.lunch; Samples.bus; Samples.dinner]
                   (Samples.world_of [Samples.lunch; Samples.bus; Samples.dinner] [])
                   (Some "2024-01") None None None (Some "note") true eq_refl _)).
  intros f [= <-] [H|[H|[H|[]]]]; discriminate.
Defined.

(** X20.  The limit of a listing.  With no limit or the limit 0 the whole
    result is returned; with a positive limit, its first [n] expenses;
    with a negative limit [-k], all but its last [k] expenses. *)
Theorem X20_limit_of_a_listing (py : Py.interpreter)
    (w : world) l w1 (month category : option string)
    (min_amount max_amount : option Num.float) (sort_by : option string)
    (descending : bool) (n : Z) :
  ExpenseStorage.load_expenses w = (Ok l, w1) ->
  exists full,
    ExpenseService.list_expenses py month category min_amount max_amount sort_by
      descending None w = (Ok full, w1)
    /\ ExpenseService.list_expenses py month category min_amount max_amount sort_by
         descending (Some n) w
       = (Ok (if n =? 0 then full
              else if 0 <? n then firstn (Z.to_nat n) full
              else firstn (length full - Z.to_nat (- n)) full), w1).
Proof.
  intros Hl. eexists. split.
  - apply (QueryFacts.list_expenses_unfold _ _ _ _ _ _ _ _ _ _ _ Hl).
  - rewrite (QueryFacts.list_expenses_unfold _ _ _ _ _ _ _ _ _ _ _ Hl). cbv zeta.
    f_equal. f_equal. destruct (Z.eqb_spec n 0) as [|Hn]; [reflexivity|].
    unfold Py.slice_to. destruct (Z.ltb_spec 0 n) as [Hpos|Hneg].
    + destruct (Z.leb_spec 0 n); [reflexivity | lia].
    + destruct (Z.leb_spec 0 n); [lia|]. f_equal. lia.
Qed.

Lemma X20_limit_witness :
  let w := Samples.world_of [Samples.lunch; Samples.bus; Samples.dinner] [] in
  ExpenseStorage.load_expenses w = (Ok [Samples.lunch; Samples.bus; Samples.dinner], w)
  /\ ExpenseService.list_expenses (Py.cpython true) None None None None None false (Some (-1)) w
     = (Ok [Samples.lunch; Samples.bus], w)
  /\ ExpenseService.list_expenses (Py.cpython true) None None None None None false (Some 0) w
     = (Ok [Samples.lunch; Samples.bus; Samples.dinner], w).
Proof.
  split; [reflexivity|].
  destruct (X20_limit_of_a_listing (Py.cpython true)
              (Samples.world_of [Samples.lunch; Samples.bus; Samples.dinner] [])
              [Samples.lunch; Samples.bus; Samples.dinner]
              (Samples.world_of [Samples.lunch; Samples.bus; Samples.dinner] [])
              None None None None None false (-1) eq_refl) as (full & Hfull & Hn).
  split; [|reflexivity].
  rewrite Hn. injection Hfull as <-. reflexivity.
Defined.

(** X21.  The category filter against stored categories.  Stored
    categories are trimmed and lower-cased; the filter value is
    lower-cased but not trimmed.  So on a store that loads as [l],
    listing by a non-empty category [c] returns the expenses whose
    category is [c] in lower case, and returns nothing when [c] begins
    or ends with white space. *)
Theorem X21_listing_by_category (py : Py.interpreter) (w : world) l w1 (c : string) :
  ExpenseStorage.load_expenses w = (Ok l, w1) ->
  c <> EmptyString ->
  ExpenseService.list_expenses py None (Some c) None None None false None w
  = (Ok (List.filter (in_category (Text.lower c)) l), w1)
  /\ (Text.strip c <> c ->
      ExpenseService.list_expenses py None (Some c) None None None false None w
      = (Ok [], w1)).
Proof.
  intros Hl Hc.
  destruct (StoreFacts.load_expenses_ok _ _ _ Hl) as (Hwf & _).
  assert (Hlist : ExpenseService.list_expenses py None (Some c) None None None false None w
                  = (Ok (List.filter (in_category (Text.lower c)) l), w1)).
  { rewrite (QueryFacts.list_expenses_unfold _ _ _ _ _ _ _ _ _ _ _ Hl). cbv zeta.
    f_equal. f_equal. unfold ExpenseService._apply_filters, ExpenseService.given.
    apply TextFacts.truthy_nonempty in Hc. rewrite Hc.
    now apply QueryFacts.category_filter. }
  split; [exact Hlist|].
  intros Hs. rewrite Hlist. now rewrite QueryFacts.category_filter_untrimmed.
Qed.

Lemma X21_listing_by_category_witness :
  let w := Samples.world_of [Samples.lunch; Samples.bus; Samples.dinner] [] in
  ExpenseStorage.load_expenses w = (Ok [Samples.lunch; Samples.bus; Samples.dinner], w)
  /\ ExpenseService.list_expenses (Py.cpython true) None (Some "Food") None None None false None w
     = (Ok [Samples.lunch; Samples.dinner], w)
  /\ ExpenseService.list_expenses (Py.cpython true) None (Some " food") None None None false None w
     = (Ok [], w).
Proof.
  split; [reflexivity|]. split.
  - refine (proj1 (X21_listing_by_category (Py.cpython true)
                     (Samples.world_of [Samples.lunch; Samples.bus; Samples.dinner] [])
                     [Samples.lunch; Samples.bus; Samples.dinner]
                     (Samples.world_of [Samples.lunch; Samples.bus; Samples.dinner] [])
                     "Food" eq_refl _)).
    discriminate.
  - refine (proj2 (X21_listing_by_category (Py.cpython true)
                     (Samples.world_of [Samples.lunch; Samples.bus; Samples.dinner] [])
                     [Samples.lunch; Samples.bus; Samples.dinner]
                     (Samples.world_of [Samples.lunch; Samples.bus; Samples.dinner] [])
                     " food" eq_refl _) _); discriminate.
Defined.

(** X22.  A summary restricted to one category.  On a store that loads,
    the summary for a non-empty category [c] counts the expenses whose
    category is [c] in lower case.  Its totals by category have no entry
    when the count is 0, and otherwise the single entry of that category:
    the float sum of the amounts of those expenses, added to 0.0 one after
    another in stored order.  The grand total is the integer 0 when the
    count is 0; otherwise it is that entry where [sum] adds plainly, and
    that entry with the rounding errors of its additions given back where
    [sum] is compensated. *)
Theorem X22_summary_of_one_category (py : Py.interpreter) (w : world) l w1 (c : string) :
  ExpenseStorage.load_expenses w = (Ok l, w1) ->
  c <> EmptyString ->
  let amounts := category_amounts (Text.lower c) l in
  exists s,
    ExpenseService.summary py None None None (Some c) w = (Ok s, w1)
    /\ ExpenseService.count s = length amounts
    /\ (forall k,
          ExpenseService.totals_by_category s !! k
          = if String.eqb k (Text.lower c) && negb (Nat.eqb (ExpenseService.count s) 0)
            then Some (Py.NFloat (float_sum amounts)) else None)
    /\ ExpenseService.grand_total s
       = (if Nat.eqb (ExpenseService.count s) 0 then Py.NInt 0
          else Py.NFloat (if Py.compensated_sum py then corrected_sum amounts
                          else float_sum amounts)).
Proof.
  intros Hl Hc amounts.
  destruct (StoreFacts.load_expenses_ok _ _ _ Hl) as (Hwf & _).
  eexists. split; [|split; [|split]].
  - unfold ExpenseService.summary, bind, ret. rewrite Hl.
    unfold ExpenseService._apply_filters, ExpenseService.given.
    apply TextFacts.truthy_nonempty in Hc. rewrite Hc.
    rewrite (QueryFacts.category_filter l c Hwf). reflexivity.
  - cbn [ExpenseService._calculate_summary ExpenseService.count].
    unfold amounts, category_amounts. now rewrite List.length_map.
  - intros k. cbn [ExpenseService._calculate_summary ExpenseService.count
                   ExpenseService.grand_total ExpenseService.totals_by_category].
    rewrite SummaryFacts.totals_lookup, lookup_empty.
    rewrite QueryFacts.has_category_filter.
    destruct (String.eqb_spec k (Text.lower c)) as [->|Hk]; [|reflexivity].
    cbn [andb default]. unfold amounts, category_amounts.
    rewrite QueryFacts.filter_idem.
    destruct (List.filter (in_category (Text.lower c)) l) as [|e rest];
      [reflexivity|].
    cbn [length Nat.eqb negb List.map]. now rewrite SummaryFacts.fold_add_float_0.
  - cbn [ExpenseService._calculate_summary ExpenseService.count
         ExpenseService.grand_total].
    rewrite SummaryFacts.sum_of_floats. fold (category_amounts (Text.lower c) l).
    fold amounts. unfold amounts, category_amounts.
    destruct (List.filter (in_category (Text.lower c)) l) as [|e rest]; reflexivity.
Qed.

(** Two expenses of 12.50 and 10.00 in the category asked for, and the
    amounts 0.1, 0.2 and 0.3 under a compensated [sum]. *)
Lemma X22_summary_of_one_category_witness :
  let w := Samples.world_of [Samples.lunch; Samples.bus; Samples.dinner] [] in
  let v := Samples.world_of MoreSamples.three_tenths [] in
  (ExpenseStorage.load_expenses w = (Ok [Samples.lunch; Samples.bus; Samples.dinner], w)
   /\ exists s,
        ExpenseService.summary (Py.cpython false) None None None (Some "FOOD") w
        = (Ok s, w)
        /\ ExpenseService.count s = 2%nat
        /\ ExpenseService.totals_by_category s !! "food"
           = Some (Py.NFloat MoreSamples.amount_22_5)
        /\ ExpenseService.totals_by_category s !! "transport" = None
        /\ ExpenseService.grand_total s = Py.NFloat MoreSamples.amount_22_5)
  /\ (ExpenseStorage.load_expenses v = (Ok MoreSamples.three_tenths, v)
      /\ exists s,
           ExpenseService.summary (Py.cpython true) None None None (Some "food") v
           = (Ok s, v)
           /\ ExpenseService.totals_by_category s !! "food"
              = Some (Py.NFloat MoreSamples.amount_above_0_6)
           /\ ExpenseService.grand_total s = Py.NFloat MoreSamples.amount_0_6).
Proof.
  split.
  - split; [reflexivity|].
    destruct (X22_summary_of_one_category (Py.cpython false)
                (Samples.world_of [Samples.lunch; Samples.bus; Samples.dinner] [])
                [Samples.lunch; Samples.bus; Samples.dinner]
                (Samples.world_of [Samples.lunch; Samples.bus; Samples.dinner] [])
                "FOOD" eq_refl) as (s & Hs & Hcount & Hentry & Htotal);
      [discriminate|].
    exists s. split; [exact Hs|]. split; [exact Hcount|].
    split; [|split].
    + rewrite Hentry, Hcount. reflexivity.
    + rewrite Hentry. reflexivity.
    + rewrite Htotal, Hcount. reflexivity.
  - split; [reflexivity|].
    destruct (X22_summary_of_one_category (Py.cpython true)
                (Samples.world_of MoreSamples.three_tenths [])
                MoreSamples.three_tenths
                (Samples.world_of MoreSamples.three_tenths [])
                "food" eq_refl) as (s & Hs & Hcount & Hentry & Htotal);
      [discriminate|].
    exists s. split; [exact Hs|]. split.
    + rewrite Hentry, Hcount. reflexivity.
    + rewrite Htotal, Hcount. reflexivity.
Defined.

(** X23.  The guard of the edit command.  When no field counts as given
    (the amount is absent or zero, there is no note, and the category and
    the date are absent or empty) the command exits with code 1 and does
    not touch the store; and in that case the update itself would have
    kept any stored expense exactly as it is. *)
Theorem X23_edit_without_a_field
    (expense_id : string) (amount : amount_arg) (note category date : option string)
    (w : world) :
  Cli.any_field amount note category date = false ->
  Cli.handle_edit expense_id amount note category date w
  = (Ok (Exit 1
          "Error: Please provide at least one field to update (--amount, --note, --category, or --date)"),
     w)
  /\ (forall e w1, well_formed e ->
        ExpenseService.merged_expense e amount note category date w1 = (Ok e, w1)).
Proof.
  intros Hany. split.
  - unfold Cli.handle_edit. now rewrite Hany.
  - intros e w1 Hwf. unfold Cli.any_field in Hany.
    apply orb_false_iff in Hany as [Hany Hd].
    apply orb_false_iff in Hany as [Hany Hc].
    apply orb_false_iff in Hany as [Ha Hn].
    destruct note; [discriminate|].
    rewrite <- (with_note_same e) at 2.
    apply (UpdateFacts.merged_expense_keeps e amount None category date w1 Hwf Ha).
    + now destruct (ExpenseService.given category).
    + now destruct (ExpenseService.given date).
Qed.

Lemma X23_edit_without_a_field_witness :
  let w := Samples.world_of [Samples.lunch] [] in
  Cli.any_field (AFloat (S754_zero false)) None (Some EmptyString) None = false
  /\ Cli.handle_edit "EXP-20240105-093015" (AFloat (S754_zero false)) None
       (Some EmptyString) None w
     = (Ok (Exit 1
             "Error: Please provide at least one field to update (--amount, --note, --category, or --date)"),
        w).
Proof.
  split; [reflexivity|].
  exact (proj1 (X23_edit_without_a_field "EXP-20240105-093015"
                  (AFloat (S754_zero false)) None (Some EmptyString) None
                  (Samples.world_of [Samples.lunch] []) eq_refl)).
Defined.

(** X24.  The delete command.  On a store that loads: when no entry has
    the id the command exits with code 1, reporting that the expense was
    not found, and writes nothing; when an entry has it and the rewrite
    succeeds the command reports the deletion and the store then loads
    without the entries of that id. *)
Theorem X24_delete_command (w : world) (expense_id : string) l w1 :
  ExpenseStorage.load_expenses w = (Ok l, w1) ->
  (has_id expense_id l = false ->
   Cli.handle_delete expense_id w
   = (Ok (Exit 1 ("Error: Expense " ++ expense_id ++ " not found")), w1))
  /\ (has_id expense_id l = true ->
      next_fault w1 = NoFault ->
      let w2 := after_write w1 (Some (Text (document_of (without_id expense_id l)))) in
      Cli.handle_delete expense_id w = (Ok (Done ("Deleted: " ++ expense_id)), w2)
      /\ ExpenseStorage.load_expenses w2 = (Ok (without_id expense_id l), w2)).
Proof.
  intros Hl.
  pose proof (DeleteFacts.delete_expense_unfold expense_id _ _ _ Hl) as Hd.
  destruct (StoreFacts.load_expenses_ok _ _ _ Hl) as (Hwf & _).
  split.
  - intros Hh. rewrite Hh in Hd.
    unfold Cli.handle_delete, ExpenseService.delete_expense, bind. now rewrite Hd.
  - intros Hh Hf. cbv zeta. rewrite Hh in Hd.
    pose proof (StoreFacts._write_expenses_cases w1 (without_id expense_id l)) as Hw.
    cbv zeta in Hw. rewrite Hf in Hw. rewrite Hw in Hd.
    split; [unfold Cli.handle_delete, ExpenseService.delete_expense, bind;
            now rewrite Hd|].
    apply StoreFacts.load_expenses_stored; [|reflexivity].
    unfold without_id. rewrite List.Forall_forall in *.
    intros e He. apply List.filter_In in He as [He _]. auto.
Qed.

Lemma X24_delete_command_witness :
  let w := Samples.world_of [Samples.lunch; Samples.bus] [] in
  ExpenseStorage.load_expenses w = (Ok [Samples.lunch; Samples.bus], w)
  /\ Cli.handle_delete "EXP-none" w
     = (Ok (Exit 1 "Error: Expense EXP-none not found"), w)
  /\ Cli.handle_delete "EXP-20240106-101500" w
     = (Ok (Done "Deleted: EXP-20240106-101500"), Samples.world_of [Samples.lunch] []).
Proof.
  pose proof (X24_delete_command (Samples.world_of [Samples.lunch; Samples.bus] [])
                "EXP-none" [Samples.lunch; Samples.bus]
                (Samples.world_of [Samples.lunch; Samples.bus] []) eq_refl) as H1.
  pose proof (X24_delete_command (Samples.world_of [Samples.lunch; Samples.bus] [])
                "EXP-20240106-101500" [Samples.lunch; Samples.bus]
                (Samples.world_of [Samples.lunch; Samples.bus] []) eq_refl) as H2.
  split; [reflexivity|]. split.
  - exact (proj1 H1 eq_refl).
  - exact (proj1 (proj2 H2 eq_refl eq_refl)).
Defined.

(** ** Failure of the load, and end-to-end behaviour *)

Module LoadFacts.
Import ExpenseStorage StoreFacts.

(** Whatever a load of an existing file returns, the file is as it was. *)
Lemma load_expenses_keeps_file w c r w1 :
  w_file w = Some c -> load_expenses w = (r, w1) -> w_file w1 = Some c.
Proof.
  intros Hc. destruct c as [d|d n|t|d n].
  - rewrite (load_expenses_text w d Hc).
    destruct (mapM from_dict (expense_list_of d) w) as [[l|e] w'] eqn:Hm;
      intros [= _ <-]; apply mapM_from_dict_same_disk in Hm as (-> & _); exact Hc.
  - rewrite (load_expenses_truncated w d n Hc). now intros [= _ <-].
  - unfold load_expenses, bind, _ensure_file_exists, try_except, open_and_load.
    rewrite Hc. cbv beta iota. rewrite Hc. now intros [= _ <-].
  - rewrite (load_expenses_truncated_inside w d n Hc). now intros [= _ <-].
Qed.

End LoadFacts.

(** X25.  Adding and then listing.  An expense constructed from a date, a
    category, an amount, a note and a currency, and added to a store that
    loads as [l], with a rewrite that succeeds, is returned by the next
    listing after the expenses of [l], with the category trimmed and
    lower-cased and the other fields as given. *)
Theorem X25_added_expense_is_listed (py : Py.interpreter)
    date category amount note currency (w w0 : world) (e : Expense) l w1 :
  Expense_init date category amount note currency None w = (Ok e, w0) ->
  ExpenseStorage.load_expenses w0 = (Ok l, w1) ->
  next_fault w1 = NoFault ->
  let w2 := after_write w1 (Some (Text (document_of (l ++ [e])))) in
  ExpenseService.add_expense e w0 = (Ok e, w2)
  /\ ExpenseService.list_expenses py None None None None None false None w2
     = (Ok (l ++ [e])%list, w2)
  /\ Expense.date e = date
  /\ Expense.category e = Text.lower (Text.strip category)
  /\ Expense.note e = note
  /\ Expense.currency e = currency.
Proof.
  intros Hinit Hl Hf. cbv zeta.
  apply Expense_init_ok in Hinit as (He & Hd & Hc & _ & Hn & Hcur & _).
  destruct (StoreFacts.load_expenses_ok _ _ _ Hl) as (Hwf & _).
  assert (Hall : Forall well_formed (l ++ [e])%list)
    by (apply List.Forall_app; split; [exact Hwf | now constructor]).
  assert (Hload : ExpenseStorage.load_expenses
                    (after_write w1 (Some (Text (document_of (l ++ [e])))))
                  = (Ok (l ++ [e])%list,
                     after_write w1 (Some (Text (document_of (l ++ [e]))))))
    by now apply StoreFacts.load_expenses_stored.
  split; [|split; [|auto]].
  - unfold ExpenseService.add_expense, ExpenseStorage.save_expense, bind. rewrite Hl.
    pose proof (StoreFacts._write_expenses_cases w1 (l ++ [e])) as Hw.
    cbv zeta in Hw. rewrite Hf in Hw. now rewrite Hw.
  - now rewrite (QueryFacts.list_expenses_unfold _ _ _ _ _ _ _ _ _ _ _ Hload).
Qed.

Lemma X25_added_expense_witness :
  let w := mkworld (Some (Samples.stored [Samples.bus])) [] Samples.clock 0 in
  Expense_init "2024-01-05" "  Food " (AFloat Samples.amount_12_5) "lunch" "BDT" None w
  = (Ok Samples.lunch, tick w)
  /\ ExpenseService.list_expenses (Py.cpython true) None None None None None false None
       (after_write (tick w) (Some (Text (document_of [Samples.bus; Samples.lunch]))))
     = (Ok [Samples.bus; Samples.lunch],
        after_write (tick w) (Some (Text (document_of [Samples.bus; Samples.lunch])))).
Proof.
  split; [reflexivity|].
  exact (proj1 (proj2
    (X25_added_expense_is_listed (Py.cpython true) "2024-01-05" "  Food " (AFloat Samples.amount_12_5)
       "lunch" "BDT"
       (mkworld (Some (Samples.stored [Samples.bus])) [] Samples.clock 0)
       (tick (mkworld (Some (Samples.stored [Samples.bus])) [] Samples.clock 0))
       Samples.lunch [Samples.bus]
       (tick (mkworld (Some (Samples.stored [Samples.bus])) [] Samples.clock 0))
       eq_refl eq_refl eq_refl))).
Defined.

(** X26.  A store that does not load is not overwritten.  When loading
    raises, then adding, deleting, replacing, looking up, updating,
    listing and summarising all raise that same exception and leave the
    world as the failed load left it; an existing file keeps its
    content. *)
Theorem X26_unloadable_store_is_left_alone (py : Py.interpreter)
    (w w1 : world) (x : exn) (e : Expense) (expense_id : string)
    (amount : amount_arg) (note category date month from_date to_date sort_by : option string)
    (min_amount max_amount : option Num.float) (descending : bool) (limit : option Z) :
  ExpenseStorage.load_expenses w = (Raise x, w1) ->
  ExpenseService.add_expense e w = (Raise x, w1)
  /\ ExpenseService.delete_expense expense_id w = (Raise x, w1)
  /\ ExpenseStorage.update_expense expense_id e w = (Raise x, w1)
  /\ ExpenseStorage.get_expense_by_id expense_id w = (Raise x, w1)
  /\ ExpenseService.update_expense expense_id amount note category date w = (Raise x, w1)
  /\ ExpenseService.list_expenses py month category min_amount max_amount sort_by
       descending limit w = (Raise x, w1)
  /\ ExpenseService.summary py month from_date to_date category w = (Raise x, w1)
  /\ (forall c, w_file w = Some c -> w_file w1 = Some c).
Proof.
  intros Hl.
  assert (Hget : ExpenseStorage.get_expense_by_id expense_id w = (Raise x, w1))
    by (unfold ExpenseStorage.get_expense_by_id, bind; now rewrite Hl).
  repeat apply conj.
  - unfold ExpenseService.add_expense, ExpenseStorage.save_expense, bind.
    now rewrite Hl.
  - unfold ExpenseService.delete_expense, ExpenseStorage.delete_expense, bind.
    now rewrite Hl.
  - unfold ExpenseStorage.update_expense, bind. now rewrite Hl.
  - exact Hget.
  - unfold ExpenseService.update_expense, bind at 1. now rewrite Hget.
  - unfold ExpenseService.list_expenses, bind. now rewrite Hl.
  - unfold ExpenseService.summary, bind. now rewrite Hl.
  - intros c Hc. eapply LoadFacts.load_expenses_keeps_file; eauto.
Qed.

Lemma X26_unloadable_store_witness :
  let w := mkworld (Some (Malformed "{oops")) [] Samples.clock 0 in
  let x := Exception "Corrupted data file" JSONDecodeError in
  ExpenseStorage.load_expenses w = (Raise x, w)
  /\ ExpenseService.add_expense Samples.lunch w = (Raise x, w)
  /\ ExpenseService.delete_expense "EXP-1" w = (Raise x, w).
Proof.
  pose proof (X26_unloadable_store_is_left_alone (Py.cpython true)
                (mkworld (Some (Malformed "{oops")) [] Samples.clock 0)
                (mkworld (Some (Malformed "{oops")) [] Samples.clock 0)
                (Exception "Corrupted data file" JSONDecodeError)
                Samples.lunch "EXP-1" ANone None None None None None None None
                None None false None eq_refl) as H.
  split; [reflexivity|]. split; [exact (proj1 H) | exact (proj1 (proj2 H))].
Defined.

(** X27.  Reading a record.  [from_dict] indexes "date", "category" and
    "amount" before anything is validated: the first of them that is
    missing raises [KeyError] for it, whatever the other values are.  A
    record that is read has the note of the mapping, or the empty text
    when there is none, and its currency, or "BDT" when there is none. *)
Theorem X27_reading_a_record (data : dict) (w : world) :
  (d_date data = None -> from_dict data w = (Raise (KeyError "date"), w))
  /\ (d_date data <> None -> d_category data = None ->
      from_dict data w = (Raise (KeyError "category"), w))
  /\ (d_date data <> None -> d_category data <> None -> d_amount data = None ->
      from_dict data w = (Raise (KeyError "amount"), w))
  /\ (forall e w', from_dict data w = (Ok e, w') ->
        d_date data = Some (Expense.date e)
        /\ Expense.note e = default EmptyString (d_note data)
        /\ Expense.currency e = default "BDT" (d_currency data)
        /\ well_formed e).
Proof.
  unfold from_dict, bind, getitem, raise, ret.
  destruct (d_date data) as [dt|]; [|repeat apply conj; congruence].
  destruct (d_category data) as [ct|]; [|repeat apply conj; congruence].
  destruct (d_amount data) as [am|]; [|repeat apply conj; congruence].
  repeat apply conj; try congruence.
  intros e w' H. apply Expense_init_ok in H as (Hwf & Hd & _ & _ & Hn & Hc & _).
  repeat split; auto; destruct Hwf; auto. now rewrite Hd.
Qed.

Lemma X27_reading_a_record_witness :
  let data := mkdict None (Some "2024-13-45") None None None None in
  from_dict data (Samples.world_of [] [])
  = (Raise (KeyError "category"), Samples.world_of [] []).
Proof.
  refine (proj1 (proj2 (X27_reading_a_record
                          (mkdict None (Some "2024-13-45") None None None None)
                          (Samples.world_of [] []))) _ eq_refl).
  discriminate.
Defined.
